(** * Geocities gallery scraper: the crawl-and-flatten pipeline

    A shallow embedding of [geocities_scraper.py] (the content scraper),
    [flatten_data.py] (the flattener) and [scrape_config.py] (the scraper of
    the configuration), with the properties of the pipeline that the
    specification lists and further ones read off the code.

    Python values are modelled as follows.
    - [str] is a sequence of Unicode code points ([list N]); comparison of
      strings is the lexicographic order of code points, as in Python.
    - [int] is [Z], and so is what [len] returns.
    - a [dict] read from JSON is an association list, a [set] of strings a
      [gset], the files of a directory a [gmap] from file name to content.
    - an exception is a value of [exn]; code that can raise returns an
      [except], and code that also changes a list or the outside lives in
      the monad [SE] below.

    What is outside the programs is a parameter of a run: the listing
    of the input directory with what [json.load] gives for each file, the
    answers of the network, the clock, and the file that a path denotes
    when the name of a hood has a path separator in it.  Writing a file is
    taken to succeed, two names of entries of a directory to be two files,
    and the log lines of the flattener are left out. *)

From Stdlib Require Import ZArith NArith Ascii String List Lia.
From stdpp Require Import base tactics option list gmap sorting pretty.

#[local] Set Warnings "-clear-no-such-hyp".

Local Open Scope list_scope.
Local Open Scope Z_scope.

(** ** Python strings *)

Module Py.

Definition char := N.
Definition str := list char.

(** The code points of an ASCII literal. *)
Definition lit (s : string) : str := map N_of_ascii (list_ascii_of_string s).

(** [c.isspace()]: the characters removed by [str.strip()]. *)
Definition isspace (c : char) : bool :=
  ((9 <=? c) && (c <=? 13) || (28 <=? c) && (c <=? 32)
   || (c =? 133) || (c =? 160) || (c =? 5760)
   || (8192 <=? c) && (c <=? 8202)
   || (c =? 8232) || (c =? 8233) || (c =? 8239) || (c =? 8287)
   || (c =? 12288))%N.

Fixpoint lstrip (s : str) : str :=
  match s with
  | c :: s' => if isspace c then lstrip s' else s
  | [] => []
  end.

Definition rstrip (s : str) : str := rev (lstrip (rev s)).

(** [s.strip()] *)
Definition strip (s : str) : str := rstrip (lstrip s).

(** [s.startswith(p)] and [s.endswith(p)] *)
Definition startswith (s p : str) : bool := bool_decide (p `prefix_of` s).
Definition endswith (s p : str) : bool := bool_decide (p `suffix_of` s).

(** [s[:-k]] for a positive [k] *)
Definition drop_last (k : nat) (s : str) : str := take (length s - k) s.

(** [s.find(sub)]: the index of the first occurrence, [None] for -1. *)
Fixpoint find (s sub : str) : option nat :=
  if startswith s sub then Some 0%nat
  else match s with
       | [] => None
       | _ :: s' => S <$> find s' sub
       end.

(** [sub in s] *)
Definition contains (sub s : str) : bool :=
  match find s sub with Some _ => true | None => false end.

(** [s.split(sep)] for a non-empty [sep]: cut at the first occurrence and go
    on with the rest.  Each cut removes at least one character, so [length s]
    rounds are enough. *)
Fixpoint split_aux (fuel : nat) (s sep : str) : list str :=
  match find s sep, fuel with
  | Some i, S fuel' =>
      take i s :: split_aux fuel' (drop (i + length sep) s) sep
  | _, _ => [s]
  end.

Definition split (s sep : str) : list str := split_aux (length s) s sep.

(** [s.replace(old, new)] for a non-empty [old]: every occurrence, scanning
    from the left, is replaced. *)
Fixpoint replace_aux (fuel : nat) (s old new : str) : str :=
  match find s old, fuel with
  | Some i, S fuel' =>
      take i s ++ new ++ replace_aux fuel' (drop (i + length old) s) old new
  | _, _ => s
  end.

Definition replace (s old new : str) : str := replace_aux (length s) s old new.

(** [s <= t] on strings *)
Fixpoint leb (s t : str) : bool :=
  match s, t with
  | [], _ => true
  | _ :: _, [] => false
  | c :: s', d :: t' => (c <? d)%N || (c =? d)%N && leb s' t'
  end.

Definition le (s t : str) : Prop := leb s t = true.

#[global] Instance le_dec : RelDecision le.
Proof. intros s t. unfold le. apply _. Defined.

(** [sorted(l)] on a list of strings *)
Definition sorted (l : list str) : list str := merge_sort le l.

(** [a // b] for [b <> 0] is [Z.div]: both round towards minus infinity.

    [l[a:b]]: a negative bound counts from the end, and both bounds are
    clamped to [0, len(l)]. *)
Definition clamp (n i : Z) : Z :=
  if i <? 0 then Z.max (i + n) 0 else Z.min i n.

Definition slice {A} (l : list A) (a b : Z) : list A :=
  let n := Z.of_nat (length l) in
  let a' := clamp n a in
  let b' := clamp n b in
  take (Z.to_nat (b' - a')) (drop (Z.to_nat a') l).

(** [len(l)] *)
Definition len {A} (l : list A) : Z := Z.of_nat (length l).

(** [range(n)] *)
Definition range (n : Z) : list Z := Z.of_nat <$> seq 0 (Z.to_nat n).

End Py.

(** ** Exceptions, and state with exceptions *)

Inductive exn :=
  | KeyError (key : Py.str)
  | TypeError
  | AttributeError
  | ValueError (msg : Py.str)
  | ZeroDivisionError
  | OSError (msg : Py.str)
  | JSONDecodeError (msg : Py.str)
  | RequestException (msg : Py.str)
  | HTTPError (status : Z).

Inductive except (A : Type) :=
  | Ok (a : A)
  | Raise (e : exn).
Arguments Ok {A} a.
Arguments Raise {A} e.

(** A computation over a mutable state [S] that returns or raises; what it
    did to the state before raising stays done. *)
Definition SE (S A : Type) : Type := S -> except A * S.

Definition ret {S A} (a : A) : SE S A := fun s => (Ok a, s).
Definition raise {S A} (e : exn) : SE S A := fun s => (Raise e, s).
Definition lift {S A} (r : except A) : SE S A := fun s => (r, s).
Definition bind {S A B} (m : SE S A) (k : A -> SE S B) : SE S B :=
  fun s => match m s with
           | (Ok a, s') => k a s'
           | (Raise e, s') => (Raise e, s')
           end.
Definition modify {S} (f : S -> S) : SE S unit := fun s => (Ok tt, f s).

(** [try: m except Exception as e: handler e] *)
Definition try_except {S A} (m : SE S A) (handler : exn -> SE S A) : SE S A :=
  fun s => match m s with
           | (Ok a, s') => (Ok a, s')
           | (Raise e, s') => handler e s'
           end.

Declare Scope se_scope.
Delimit Scope se_scope with se.
Notation "'let*' x ':=' m 'in' k" := (bind m (fun x => k))
  (at level 10, x name, m at level 100, k at level 200) : se_scope.
Notation "'do*' m 'in' k" := (bind m (fun _ => k))
  (at level 10, m at level 100, k at level 200) : se_scope.
Local Open Scope se_scope.

(** [for x in l: body x] *)
Fixpoint for_each {S A} (l : list A) (body : A -> SE S unit) : SE S unit :=
  match l with
  | [] => ret tt
  | x :: l' => do* body x in for_each l' body
  end.

(** The same for code that only returns or raises. *)
Definition ebind {A B} (r : except A) (k : A -> except B) : except B :=
  match r with
  | Ok a => k a
  | Raise e => Raise e
  end.

(** ** JSON values as [json.load] returns them *)

#[warnings="-register-all"]
Inductive json :=
  | JNone
  | JBool (b : bool)
  | JInt (n : Z)
  | JFloat (lexeme : Py.str)
  | JStr (s : Py.str)
  | JList (l : list json)
  | JDict (items : list (Py.str * json)).

Fixpoint assoc {V} (k : Py.str) (items : list (Py.str * V)) : option V :=
  match items with
  | [] => None
  | (k', v) :: items' => if decide (k = k') then Some v else assoc k items'
  end.

(** [v[key]] with a string key: only a dict has string subscripts. *)
Definition getitem (v : json) (key : Py.str) : except json :=
  match v with
  | JDict items =>
      match assoc key items with
      | Some x => Ok x
      | None => Raise (KeyError key)
      end
  | _ => Raise TypeError
  end.

(** [v.get(key, default)] *)
Definition get (v : json) (key : Py.str) (default : json) : except json :=
  match v with
  | JDict items =>
      match assoc key items with
      | Some x => Ok x
      | None => Ok default
      end
  | _ => Raise AttributeError
  end.

(** [for x in v]: a list yields its elements, a dict its keys, a string its
    characters; nothing else is iterable. *)
Definition iter (v : json) : except (list json) :=
  match v with
  | JList l => Ok l
  | JDict items => Ok (JStr <$> items.*1)
  | JStr s => Ok ((fun c => JStr [c]) <$> s)
  | _ => Raise TypeError
  end.

(** ** flatten_data.py *)

Module flatten_data.

(** The ['source'] dict of a flattened page: [{'t': 'h', 'h': hood_name}] or
    [{'t': 'b', 'h': hood_name, 'b': burb['name']}]. *)
Inductive source_dict :=
  | SourceH (h : Py.str)
  | SourceB (h : Py.str) (b : json).

Record page := {
  title : json;
  url : json;
  has_sound : json;
  source : source_dict
}.

(** The value of ['t'] *)
Definition t (p : page) : Py.str :=
  match source p with
  | SourceH _ => Py.lit "h"
  | SourceB _ _ => Py.lit "b"
  end.

(** [os.listdir(input_dir)] in the order the system lists it, each name with
    what [open] and [json.load] yield for that file. *)
Definition directory := list (Py.str * except json).

(** The dict appended for a card of the hood page.  The items of a dict
    display are evaluated in order. *)
Definition hood_page (hood_name : Py.str) (card : json) : except page :=
  ebind (getitem card (Py.lit "title")) (fun title =>
  ebind (getitem card (Py.lit "url")) (fun url =>
  ebind (get card (Py.lit "has_sound") (JBool false)) (fun has_sound =>
  Ok {| title := title; url := url; has_sound := has_sound;
        source := SourceH hood_name |}))).

(** The dict appended for a card of a burb. *)
Definition burb_page (hood_name : Py.str) (burb card : json) : except page :=
  ebind (getitem card (Py.lit "title")) (fun title =>
  ebind (getitem card (Py.lit "url")) (fun url =>
  ebind (get card (Py.lit "has_sound") (JBool false)) (fun has_sound =>
  ebind (getitem burb (Py.lit "name")) (fun name =>
  Ok {| title := title; url := url; has_sound := has_sound;
        source := SourceB hood_name name |})))).

Definition append (p : page) : SE (list page) unit :=
  modify (fun all_pages => all_pages ++ [p]).

(** The two loops of the [try] block, over the mutable [all_pages]. *)
Definition add_pages (hood_name : Py.str) (hood_data : json)
  : SE (list page) unit :=
  let* cards := lift (ebind (getitem hood_data (Py.lit "cards")) iter) in
  do* for_each cards (fun card =>
        let* p := lift (hood_page hood_name card) in append p) in
  let* burbs := lift (ebind (getitem hood_data (Py.lit "burbs")) iter) in
  for_each burbs (fun burb =>
    let* cards := lift (ebind (getitem burb (Py.lit "cards")) iter) in
    for_each cards (fun card =>
      let* p := lift (burb_page hood_name burb card) in append p)).

(** The [try] block with its handler, which logs and goes on. *)
Definition process_file (hood_name : Py.str) (content : except json)
  : SE (list page) unit :=
  try_except
    (let* hood_data := lift content in add_pages hood_name hood_data)
    (fun _ => ret tt).

(** One round of the loop over the directory. *)
Definition scan_file (st : list page * gset Py.str)
    (entry : Py.str * except json) : list page * gset Py.str :=
  let '(all_pages, hood_names) := st in
  let '(filename, content) := entry in
  if negb (Py.endswith filename (Py.lit ".json")) then st
  else
    let hood_name := Py.drop_last 5 filename in
    let hood_names := hood_names ∪ {[hood_name]} in
    (snd (process_file hood_name content all_pages), hood_names).

Definition scan (input_dir : directory) : list page * gset Py.str :=
  fold_left scan_file input_dir ([], ∅).

Record metadata := {
  total_pages : Z;
  total_hoods : Z;
  hoods : list Py.str;
  generated_at : Py.str;
  chunks : Z
}.

(** What a run writes: the metadata file, and the chunk files in the order
    of the loop, the file [f"{base_name}_chunk_{i}.json.gz"] as [(i, chunk)]. *)
Record output := {
  metadata_file : metadata;
  chunk_files : list (Z * list page)
}.

Definition chunk (all_pages : list page) (chunk_size i : Z) : list page :=
  let start_idx := i * chunk_size in
  let end_idx := Z.min ((i + 1) * chunk_size) (Py.len all_pages) in
  Py.slice all_pages start_idx end_idx.

(** The part of [flatten_geocities_data] after the scan.  The division
    comes before any file is written. *)
Definition write_chunks (all_pages : list page) (hood_names : gset Py.str)
    (now : Py.str) (chunk_size : Z) : except output :=
  if chunk_size =? 0 then Raise ZeroDivisionError
  else
    let total_chunks := (Py.len all_pages + chunk_size - 1) / chunk_size in
    let metadata :=
      {| total_pages := Py.len all_pages;
         total_hoods := Z.of_nat (size hood_names);
         hoods := Py.sorted (elements hood_names);
         generated_at := now;
         chunks := total_chunks |} in
    Ok {| metadata_file := metadata;
          chunk_files :=
            (fun i => (i, chunk all_pages chunk_size i))
              <$> Py.range total_chunks |}.

(** [now] is what [time.strftime] returns during the run. *)
Definition flatten_geocities_data (input_dir : directory) (now : Py.str)
    (chunk_size : Z) : except output :=
  let '(all_pages, hood_names) := scan input_dir in
  write_chunks all_pages hood_names now chunk_size.

(** *** Vocabulary of the properties

    The group names met during the scan: the stems of the file names that
    end in [.json], in the order of the listing. *)
Definition encountered (input_dir : directory) : list Py.str :=
  Py.drop_last 5
    <$> filter (fun f => Py.endswith f (Py.lit ".json") = true) (input_dir.*1).

(** A value read from a file is a group document when it has the lists
    ['cards'] and ['burbs'], each card has a ['title'] and a ['url'], and
    each burb a ['name'] and a list ['cards'] of cards. *)
Definition is_card (card : json) : bool :=
  match getitem card (Py.lit "title"), getitem card (Py.lit "url") with
  | Ok _, Ok _ => true
  | _, _ => false
  end.

Definition is_burb (burb : json) : bool :=
  match getitem burb (Py.lit "name"), getitem burb (Py.lit "cards") with
  | Ok _, Ok (JList cards) => forallb is_card cards
  | _, _ => false
  end.

Definition is_hood (hood_data : json) : bool :=
  match getitem hood_data (Py.lit "cards"),
        getitem hood_data (Py.lit "burbs") with
  | Ok (JList cards), Ok (JList burbs) =>
      forallb is_card cards && forallb is_burb burbs
  | _, _ => false
  end.

(** The value under a key of a dict, [None] when there is none. *)
Definition field (v : json) (key : Py.str) : json :=
  match getitem v key with
  | Ok x => x
  | Raise _ => JNone
  end.

Definition cards_of (v : json) : list json :=
  match getitem v (Py.lit "cards") with
  | Ok (JList cards) => cards
  | _ => []
  end.

Definition burbs_of (v : json) : list json :=
  match getitem v (Py.lit "burbs") with
  | Ok (JList burbs) => burbs
  | _ => []
  end.

(** The flattened item a card is projected to: its title, URL and sound
    flag ([False] when the card has none), tagged with where it is from. *)
Definition item (src : source_dict) (card : json) : page :=
  {| title := field card (Py.lit "title");
     url := field card (Py.lit "url");
     has_sound :=
       match getitem card (Py.lit "has_sound") with
       | Ok x => x
       | Raise _ => JBool false
       end;
     source := src |}.

(** The items of a group document: those of the group's own cards, then
    those of each burb's cards, burb after burb. *)
Definition hood_items (hood_name : Py.str) (hood_data : json) : list page :=
  item (SourceH hood_name) <$> cards_of hood_data.

Definition burb_items (hood_name : Py.str) (burb : json) : list page :=
  item (SourceB hood_name (field burb (Py.lit "name"))) <$> cards_of burb.

Definition items (hood_name : Py.str) (hood_data : json) : list page :=
  hood_items hood_name hood_data
  ++ flat_map (burb_items hood_name) (burbs_of hood_data).

(** A directory entry is a valid group file when its name ends in [.json]
    and it holds a group document; [valid_items] are the items of the valid
    group files of a directory, in the order of the listing. *)
Definition valid_items (input_dir : directory) : list page :=
  flat_map
    (fun entry : Py.str * except json =>
       match entry with
       | (filename, Ok hood_data) =>
           if Py.endswith filename (Py.lit ".json") && is_hood hood_data
           then items (Py.drop_last 5 filename) hood_data
           else []
       | _ => []
       end)
    input_dir.

(** Every file of the directory other than those that do not end in
    [.json] is a valid group file. *)
Definition all_valid (input_dir : directory) : bool :=
  forallb
    (fun entry : Py.str * except json =>
       match entry with
       | (filename, Ok hood_data) =>
           negb (Py.endswith filename (Py.lit ".json")) || is_hood hood_data
       | (filename, Raise _) => negb (Py.endswith filename (Py.lit ".json"))
       end)
    input_dir.

End flatten_data.

(** ** geocities_scraper.py *)

Module geocities_scraper.

(** The configuration file: [config['base_url']] and
    [config['neighborhoods']], a dict from hood name to its description and
    burbs, in the order of the file. *)
Record hood_info := {
  info_description : Py.str;
  info_burbs : list Py.str
}.

Record config := {
  base_url : Py.str;
  neighborhoods : list (Py.str * hood_info)
}.

(** The dicts the scraper builds.  [hd_metadata] is the key that
    [save_hood_data] adds. *)
Record card_dict := {
  c_title : Py.str;
  c_url : Py.str;
  c_last_modified : Py.str;
  c_has_sound : bool
}.

Record burb_dict := {
  bd_name : Py.str;
  bd_url : Py.str;
  bd_cards : list card_dict;
  bd_total_pages : Z
}.

Record scrape_metadata := {
  scraped_at : Py.str;
  md_base_url : Py.str
}.

Record hood_dict := {
  hd_name : Py.str;
  hd_description : Py.str;
  hd_url : Py.str;
  hd_cards : list card_dict;
  hd_total_pages : Z;
  hd_burbs : list burb_dict;
  hd_total_burbs : Z;
  hd_metadata : option scrape_metadata
}.

(** What [get_burb_cards] reads of a [div.card] element:
    - [title_link]: [None] when [card.find('div', class_='card-title')] is
      [None], [Some None] when that div has no link, else the text of its
      first link;
    - [subtitle]: the text of [card.find('div', class_='card-subtitle')],
      [None] when there is no such div. *)
Record card_element := {
  title_link : option (option Py.str);
  subtitle : option Py.str
}.

(** What [requests.get] does: it raises, or it returns a response with a
    status code, of which [card_elements] is
    [BeautifulSoup(response.text, 'html.parser').find_all('div', class_='card')]. *)
Inductive response :=
  | Failed (e : exn)
  | Response (status_code : Z) (card_elements : list card_element).

(** The log calls of the module, one constructor per call. *)
Inductive log_record :=
  | ErrorScrapingPage (url : Py.str) (e : exn)
  | ErrorProcessingCard (e : exn)
  | ScrapingBurb (burb_url : Py.str)
  | SavedHoodData (output_file : Py.str)
  | ScrapingNeighborhoodPage (hood_url : Py.str)
  | BurbNotFound (burb_name hood_name : Py.str)
  | ErrorScrapingHood (hood_name : Py.str) (e : exn)
  | SkippingScrapedHood (hood_name : Py.str)
  | ScrapingCompleted
  | ScrapingFailed (e : exn).

Inductive level := INFO | WARNING | ERROR.

#[global] Instance level_eq_dec : EqDecision level.
Proof. solve_decision. Defined.

Definition levelname (r : log_record) : level :=
  match r with
  | ErrorScrapingPage _ _ | ErrorScrapingHood _ _ | ScrapingFailed _ => ERROR
  | ErrorProcessingCard _ | BurbNotFound _ _ => WARNING
  | _ => INFO
  end.

(** What a run does to the outside, in order. *)
Inductive event :=
  | Get (url : Py.str)
  | Sleep (seconds : Z)
  | Dump (output_file : Py.str)
  | Log (r : log_record).

(** A file: one that [json.dump] wrote for a hood, or anything else (a
    directory too). *)
Inductive file :=
  | HoodJson (d : hood_dict)
  | Other (content : Py.str).

(** The files a run can reach, and the events so far.  An entry of the
    output directory is known by its name, which has no slash; a file
    elsewhere by a name with a slash in it, say its absolute path. *)
Record world := {
  files : gmap Py.str file;
  events : list event
}.

Definition output_dir : Py.str := Py.lit "geocities_data".

(** [os.path.join(a, b)] for an [a] that is not empty and does not end in
    a slash: an absolute [b] is the result. *)
Definition path_join (a b : Py.str) : Py.str :=
  if Py.startswith b (Py.lit "/") then b else a ++ Py.lit "/" ++ b.
Arguments path_join : simpl never.

Definition emit (e : event) : SE world unit :=
  modify (fun w => {| files := files w; events := events w ++ [e] |}).

Definition log (r : log_record) : SE world unit := emit (Log r).

(** [time.sleep(seconds)] *)
Definition sleep (seconds : Z) : SE world unit := emit (Sleep seconds).

(** What the file system makes of paths: the file that a path denotes, by
    the name the world knows it by. *)
Definition resolver : Type := Py.str -> Py.str.

(** [card.find(...)] and the string methods used on its result do not raise,
    so the body of the inner [try] always returns: a card to append, or
    nothing when the card has no subtitle. *)
Definition process_card (card : card_element) : except (option card_dict) :=
  let title :=
    match title_link card with
    | Some (Some text) => text
    | _ => Py.lit "Untitled"
    end in
  match subtitle card with
  | Some subtitle_text =>
      let parts := Py.split subtitle_text (Py.lit "Last modified:") in
      let url :=
        match parts !! 0%nat with Some p => Py.strip p | None => [] end in
      let url := Py.replace url (Py.lit "www.geocities.com/") [] in
      let last_modified :=
        match parts !! 1%nat with Some p => Py.strip p | None => [] end in
      let has_sound := Py.contains [128266%N] title in
      Ok (Some {| c_title := title; c_url := url;
                  c_last_modified := last_modified;
                  c_has_sound := has_sound |})
  | None => Ok None
  end.

(** [response.raise_for_status()] *)
Definition raise_for_status (status_code : Z) : except unit :=
  if (400 <=? status_code) && (status_code <? 600)
  then Raise (HTTPError status_code)
  else Ok tt.

Section Scraper.

(** The outside of a run: what the [n]-th action gets from the network for
    a URL, and what the clock shows then. *)
Variable network : nat -> Py.str -> response.
Variable clock : nat -> Py.str.

(** [self.config]; [self.base_url] is [base_url self]. *)
Variable self : config.

(** The file system, asked for the paths that are not plainly an entry of
    the output directory. *)
Variable resolve : resolver.

(** [requests.get(url)] *)
Definition requests_get (url : Py.str)
  : SE world (Z * list card_element) :=
  fun w =>
    let w' := {| files := files w; events := events w ++ [Get url] |} in
    match network (length (events w)) url with
    | Failed e => (Raise e, w')
    | Response status_code card_elements =>
        (Ok (status_code, card_elements), w')
    end.

(** [time.strftime('%Y-%m-%d %H:%M:%S')] *)
Definition strftime : SE world Py.str :=
  fun w => (Ok (clock (length (events w))), w).

(** The loop over the card elements, with its [try] and handler. *)
Fixpoint cards_loop (card_elements : list card_element) (cards : list card_dict)
  : SE world (list card_dict) :=
  match card_elements with
  | [] => ret cards
  | card :: rest =>
      let* cards :=
        try_except
          (let* r := lift (process_card card) in
           ret (match r with Some c => cards ++ [c] | None => cards end))
          (fun e => do* log (ErrorProcessingCard e) in ret cards) in
      cards_loop rest cards
  end.

Definition get_burb_cards (url : Py.str) : SE world (list card_dict) :=
  try_except
    (let* response := requests_get url in
     do* lift (raise_for_status (fst response)) in
     cards_loop (snd response) [])
    (fun e => do* log (ErrorScrapingPage url e) in ret []).

Definition scrape_burb (hood_name burb_name : Py.str) : SE world burb_dict :=
  let burb_url :=
    base_url self ++ Py.lit "/" ++ hood_name ++ Py.lit "/" ++ burb_name in
  do* log (ScrapingBurb burb_url) in
  let* cards := get_burb_cards burb_url in
  ret {| bd_name := burb_name; bd_url := burb_url; bd_cards := cards;
         bd_total_pages := Py.len cards |}.

(** The file that [open(os.path.join(self.output_dir, file_name), 'w')]
    writes: the entry [file_name] of the output directory when the name
    has no slash, and what the path denotes when it has. *)
Definition written_file (file_name : Py.str) : Py.str :=
  if bool_decide (47%N ∈ file_name)
  then resolve (path_join output_dir file_name)
  else file_name.

(** The dict is changed in place, so the caller sees the new key: the
    changed dict is returned here. *)
Definition save_hood_data (hood_data : hood_dict) : SE world hood_dict :=
  let hood_name := hd_name hood_data in
  let file_name := hood_name ++ Py.lit ".json" in
  let output_file := path_join output_dir file_name in
  let* now := strftime in
  let hood_data :=
    {| hd_name := hd_name hood_data;
       hd_description := hd_description hood_data;
       hd_url := hd_url hood_data;
       hd_cards := hd_cards hood_data;
       hd_total_pages := hd_total_pages hood_data;
       hd_burbs := hd_burbs hood_data;
       hd_total_burbs := hd_total_burbs hood_data;
       hd_metadata :=
         Some {| scraped_at := now; md_base_url := base_url self |} |} in
  do* (fun w => (Ok tt,
         {| files := <[written_file file_name := HoodJson hood_data]>
                       (files w);
            events := events w ++ [Dump output_file] |})) in
  do* log (SavedHoodData output_file) in
  ret hood_data.

(** [os.listdir(self.output_dir)]: the names of the entries. *)
Definition listdir (w : world) : list Py.str :=
  filter (fun name => 47%N ∉ name) (elements (dom (files w))).

Definition get_scraped_hoods : SE world (gset Py.str) :=
  fun w =>
    (Ok (fold_left
           (fun (scraped_hoods : gset Py.str) filename =>
              if Py.endswith filename (Py.lit ".json")
              then scraped_hoods ∪ {[Py.drop_last 5 filename]}
              else scraped_hoods)
           (listdir w) ∅),
     w).

(** The loop over [burbs_to_scrape]. *)
Fixpoint burbs_loop (hood_name : Py.str) (hood_info : hood_info)
    (burbs_to_scrape : list Py.str) (scraped_burbs : list burb_dict)
  : SE world (list burb_dict) :=
  match burbs_to_scrape with
  | [] => ret scraped_burbs
  | burb_name :: rest =>
      let* scraped_burbs :=
        if bool_decide (burb_name ∈ info_burbs hood_info) then
          let* burb_data := scrape_burb hood_name burb_name in
          do* sleep 1 in
          ret (scraped_burbs ++ [burb_data])
        else
          do* log (BurbNotFound burb_name hood_name) in
          ret scraped_burbs in
      burbs_loop hood_name hood_info rest scraped_burbs
  end.

Definition scrape_hood (hood_name : Py.str) (burbs : option (list Py.str))
  : SE world hood_dict :=
  match assoc hood_name (neighborhoods self) with
  | None =>
      raise (ValueError
               (Py.lit "Hood " ++ hood_name ++ Py.lit " not found in config"))
  | Some hood_info =>
      let hood_url := base_url self ++ Py.lit "/" ++ hood_name in
      do* log (ScrapingNeighborhoodPage hood_url) in
      let* hood_cards := get_burb_cards hood_url in
      let burbs_to_scrape :=
        match burbs with
        | Some (b :: l) => b :: l
        | _ => info_burbs hood_info
        end in
      let* scraped_burbs := burbs_loop hood_name hood_info burbs_to_scrape [] in
      let hood_data :=
        {| hd_name := hood_name;
           hd_description := info_description hood_info;
           hd_url := hood_url;
           hd_cards := hood_cards;
           hd_total_pages := Py.len hood_cards;
           hd_burbs := scraped_burbs;
           hd_total_burbs := Py.len scraped_burbs;
           hd_metadata := None |} in
      save_hood_data hood_data
  end.

(** The parsed command line. *)
Record args := {
  args_hood : option Py.str;
  args_burbs : option (list Py.str);
  args_resume : bool
}.

(** One round of the loop over all hoods of the configuration. *)
Definition scrape_unless_scraped (scraped_hoods : gset Py.str)
    (hood_name : Py.str) : SE world unit :=
  if bool_decide (hood_name ∉ scraped_hoods) then
    try_except
      (do* scrape_hood hood_name None in ret tt)
      (fun e => log (ErrorScrapingHood hood_name e))
  else log (SkippingScrapedHood hood_name).

Definition main (args : args) : SE world unit :=
  try_except
    (match args_hood args with
     | Some (c :: hood) =>
         do* scrape_hood (c :: hood) (args_burbs args) in ret tt
     | _ =>
         let* scraped_hoods :=
           if args_resume args then get_scraped_hoods else ret ∅ in
         do* for_each (neighborhoods self).*1
               (scrape_unless_scraped scraped_hoods) in
         log ScrapingCompleted
     end)
    (fun e => do* log (ScrapingFailed e) in raise e).

End Scraper.

Arguments written_file : simpl never.

(** *** Vocabulary of the properties *)

(** The world after some more events. *)
Definition add_events (w : world) (evs : list event) : world :=
  {| files := files w; events := events w ++ evs |}.

(** The URLs requested, in order. *)
Definition gets (evs : list event) : list Py.str :=
  omap (fun e => match e with Get url => Some url | _ => None end) evs.

(** The files dumped, in order. *)
Definition dumps (evs : list event) : list Py.str :=
  omap (fun e => match e with Dump f => Some f | _ => None end) evs.

(** The records logged at a level, in order. *)
Definition logged (l : level) (evs : list event) : list log_record :=
  omap (fun e => match e with
                 | Log r => if decide (levelname r = l) then Some r else None
                 | _ => None
                 end) evs.

(** The record a card element gives, if any. *)
Definition card_of (card : card_element) : option card_dict :=
  match process_card card with
  | Ok r => r
  | Raise _ => None
  end.

(** The exception with which fetching a page fails, if it does: the one
    [requests.get] raises, or the one [raise_for_status] raises. *)
Definition fetch_failure (r : response) : option exn :=
  match r with
  | Failed e => Some e
  | Response status_code _ =>
      match raise_for_status status_code with
      | Raise e => Some e
      | Ok _ => None
      end
  end.

Definition hood_url (self : config) (hood_name : Py.str) : Py.str :=
  base_url self ++ Py.lit "/" ++ hood_name.

Definition burb_url (self : config) (hood_name burb_name : Py.str) : Py.str :=
  base_url self ++ Py.lit "/" ++ hood_name ++ Py.lit "/" ++ burb_name.


(** The name of the file of a hood, [f"{hood_name}.json"]. *)
Definition hood_file (hood_name : Py.str) : Py.str :=
  hood_name ++ Py.lit ".json".

(** A name without a path separator. *)
Definition plain (name : Py.str) : Prop := 47%N ∉ name.

#[global] Instance plain_dec (name : Py.str) : Decision (plain name).
Proof. unfold plain. apply _. Defined.

(** What the comment in [get_burb_cards] and the specification say of the
    URL: the prefix is removed, as [s.removeprefix(prefix)] does. *)
Definition removeprefix (s prefix : Py.str) : Py.str :=
  if Py.startswith s prefix then drop (length prefix) s else s.

(** The invariants of the documents. *)
Definition burb_counts (b : burb_dict) : Prop :=
  bd_total_pages b = Py.len (bd_cards b).

Definition hood_counts (d : hood_dict) : Prop :=
  hd_total_pages d = Py.len (hd_cards d) /\
  hd_total_burbs d = Py.len (hd_burbs d) /\
  Forall burb_counts (hd_burbs d).

End geocities_scraper.

(** ** Further vocabulary for the flattener *)

Module flatten_props.
Import flatten_data.

(** The pages one entry of the listing adds when the scan starts from no
    page: none for a name that does not end in [.json]. *)
Definition contribution (entry : Py.str * except json) : list page :=
  let '(filename, content) := entry in
  if Py.endswith filename (Py.lit ".json")
  then (process_file (Py.drop_last 5 filename) content []).2
  else [].

(** The value of ['h'] in the source of a page. *)
Definition hood_of (p : page) : Py.str :=
  match source p with
  | SourceH h => h
  | SourceB h _ => h
  end.

(** A computation over the pages only appends: what it returns and what it
    appends do not depend on the pages it starts from, and every page it
    appends satisfies [P]. *)
Definition grows {A} (P : page -> Prop) (m : SE (list page) A) : Prop :=
  (forall all_pages, m all_pages = ((m []).1, all_pages ++ (m []).2)) /\
  Forall P (m []).2.

End flatten_props.

(** ** The names of the files the flattener writes *)

Module flatten_files.

(** [str(i)] for an int: its decimal digits, after a minus sign when it is
    negative. *)
Definition str_of_int (i : Z) : Py.str := Py.lit (pretty i).

(** [s.rfind(c)] for a character: the last index, [None] for -1. *)
Fixpoint rfind_char (c : Py.char) (s : Py.str) : option nat :=
  match s with
  | [] => None
  | d :: s' =>
      match rfind_char c s' with
      | Some i => Some (S i)
      | None => if (d =? c)%N then Some 0%nat else None
      end
  end.

(** [os.path.splitext(p)[0]]: [p] up to its last dot, when that dot comes
    after the last slash and after a character of the file name that is
    not a dot; else [p]. *)
Definition splitext_root (p : Py.str) : Py.str :=
  match rfind_char 46%N p with
  | None => p
  | Some dotIndex =>
      let filenameIndex :=
        match rfind_char 47%N p with
        | Some sepIndex => S sepIndex
        | None => 0%nat
        end in
      if existsb (fun c => negb (c =? 46)%N)
           (take (dotIndex - filenameIndex) (drop filenameIndex p))
      then take dotIndex p
      else p
  end.

(** [os.path.basename(p)]: what comes after the last slash. *)
Definition basename (p : Py.str) : Py.str :=
  drop (match rfind_char 47%N p with
        | Some sepIndex => S sepIndex
        | None => 0%nat
        end) p.

(** [output_file.replace('.json', '_metadata.json.gz')] *)
Definition metadata_file_name (output_file : Py.str) : Py.str :=
  Py.replace output_file (Py.lit ".json") (Py.lit "_metadata.json.gz").

(** [f"{base_name}_chunk_{i}.json.gz"] *)
Definition chunk_file_name (output_file : Py.str) (i : Z) : Py.str :=
  splitext_root output_file ++ Py.lit "_chunk_" ++ str_of_int i
  ++ Py.lit ".json.gz".

End flatten_files.

(** ** Further vocabulary for strings and for the scraper *)

Module props.

(** A string does not start with a whitespace character. *)
Definition starts_clean (s : Py.str) : Prop :=
  match s with
  | c :: _ => Py.isspace c = false
  | [] => True
  end.

(** A string has no whitespace at either end. *)
Definition stripped (s : Py.str) : Prop :=
  starts_clean s /\ starts_clean (rev s).

(** [sub] occurs in [s]. *)
Definition occurs (sub s : Py.str) : Prop :=
  exists pre post, s = pre ++ sub ++ post.

(** The text up to the first [sep], all of it when there is none. *)
Definition before (s sep : Py.str) : Py.str :=
  match Py.find s sep with
  | Some i => take i s
  | None => s
  end.

(** The pauses of a run, in order. *)
Definition sleeps (evs : list geocities_scraper.event) : list Z :=
  omap (fun e => match e with
                 | geocities_scraper.Sleep seconds => Some seconds
                 | _ => None
                 end) evs.

(** The title [get_burb_cards] gives a card element. *)
Definition title_of (card : geocities_scraper.card_element) : Py.str :=
  match geocities_scraper.title_link card with
  | Some (Some text) => text
  | _ => Py.lit "Untitled"
  end.

(** The file of a hood has the document of the hood. *)
Definition saved (resolve : geocities_scraper.resolver) (hood_name : Py.str)
    (w : geocities_scraper.world) : Prop :=
  exists d,
    geocities_scraper.files w
      !! geocities_scraper.written_file resolve
           (geocities_scraper.hood_file hood_name)
      = Some (geocities_scraper.HoodJson d) /\
    geocities_scraper.hd_name d = hood_name.


End props.

(** ** scrape_config.py *)

Module scrape_config.

(** [self.base_url] *)
Definition base_url : Py.str := Py.lit "https://geocities.restorativland.org".

(** [re.sub] with a pattern that is one character class repeated ([[\n\t]+],
    [\s+]): from left to right, every maximal run of characters of the class
    is replaced by [repl].  [in_run] tells that the character before is of
    the run being replaced. *)
Fixpoint sub_runs_from (in_run : bool) (cls : Py.char -> bool)
    (repl text : Py.str) : Py.str :=
  match text with
  | [] => []
  | c :: text' =>
      if cls c
      then (if in_run then [] else repl) ++ sub_runs_from true cls repl text'
      else c :: sub_runs_from false cls repl text'
  end.

Definition re_sub_runs (cls : Py.char -> bool) (repl text : Py.str) : Py.str :=
  sub_runs_from false cls repl text.

(** The class [[\n\t]]; the class [\s] of a [str] pattern is
    [Py.isspace]. *)
Definition newline_or_tab (c : Py.char) : bool := ((c =? 10) || (c =? 9))%N.

Definition clean_text (text : Py.str) : Py.str :=
  let text := re_sub_runs newline_or_tab (Py.lit " ") text in
  let text := re_sub_runs Py.isspace (Py.lit " ") text in
  Py.strip text.

(** [sep.join(l)] *)
Fixpoint join (sep : Py.str) (l : list Py.str) : Py.str :=
  match l with
  | [] => []
  | x :: l' =>
      match l' with
      | [] => x
      | _ :: _ => x ++ sep ++ join sep l'
      end
  end.

(** [d[k] = v] on a dict, which keeps its keys in the order of their first
    insertion. *)
Fixpoint dict_set {V} (k : Py.str) (v : V) (d : list (Py.str * V))
  : list (Py.str * V) :=
  match d with
  | [] => [(k, v)]
  | (k', v') :: d' =>
      if decide (k = k') then (k, v) :: d' else (k', v') :: dict_set k v d'
  end.

(** What the loop reads of an [h2] element: the text of its first link,
    when it has one; the [stripped_strings] of the next [h5] of the
    document, when there is one; the texts of the links of the next
    [table], when there is one. *)
Record hood_element := {
  hood_link : option Py.str;
  description_element : option (list Py.str);
  table : option (list Py.str)
}.

(** What [requests.get] gives: an exception, or a response with its status
    and the [h2] elements of its text. *)
Inductive response :=
  | Failed (e : exn)
  | Response (status_code : Z) (hood_elements : list hood_element).

(** The log calls of the module, one constructor per call. *)
Inductive log_record :=
  | ScrapedNeighborhood (hood_name : Py.str)
  | ErrorProcessingNeighborhood (e : exn)
  | ErrorScrapingMainPage (e : exn)
  | ConfigSaved (output_file : Py.str)
  | SuccessfullyScraped (n : Z)
  | ScrapingFailed (e : exn).

Inductive event :=
  | Get (url : Py.str)
  | Dump (output_file : Py.str)
  | Log (r : log_record).

(** The configuration files by name, and the events so far. *)
Record world := {
  files : gmap Py.str geocities_scraper.config;
  events : list event
}.

Definition log (r : log_record) : SE world unit :=
  modify (fun w => {| files := files w; events := events w ++ [Log r] |}).

(** The body of the inner [try] up to the assignment: nothing for an
    element without a link (the [continue]), else the name and the value
    to store under it.  Nothing in it raises. *)
Definition hood_entry (hood_element : hood_element)
  : except (option (Py.str * geocities_scraper.hood_info)) :=
  match hood_link hood_element with
  | None => Ok None
  | Some text =>
      let hood_name := clean_text text in
      let description :=
        match description_element hood_element with
        | Some stripped_strings =>
            let description_parts :=
              omap (fun text =>
                      if Py.startswith text (Py.lit "Geocities Icon")
                      then None else Some (clean_text text))
                stripped_strings in
            join (Py.lit " ") description_parts
        | None => []
        end in
      let burbs :=
        match table hood_element with
        | Some burb_links => clean_text <$> burb_links
        | None => []
        end in
      Ok (Some (hood_name,
                {| geocities_scraper.info_description := description;
                   geocities_scraper.info_burbs := burbs |}))
  end.

(** The loop over the [h2] elements, with its [try] and handler. *)
Fixpoint hoods_loop (hood_elements : list hood_element)
    (neighborhoods : list (Py.str * geocities_scraper.hood_info))
  : SE world (list (Py.str * geocities_scraper.hood_info)) :=
  match hood_elements with
  | [] => ret neighborhoods
  | hood_element :: rest =>
      let* neighborhoods :=
        try_except
          (let* r := lift (hood_entry hood_element) in
           match r with
           | Some (hood_name, info) =>
               let neighborhoods := dict_set hood_name info neighborhoods in
               do* log (ScrapedNeighborhood hood_name) in
               ret neighborhoods
           | None => ret neighborhoods
           end)
          (fun e => do* log (ErrorProcessingNeighborhood e) in
                    ret neighborhoods) in
      hoods_loop rest neighborhoods
  end.

Section Scraper.

(** What the network answers for a URL. *)
Variable network : Py.str -> response.

(** [requests.get(url)] *)
Definition requests_get (url : Py.str) : SE world (Z * list hood_element) :=
  fun w =>
    let w' := {| files := files w; events := events w ++ [Get url] |} in
    match network url with
    | Failed e => (Raise e, w')
    | Response status_code hood_elements =>
        (Ok (status_code, hood_elements), w')
    end.

Definition scrape_main_page
  : SE world (list (Py.str * geocities_scraper.hood_info)) :=
  try_except
    (let* response := requests_get base_url in
     do* lift (geocities_scraper.raise_for_status (fst response)) in
     hoods_loop (snd response) [])
    (fun e => do* log (ErrorScrapingMainPage e) in raise e).

Definition save_config
    (neighborhoods : list (Py.str * geocities_scraper.hood_info))
    (output_file : Py.str) : SE world unit :=
  let config :=
    {| geocities_scraper.base_url := base_url;
       geocities_scraper.neighborhoods := neighborhoods |} in
  do* (fun w => (Ok tt,
         {| files := <[output_file := config]> (files w);
            events := events w ++ [Dump output_file] |})) in
  log (ConfigSaved output_file).

Definition main : SE world unit :=
  try_except
    (let* neighborhoods := scrape_main_page in
     do* save_config neighborhoods (Py.lit "geocities_config.json") in
     log (SuccessfullyScraped (Py.len neighborhoods)))
    (fun e => do* log (ScrapingFailed e) in raise e).

End Scraper.

(** *** Vocabulary of the properties *)

(** The world after some more events. *)
Definition add_events (w : world) (evs : list event) : world :=
  {| files := files w; events := events w ++ evs |}.

(** The name and the value an [h2] element gives, if any. *)
Definition entry_of (hood_element : hood_element)
  : option (Py.str * geocities_scraper.hood_info) :=
  match hood_entry hood_element with
  | Ok r => r
  | Raise _ => None
  end.

(** The exception with which fetching the main page fails, if it does. *)
Definition fetch_failure (r : response) : option exn :=
  match r with
  | Failed e => Some e
  | Response status_code _ =>
      match geocities_scraper.raise_for_status status_code with
      | Raise e => Some e
      | Ok _ => None
      end
  end.

(** The whitespace of a text is single spaces: every whitespace character
    of it is a space, and no two spaces are next to each other. *)
Definition single_spaced (s : Py.str) : Prop :=
  (forall c, c ∈ s -> Py.isspace c = true -> c = 32%N) /\
  ~ props.occurs (Py.lit "  ") s.

(** A text is normal when, besides, it has no whitespace at either end. *)
Definition normal (s : Py.str) : Prop :=
  props.stripped s /\ single_spaced s.

(** The same, read from the left: [after_space] tells that the character
    before is a space. *)
Fixpoint spaced_from (after_space : bool) (s : Py.str) : Prop :=
  match s with
  | [] => True
  | c :: s' =>
      if Py.isspace c
      then c = 32%N /\ after_space = false /\ spaced_from true s'
      else spaced_from false s'
  end.

(** The characters of a text that are not whitespace, in order. *)
Definition visible (s : list Py.char) : list Py.char :=
  filter (fun c => Py.isspace c = false) s.

(** [s.split()]: the maximal runs of characters that are not whitespace.
    [word] is the run being read. *)
Fixpoint words_from (word : Py.str) (s : Py.str) : list Py.str :=
  match s with
  | [] => match word with [] => [] | _ :: _ => [word] end
  | c :: s' =>
      if Py.isspace c
      then match word with
           | [] => words_from [] s'
           | _ :: _ => word :: words_from [] s'
           end
      else words_from (word ++ [c]) s'
  end.

Definition words (s : Py.str) : list Py.str := words_from [] s.

End scrape_config.

(** ** Concrete inputs *)

Module Examples.
Import Py.

(** A card as the scraper dumps it. *)
Definition card_json (title : string) : json :=
  JDict [(lit "title", JStr (lit title));
         (lit "url", JStr (lit "Area51/" ++ lit title));
         (lit "last_modified", JStr (lit "2009-10-26"));
         (lit "has_sound", JBool false)].

Definition burb_json (name : string) (cards : list json) : json :=
  JDict [(lit "name", JStr (lit name));
         (lit "url", JStr (lit "https://example.org/Area51/" ++ lit name));
         (lit "cards", JList cards);
         (lit "total_pages", JInt (len cards))].

(** A hood with one card of its own and two burbs of three and five. *)
Definition hood_json : json :=
  JDict [(lit "name", JStr (lit "Area51"));
         (lit "cards", JList [card_json "home"]);
         (lit "total_pages", JInt 1);
         (lit "burbs",
          JList [burb_json "Vault"
                   [card_json "a"; card_json "b"; card_json "c"];
                 burb_json "Nebula"
                   [card_json "d"; card_json "e"; card_json "f";
                    card_json "g"; card_json "h"]]);
         (lit "total_burbs", JInt 2)].

Definition now : str := lit "2024-01-01 00:00:00".

(** A directory with that hood, a file that is not JSON, and a file with
    another extension. *)
Definition input_dir : flatten_data.directory :=
  [(lit "Area51.json", Ok hood_json);
   (lit "Broken.json", Raise (JSONDecodeError (lit "Expecting value")));
   (lit "README.txt", Raise (JSONDecodeError (lit "Expecting value")))].

(** The same hood next to one file that is not JSON. *)
Definition corrupt_dir : flatten_data.directory :=
  [(lit "Area51.json", Ok hood_json);
   (lit "Broken.json", Raise (JSONDecodeError (lit "Expecting value")))].

(** A configuration with two hoods, a network on which one burb cannot be
    reached and another answers 404, and an output directory where the
    second hood is already saved. *)
Definition self : geocities_scraper.config :=
  {| geocities_scraper.base_url := lit "https://example.org";
     geocities_scraper.neighborhoods :=
       [(lit "Area51",
         {| geocities_scraper.info_description := lit "Science fiction";
            geocities_scraper.info_burbs := [lit "Vault"; lit "Nebula"] |});
        (lit "Athens",
         {| geocities_scraper.info_description := lit "Education";
            geocities_scraper.info_burbs := [lit "Acropolis"] |})] |}.

Definition page_card : geocities_scraper.card_element :=
  {| geocities_scraper.title_link := Some (Some (lit "My home page"));
     geocities_scraper.subtitle :=
       Some (lit " www.geocities.com/Area51/1234/ Last modified: 2009-10-26 ") |}.

(** A card with a title link and no subtitle. *)
Definition bare_card : geocities_scraper.card_element :=
  {| geocities_scraper.title_link := Some (Some (lit "No subtitle"));
     geocities_scraper.subtitle := None |}.

Definition network (n : nat) (url : str) : geocities_scraper.response :=
  if decide (url = lit "https://example.org/Area51/Vault")
  then geocities_scraper.Failed (RequestException (lit "Connection refused"))
  else if decide (url = lit "https://example.org/Area51/Nebula")
  then geocities_scraper.Response 404 [page_card]
  else geocities_scraper.Response 200 [page_card; bare_card].

Definition clock (n : nat) : str := now.

(** A file system where [./Athens.json] in the output directory is the
    entry [Athens.json], as it is, and every other path with a deeper
    file name is a file elsewhere. *)
Definition resolve : geocities_scraper.resolver := fun path =>
  if decide (path = lit "geocities_data/./Athens.json")
  then lit "Athens.json"
  else path.



Definition world0 : geocities_scraper.world :=
  {| geocities_scraper.files :=
       {[ lit "Athens.json" := geocities_scraper.Other (lit "{}") ]};
     geocities_scraper.events := [] |}.

(** A card whose URL has the text of the prefix a second time. *)
Definition nested_card : geocities_scraper.card_element :=
  {| geocities_scraper.title_link := Some (Some (lit "Links"));
     geocities_scraper.subtitle :=
       Some (lit "www.geocities.com/Area51/www.geocities.com/index.html Last modified: 2009-10-26") |}.

(** A card whose subtitle has no marker. *)
Definition unmarked_card : geocities_scraper.card_element :=
  {| geocities_scraper.title_link := None;
     geocities_scraper.subtitle := Some (lit "  www.geocities.com/Area51/1234/ ") |}.

(** A card with the sound glyph in its title and two markers in its
    subtitle. *)
Definition sound_card : geocities_scraper.card_element :=
  {| geocities_scraper.title_link :=
       Some (Some (lit "Midi page " ++ [128266%N]));
     geocities_scraper.subtitle :=
       Some (lit "www.geocities.com/Area51/9/ Last modified: 2009 Last modified: 1999") |}.

(** A main page with three headings: one without a link, and two with the
    same name once cleaned. *)
Definition heading (link : option string) (description burbs : list string)
  : scrape_config.hood_element :=
  {| scrape_config.hood_link := lit <$> link;
     scrape_config.description_element := Some (lit <$> description);
     scrape_config.table := Some (lit <$> burbs) |}.

Definition main_page : list scrape_config.hood_element :=
  [heading (Some " Area51 ") ["Geocities Icon Area51"; "Science  fiction"]
     ["Vault"; "Nebula"];
   heading None ["Sponsored"] [];
   heading (Some "Athens") ["Education"] ["Acropolis"];
   heading (Some "Area51") ["Science fiction and fantasy"] ["Vault"]].

Definition config_network (url : str) : scrape_config.response :=
  scrape_config.Response 200 main_page.

Definition down_network (url : str) : scrape_config.response :=
  scrape_config.Response 503 main_page.

Definition config_world0 : scrape_config.world :=
  {| scrape_config.files := ∅; scrape_config.events := [] |}.

End Examples.

(** * Properties *)

(** ** Slices and chunks *)

Section slices.
Context {A : Type}.
Implicit Types l : list A.

(** A slice with bounds inside the list is the [take] of a [drop]. *)
Lemma slice_inside l (a b : nat) :
  (a <= b)%nat -> (b <= length l)%nat ->
  Py.slice l (Z.of_nat a) (Z.of_nat b) = take (b - a) (drop a l).
Proof.
  intros Hab Hb. unfold Py.slice, Py.clamp.
  destruct (Z.ltb_spec (Z.of_nat a) 0); [lia|].
  destruct (Z.ltb_spec (Z.of_nat b) 0); [lia|].
  rewrite !Z.min_l by lia.
  f_equal; [lia | f_equal; lia].
Qed.

(** The first [k] blocks of [c] elements make up the first [k * c]. *)
Lemma concat_blocks l (c k : nat) :
  concat ((fun i => take c (drop (i * c) l)) <$> seq 0 k) = take (k * c) l.
Proof.
  induction k as [|k IH].
  - reflexivity.
  - rewrite seq_S, fmap_app, concat_app, IH. simpl.
    rewrite app_nil_r, take_take_drop. f_equal. lia.
Qed.

End slices.

Section chunking.
Import flatten_data.

Variable all_pages : list page.
Variable chunk_size : Z.
Hypothesis chunk_size_pos : 1 <= chunk_size.

Let n : nat := length all_pages.
Let c : nat := Z.to_nat chunk_size.
Let total_chunks : Z := (Py.len all_pages + chunk_size - 1) / chunk_size.
Let k : nat := Z.to_nat total_chunks.

(** [total_chunks] is the least number of blocks of [c] that cover [n]. *)
Lemma total_chunks_ceil :
  0 <= total_chunks /\
  Py.len all_pages <= total_chunks * chunk_size < Py.len all_pages + chunk_size.
Proof.
  subst total_chunks. unfold Py.len.
  set (m := Z.of_nat (length all_pages)).
  assert (0 <= m) by (subst m; lia).
  pose proof (Z.div_mod (m + chunk_size - 1) chunk_size ltac:(lia)) as Hdm.
  pose proof (Z.mod_pos_bound (m + chunk_size - 1) chunk_size ltac:(lia)).
  assert (0 <= (m + chunk_size - 1) / chunk_size)
    by (apply Z.div_pos; lia).
  nia.
Qed.

Lemma chunk_block (i : nat) :
  (i < k)%nat ->
  chunk all_pages chunk_size (Z.of_nat i) = take c (drop (i * c) all_pages).
Proof.
  intros Hi. destruct total_chunks_ceil as [Hk0 [Hlo Hhi]].
  unfold Py.len in *. fold n in Hlo, Hhi.
  assert (Hc : Z.of_nat c = chunk_size) by (subst c; lia).
  assert (Hk : Z.of_nat k = total_chunks) by (subst k; lia).
  assert (Hic : (i * c < n)%nat) by nia.
  unfold chunk, Py.len. fold n.
  destruct (Z.min_spec ((Z.of_nat i + 1) * chunk_size) (Z.of_nat n))
    as [[Hlt ->]|[Hge ->]].
  - replace (Z.of_nat i * chunk_size) with (Z.of_nat (i * c)) by nia.
    replace ((Z.of_nat i + 1) * chunk_size)
      with (Z.of_nat (i * c + c)) by nia.
    rewrite slice_inside by (subst n; nia).
    f_equal. lia.
  - replace (Z.of_nat i * chunk_size) with (Z.of_nat (i * c)) by nia.
    rewrite slice_inside by (subst n; nia).
    rewrite !take_ge; [reflexivity | |];
      rewrite length_drop; fold n; nia.
Qed.

Lemma chunk_files_blocks :
  (fun i => (i, chunk all_pages chunk_size i)) <$> Py.range total_chunks =
  (fun i : nat => (Z.of_nat i, take c (drop (i * c) all_pages))) <$> seq 0 k.
Proof.
  unfold Py.range. fold k. rewrite <- list_fmap_compose.
  apply list_eq. intros i. rewrite !list_lookup_fmap.
  destruct (seq 0 k !! i) as [j|] eqn:Hj; [|reflexivity].
  apply lookup_seq in Hj as [-> Hi]. simpl.
  rewrite chunk_block by lia. reflexivity.
Qed.

Lemma blocks_cover : (n <= k * c)%nat /\ (k * c < n + c)%nat.
Proof.
  destruct total_chunks_ceil as [Hk0 [Hlo Hhi]].
  unfold Py.len in *. fold n in Hlo, Hhi.
  assert (Hc : Z.of_nat c = chunk_size) by (subst c; lia).
  assert (Hk : Z.of_nat k = total_chunks) by (subst k; lia).
  nia.
Qed.

End chunking.

Lemma take_block_min {A} (l : list A) (c i : nat) :
  take (Nat.min ((i + 1) * c) (length l) - i * c) (drop (i * c) l) =
  take c (drop (i * c) l).
Proof.
  destruct (Nat.min_spec ((i + 1) * c) (length l)) as [[Hlt ->]|[Hge ->]].
  - f_equal. lia.
  - rewrite !take_ge; [reflexivity | |]; rewrite length_drop; lia.
Qed.

(** The size of the last block. *)
Lemma last_block_size (n c k : nat) :
  (0 < c)%nat -> (0 < k)%nat -> (n <= k * c)%nat -> (k * c < n + c)%nat ->
  (n - (k - 1) * c)%nat = if decide (n mod c = 0)%nat then c else (n mod c)%nat.
Proof.
  intros Hc Hk Hlo Hhi.
  assert (Hn : n = (c * (k - 1) + (n - (k - 1) * c))%nat) by nia.
  destruct (decide (n - (k - 1) * c = c)%nat) as [Heq|Hne].
  - assert (Hn' : n = (k * c)%nat) by nia.
    rewrite decide_True; [lia|].
    rewrite Hn'. apply Nat.Div0.mod_mul.
  - assert (Hr : (n - (k - 1) * c < c)%nat) by nia.
    assert (Hmod : (n mod c = n - (k - 1) * c)%nat).
    { symmetry. apply (Nat.mod_unique n c (k - 1)); [lia|exact Hn]. }
    rewrite decide_False; [symmetry; exact Hmod|].
    rewrite Hmod. nia.
Qed.

(** C1. For a chunk size [c >= 1] and [n] accumulated pages, the run writes
    [ceil(n/c)] chunk files (the least [k] with [n <= k*c]); file [i] holds
    the pages [[i*c, min((i+1)*c, n))]; every file has [c] pages except the
    last, which has [n mod c], or [c] when [n mod c = 0]; and the files in
    the order of their indices, put end to end, are the accumulated pages. *)
Theorem chunks_partition_pages (input_dir : flatten_data.directory)
    (now : Py.str) (chunk_size : Z) :
  1 <= chunk_size ->
  let all_pages := (flatten_data.scan input_dir).1 in
  let n := length all_pages in
  let c := Z.to_nat chunk_size in
  exists out,
    flatten_data.flatten_geocities_data input_dir now chunk_size = Ok out /\
    let files := flatten_data.chunk_files out in
    let k := length files in
    ((n <= k * c)%nat /\ (k * c < n + c)%nat) /\
    (forall i : nat, (i < k)%nat ->
       files !! i =
         Some (Z.of_nat i,
               take (Nat.min ((i + 1) * c) n - i * c) (drop (i * c) all_pages))) /\
    (forall (i : nat) j chunk, files !! i = Some (j, chunk) ->
       length chunk =
         if decide (i + 1 < k)%nat then c
         else if decide (n mod c = 0)%nat then c else (n mod c)%nat) /\
    concat (files.*2) = all_pages.
Proof.
  intros Hc all_pages n c.
  unfold flatten_data.flatten_geocities_data.
  destruct (flatten_data.scan input_dir) as [pages hood_names] eqn:Hscan.
  simpl in all_pages. subst all_pages.
  unfold flatten_data.write_chunks.
  destruct (Z.eqb_spec chunk_size 0) as [?|_]; [lia|].
  eexists. split; [reflexivity|]. simpl.
  rewrite (chunk_files_blocks pages chunk_size Hc).
  destruct (blocks_cover pages chunk_size Hc) as [Hlo Hhi].
  set (k := Z.to_nat ((Py.len pages + chunk_size - 1) / chunk_size)) in *.
  fold c in Hlo, Hhi |- *. fold n in Hlo, Hhi.
  rewrite length_fmap, length_seq.
  assert (Hblock : forall i : nat, (i < k)%nat ->
            ((fun i : nat => (Z.of_nat i, take c (drop (i * c) pages)))
               <$> seq 0 k) !! i
            = Some (Z.of_nat i, take c (drop (i * c) pages))).
  { intros i Hi. rewrite list_lookup_fmap, lookup_seq_lt by lia.
    reflexivity. }
  split; [split; assumption|]. split; [|split].
  - intros i Hi. rewrite Hblock by lia.
    subst n. rewrite take_block_min. reflexivity.
  - intros i j chunk Hlook.
    assert (Hi : (i < k)%nat).
    { apply lookup_lt_Some in Hlook.
      rewrite length_fmap, length_seq in Hlook. exact Hlook. }
    rewrite Hblock in Hlook by lia. inversion Hlook; subst j chunk.
    rewrite length_take, length_drop. fold n.
    destruct (decide (i + 1 < k)%nat) as [Hlt|Hge].
    + nia.
    + assert (i = (k - 1)%nat) by lia. subst i.
      rewrite <- (last_block_size n c k) by lia. nia.
  - rewrite <- list_fmap_compose.
    change (concat ((fun i : nat => take c (drop (i * c) pages)) <$> seq 0 k)
            = pages).
    rewrite concat_blocks. apply take_ge. fold n. lia.
Qed.

Lemma chunks_partition_pages_witness :
  1 <= 4 /\
  exists out,
    flatten_data.flatten_geocities_data Examples.input_dir Examples.now 4
      = Ok out /\
    length (flatten_data.chunk_files out) = 3%nat /\
    concat ((flatten_data.chunk_files out).*2)
      = (flatten_data.scan Examples.input_dir).1.
Proof.
  split; [lia|].
  destruct (chunks_partition_pages Examples.input_dir Examples.now 4
              ltac:(lia)) as (out & Hout & _ & _ & _ & Hcat).
  exists out. split; [exact Hout|]. split; [|exact Hcat].
  vm_compute in Hout. inversion Hout. reflexivity.
Defined.

(** ** Strings: suffixes and order *)

Section strings.
Import Py.
Implicit Types s t u : str.





Lemma leb_refl s : leb s s = true.
Proof.
  induction s as [|c s IH]; simpl; [done|].
  rewrite N.eqb_refl, IH. apply orb_true_r.
Qed.

Lemma leb_total s t : leb s t = true \/ leb t s = true.
Proof.
  revert t. induction s as [|c s IH]; intros [|d t]; simpl; auto.
  destruct (N.ltb_spec c d), (N.ltb_spec d c), (N.eqb_spec c d),
    (N.eqb_spec d c); simpl; auto; try lia.
Qed.

Lemma leb_trans s t u : leb s t = true -> leb t u = true -> leb s u = true.
Proof.
  revert t u. induction s as [|c s IH]; intros [|d t] [|e u]; simpl; auto;
    try discriminate.
  destruct (N.ltb_spec c d), (N.ltb_spec d e), (N.ltb_spec c e),
    (N.eqb_spec c d), (N.eqb_spec d e), (N.eqb_spec c e);
    simpl; auto; try lia; try discriminate.
  apply IH.
Qed.

Lemma leb_antisym s t : leb s t = true -> leb t s = true -> s = t.
Proof.
  revert t. induction s as [|c s IH]; intros [|d t]; simpl; auto;
    try discriminate.
  destruct (N.ltb_spec c d), (N.ltb_spec d c), (N.eqb_spec c d),
    (N.eqb_spec d c); simpl; try lia; try discriminate.
  intros. subst. f_equal. auto.
Qed.

#[local] Instance le_total : Total le.
Proof. intros s t. apply leb_total. Qed.

#[local] Instance le_transitive : Transitive le.
Proof. intros s t u. apply leb_trans. Qed.

(** [sorted] returns its argument in non-decreasing order. *)
Lemma sorted_StronglySorted (l : list str) : StronglySorted le (sorted l).
Proof. apply Sorted_StronglySorted; [apply _|]. apply Sorted_merge_sort, _. Qed.

Lemma sorted_Permutation (l : list str) : sorted l ≡ₚ l.
Proof. apply merge_sort_Permutation. Qed.

End strings.

(** ** The flattener: what a file adds to the pages and to the names *)

Section flattener.
Import flatten_data.

Lemma is_card_dict card :
  is_card card = true ->
  exists items title url,
    card = JDict items /\
    assoc (Py.lit "title") items = Some title /\
    assoc (Py.lit "url") items = Some url.
Proof.
  unfold is_card, getitem. destruct card as [| | | | | |items]; try discriminate.
  destruct (assoc (Py.lit "title") items) as [title|] eqn:Ht; [|discriminate].
  destruct (assoc (Py.lit "url") items) as [url|] eqn:Hu; [|discriminate].
  intros _. by exists items, title, url.
Qed.

(** A card is projected to its item. *)
Lemma hood_page_item hood_name card :
  is_card card = true ->
  hood_page hood_name card = Ok (item (SourceH hood_name) card).
Proof.
  intros (items & title & url & -> & Ht & Hu)%is_card_dict.
  unfold hood_page, item, field, get, getitem. rewrite Ht, Hu. simpl.
  destruct (assoc (Py.lit "has_sound") items); reflexivity.
Qed.

Lemma burb_page_item hood_name burb card name :
  is_card card = true ->
  getitem burb (Py.lit "name") = Ok name ->
  burb_page hood_name burb card = Ok (item (SourceB hood_name name) card).
Proof.
  intros (items & title & url & -> & Ht & Hu)%is_card_dict Hname.
  unfold burb_page, item, field, get. rewrite Hname.
  unfold getitem. rewrite Ht, Hu. simpl.
  destruct (assoc (Py.lit "has_sound") items); reflexivity.
Qed.

(** A loop that appends one page per element appends them in order. *)
Lemma for_each_append {A} (l : list A) (f : A -> except page)
    (g : A -> page) (all_pages : list page) :
  Forall (fun x => f x = Ok (g x)) l ->
  for_each l (fun x => let* p := lift (f x) in append p) all_pages
  = (Ok tt, all_pages ++ (g <$> l)).
Proof.
  intros Hl. revert all_pages.
  induction Hl as [|x l Hx _ IH]; intros all_pages; simpl.
  - unfold ret. by rewrite app_nil_r.
  - unfold bind at 1. unfold bind at 1. unfold lift. rewrite Hx.
    unfold append, modify. rewrite IH. by rewrite <- app_assoc.
Qed.

Lemma forallb_Forall {A} (p : A -> bool) (l : list A) :
  forallb p l = true -> Forall (fun x => p x = true) l.
Proof.
  induction l as [|x l IH]; simpl; [constructor|].
  intros [Hx Hl]%andb_true_iff. constructor; auto.
Qed.

Lemma burb_loop_items hood_name burb all_pages :
  is_burb burb = true ->
  (let* cards := lift (ebind (getitem burb (Py.lit "cards")) iter) in
   for_each cards (fun card =>
     let* p := lift (burb_page hood_name burb card) in append p)) all_pages
  = (Ok tt, all_pages ++ burb_items hood_name burb).
Proof.
  unfold is_burb, burb_items, cards_of, field. intros Hb.
  destruct (getitem burb (Py.lit "name")) as [name|] eqn:Hname;
    [|discriminate].
  destruct (getitem burb (Py.lit "cards")) as [[| | | | |cards|]|] eqn:Hcards;
    try discriminate.
  unfold bind at 1. unfold lift at 1. simpl.
  apply for_each_append.
  eapply Forall_impl; [apply forallb_Forall, Hb|].
  intros card Hcard. by apply burb_page_item.
Qed.

(** The two loops over a group document append its items. *)
Lemma add_pages_items hood_name hood_data all_pages :
  is_hood hood_data = true ->
  add_pages hood_name hood_data all_pages
  = (Ok tt, all_pages ++ items hood_name hood_data).
Proof.
  unfold is_hood, add_pages, items, hood_items, cards_of, burbs_of.
  intros Hh.
  destruct (getitem hood_data (Py.lit "cards"))
    as [[| | | | |cards|]|] eqn:Hcards; try discriminate.
  destruct (getitem hood_data (Py.lit "burbs"))
    as [[| | | | |burbs|]|] eqn:Hburbs; try discriminate.
  apply andb_true_iff in Hh as [Hc Hb].
  unfold bind at 1. unfold lift at 1. simpl.
  unfold bind at 1.
  rewrite (for_each_append cards _ (item (SourceH hood_name)));
    [|eapply Forall_impl; [apply forallb_Forall, Hc|];
      intros card Hcard; by apply hood_page_item].
  unfold bind at 1. unfold lift at 1. simpl.
  rewrite app_assoc.
  generalize (all_pages ++ (item (SourceH hood_name) <$> cards)).
  clear Hc Hcards Hburbs. apply forallb_Forall in Hb.
  induction Hb as [|burb burbs Hburb _ IH]; intros acc; simpl.
  - unfold ret. by rewrite app_nil_r.
  - unfold bind at 1.
    rewrite (burb_loop_items hood_name burb acc Hburb).
    rewrite IH. by rewrite <- !app_assoc.
Qed.

(** A file that cannot be read or parsed adds no page. *)
Lemma process_file_raise hood_name e all_pages :
  process_file hood_name (Raise e) all_pages = (Ok tt, all_pages).
Proof. reflexivity. Qed.

Lemma process_file_items hood_name hood_data all_pages :
  is_hood hood_data = true ->
  process_file hood_name (Ok hood_data) all_pages
  = (Ok tt, all_pages ++ items hood_name hood_data).
Proof.
  intros Hh. unfold process_file, try_except, bind, lift.
  by rewrite add_pages_items.
Qed.

(** The names of the scan are the stems of the [.json] file names. *)
Lemma scan_names (input_dir : directory) (all_pages : list page)
    (hood_names : gset Py.str) :
  (fold_left scan_file input_dir (all_pages, hood_names)).2
  = hood_names ∪ list_to_set (encountered input_dir).
Proof.
  revert all_pages hood_names.
  induction input_dir as [|[filename content] input_dir IH];
    intros all_pages hood_names; simpl.
  - unfold encountered. simpl. set_solver.
  - unfold encountered. simpl. rewrite filter_cons.
    destruct (Py.endswith filename (Py.lit ".json")) eqn:Hend; simpl.
    + rewrite IH. unfold encountered. set_solver.
    + apply IH.
Qed.

(** When every [.json] file that can be read holds a group document, the
    pages of the scan are the items of those files. *)
Lemma scan_pages (input_dir : directory) (all_pages : list page)
    (hood_names : gset Py.str) :
  Forall (fun entry : Py.str * except json =>
            match entry with
            | (filename, Ok hood_data) =>
                Py.endswith filename (Py.lit ".json") = true ->
                is_hood hood_data = true
            | _ => True
            end) input_dir ->
  (fold_left scan_file input_dir (all_pages, hood_names)).1
  = all_pages ++ valid_items input_dir.
Proof.
  intros Hdir. revert all_pages hood_names.
  induction Hdir as [|[filename content] input_dir Hentry _ IH];
    intros all_pages hood_names; simpl.
  - by rewrite app_nil_r.
  - destruct (Py.endswith filename (Py.lit ".json")) eqn:Hend; simpl.
    + destruct content as [hood_data|e].
      * rewrite (process_file_items _ _ _ (Hentry eq_refl)). simpl.
        rewrite IH, (Hentry eq_refl). simpl. by rewrite <- app_assoc.
      * rewrite process_file_raise. simpl. by rewrite IH.
    + rewrite IH. destruct content; reflexivity.
Qed.

End flattener.

(** ** The flattener: a whole run *)

Section run.
Import flatten_data.

Lemma length_concat_sum {A} (ls : list (list A)) :
  length (concat ls) = sum_list_with length ls.
Proof.
  induction ls as [|l ls IH]; simpl; [done|].
  by rewrite length_app, IH.
Qed.

(** A run with a chunk size of at least 1 returns, and this is what it
    writes: [k] blocks of [c] pages, [k] the least number that covers them. *)
Lemma flatten_run (input_dir : directory) (now : Py.str) (chunk_size : Z) :
  1 <= chunk_size ->
  let all_pages := (scan input_dir).1 in
  let c := Z.to_nat chunk_size in
  exists k : nat,
    ((length all_pages <= k * c)%nat /\ (k * c < length all_pages + c)%nat) /\
    flatten_geocities_data input_dir now chunk_size
    = Ok {| metadata_file :=
              {| total_pages := Py.len all_pages;
                 total_hoods :=
                   Z.of_nat (size (list_to_set (C:=gset Py.str)
                                     (encountered input_dir)));
                 hoods :=
                   Py.sorted (elements (list_to_set (C:=gset Py.str)
                                          (encountered input_dir)));
                 generated_at := now;
                 chunks := Z.of_nat k |};
            chunk_files :=
              (fun i : nat => (Z.of_nat i, take c (drop (i * c) all_pages)))
                <$> seq 0 k |}.
Proof.
  intros Hc all_pages c.
  exists (Z.to_nat ((Py.len all_pages + chunk_size - 1) / chunk_size)).
  split; [exact (blocks_cover all_pages chunk_size Hc)|].
  unfold flatten_geocities_data.
  pose proof (scan_names input_dir [] ∅) as Hnames. fold (scan input_dir) in Hnames.
  subst all_pages. destruct (scan input_dir) as [pages names]. simpl in *.
  subst names. rewrite (left_id_L ∅ (∪)).
  unfold write_chunks.
  destruct (Z.eqb_spec chunk_size 0) as [?|_]; [lia|].
  rewrite (chunk_files_blocks pages chunk_size Hc).
  destruct (total_chunks_ceil pages chunk_size Hc) as [Hk _].
  do 3 f_equal. lia.
Qed.

Lemma blocks_concat {A} (l : list A) (c k : nat) :
  (length l <= k * c)%nat ->
  concat (((fun i : nat => (Z.of_nat i, take c (drop (i * c) l)))
            <$> seq 0 k).*2) = l.
Proof.
  intros Hk. rewrite <- list_fmap_compose.
  change (concat ((fun i : nat => take c (drop (i * c) l)) <$> seq 0 k) = l).
  rewrite concat_blocks. by apply take_ge.
Qed.

Lemma elem_of_hoods (names : list Py.str) (h : Py.str) :
  h ∈ Py.sorted (elements (list_to_set (C:=gset Py.str) names)) <-> h ∈ names.
Proof.
  rewrite sorted_Permutation, elem_of_elements, elem_of_list_to_set. done.
Qed.

Lemma size_names (names : list Py.str) :
  size (list_to_set (C:=gset Py.str) names) = length (remove_dups names).
Proof.
  rewrite <- (size_list_to_set (C:=gset Py.str) (remove_dups names))
    by apply NoDup_remove_dups.
  f_equal. apply set_eq. intros h.
  by rewrite !elem_of_list_to_set, elem_of_remove_dups.
Qed.

End run.

(** C3, for chunk sizes of at least 1.  The metadata of a run has
    [total_pages] equal to the sum of the lengths of the chunks written (the
    number of accumulated pages), [total_hoods] equal to the number of
    distinct group names met during the scan, [chunks] equal to the number
    of chunk files written, and [hoods] sorted, without duplicates, and made
    of those names. *)
Theorem metadata_counts (input_dir : flatten_data.directory) (now : Py.str)
    (chunk_size : Z) :
  1 <= chunk_size ->
  exists out,
    flatten_data.flatten_geocities_data input_dir now chunk_size = Ok out /\
    let md := flatten_data.metadata_file out in
    let written := (flatten_data.chunk_files out).*2 in
    flatten_data.total_pages md = Z.of_nat (sum_list_with length written) /\
    flatten_data.total_pages md = Py.len (flatten_data.scan input_dir).1 /\
    flatten_data.total_hoods md
      = Z.of_nat (length (remove_dups (flatten_data.encountered input_dir))) /\
    flatten_data.chunks md = Py.len (flatten_data.chunk_files out) /\
    StronglySorted Py.le (flatten_data.hoods md) /\
    NoDup (flatten_data.hoods md) /\
    (forall h, h ∈ flatten_data.hoods md
               <-> h ∈ flatten_data.encountered input_dir).
Proof.
  intros Hc.
  destruct (flatten_run input_dir now chunk_size Hc) as (k & [Hlo Hhi] & Hrun).
  eexists. split; [exact Hrun|]. simpl.
  repeat split.
  - rewrite <- length_concat_sum, blocks_concat by exact Hlo. reflexivity.
  - f_equal. apply size_names.
  - unfold Py.len. by rewrite length_fmap, length_seq.
  - apply sorted_StronglySorted.
  - rewrite sorted_Permutation. apply NoDup_elements.
  - apply elem_of_hoods.
  - apply elem_of_hoods.
Qed.

Lemma metadata_counts_witness :
  1 <= 4 /\
  exists out,
    flatten_data.flatten_geocities_data Examples.input_dir Examples.now 4
      = Ok out /\
    flatten_data.total_pages (flatten_data.metadata_file out) = 9 /\
    flatten_data.chunks (flatten_data.metadata_file out) = 3 /\
    flatten_data.hoods (flatten_data.metadata_file out)
      = [Py.lit "Area51"; Py.lit "Broken"].
Proof.
  split; [lia|].
  destruct (metadata_counts Examples.input_dir Examples.now 4 ltac:(lia))
    as (out & Hout & _).
  exists out. split; [exact Hout|].
  vm_compute in Hout. inversion Hout. repeat split; reflexivity.
Defined.

(** C3 as stated, for every run, fails for a negative chunk size: the run
    below returns with [total_pages = 9] and [chunks = -7] and writes no
    chunk file. *)
Lemma metadata_counts_negative_chunk_size :
  exists out,
    flatten_data.flatten_geocities_data Examples.input_dir Examples.now (-1)
      = Ok out /\
    flatten_data.chunk_files out = [] /\
    flatten_data.total_pages (flatten_data.metadata_file out) = 9 /\
    flatten_data.chunks (flatten_data.metadata_file out) = -7 /\
    flatten_data.total_pages (flatten_data.metadata_file out)
      <> Z.of_nat (sum_list_with length (flatten_data.chunk_files out).*2) /\
    flatten_data.chunks (flatten_data.metadata_file out)
      <> Py.len (flatten_data.chunk_files out).
Proof.
  eexists. split; [vm_compute; reflexivity|].
  repeat split; vm_compute; congruence.
Qed.

(** ** The flattener: a corrupt file, and the projection of a document *)

Section corrupt.
Import flatten_data.

Lemma all_valid_Forall (input_dir : directory) :
  all_valid input_dir = true ->
  Forall (fun entry : Py.str * except json =>
            match entry with
            | (filename, Ok hood_data) =>
                Py.endswith filename (Py.lit ".json") = true ->
                is_hood hood_data = true
            | _ => True
            end) input_dir.
Proof.
  intros Hall. apply forallb_Forall in Hall.
  eapply Forall_impl; [exact Hall|].
  intros [filename [hood_data|e]] Hentry; [|done].
  simpl in Hentry. intros Hend. rewrite Hend in Hentry. exact Hentry.
Qed.

Lemma valid_items_corrupt (pre post : directory) filename e :
  valid_items (pre ++ (filename, Raise e) :: post) = valid_items (pre ++ post).
Proof. unfold valid_items. by rewrite !flat_map_app. Qed.

Lemma scan_corrupt (pre post : directory) filename e :
  all_valid (pre ++ post) = true ->
  (scan (pre ++ (filename, Raise e) :: post)).1 = valid_items (pre ++ post).
Proof.
  intros Hall. unfold scan. rewrite scan_pages.
  - simpl. apply valid_items_corrupt.
  - apply all_valid_Forall in Hall. apply Forall_app in Hall as [Hpre Hpost].
    apply Forall_app. split; [exact Hpre|]. by constructor.
Qed.

Lemma encountered_stem (input_dir : directory) filename content :
  (filename, content) ∈ input_dir ->
  Py.endswith filename (Py.lit ".json") = true ->
  Py.drop_last 5 filename ∈ encountered input_dir.
Proof.
  intros Hin Hend. unfold encountered.
  apply list_elem_of_fmap. exists filename. split; [done|].
  apply list_elem_of_filter. split; [done|].
  apply list_elem_of_fmap. by exists (filename, content).
Qed.

Lemma sources_of_items (src : source_dict) (cards : list json) :
  source <$> (item src <$> cards) = replicate (length cards) src.
Proof.
  induction cards as [|card cards IH]; [done|].
  rewrite !fmap_cons, IH. reflexivity.
Qed.

Lemma tags_of_items (src : source_dict) (cards : list json) :
  t <$> (item src <$> cards)
  = replicate (length cards)
      (match src with SourceH _ => Py.lit "h" | SourceB _ _ => Py.lit "b" end).
Proof.
  induction cards as [|card cards IH]; [done|].
  rewrite !fmap_cons, IH. reflexivity.
Qed.

End corrupt.

(** C2, with what the code does for the name.  For a chunk size of at least
    1, a directory with one file that cannot be parsed, its name ending in
    [.json], next to valid group files: the chunks written, put end to end,
    are exactly the items of the valid group files; the stem of the corrupt
    file is in [hoods], since a name is recorded before its file is opened. *)
Theorem corrupt_file_adds_no_pages (pre post : flatten_data.directory)
    (filename : Py.str) (e : exn) (now : Py.str) (chunk_size : Z) :
  1 <= chunk_size ->
  Py.endswith filename (Py.lit ".json") = true ->
  flatten_data.all_valid (pre ++ post) = true ->
  exists out,
    flatten_data.flatten_geocities_data
      (pre ++ (filename, Raise e) :: post) now chunk_size = Ok out /\
    concat ((flatten_data.chunk_files out).*2)
      = flatten_data.valid_items (pre ++ post) /\
    Py.drop_last 5 filename
      ∈ flatten_data.hoods (flatten_data.metadata_file out).
Proof.
  intros Hc Hend Hall.
  destruct (flatten_run (pre ++ (filename, Raise e) :: post) now chunk_size Hc)
    as (k & [Hlo Hhi] & Hrun).
  eexists. split; [exact Hrun|]. simpl. split.
  - rewrite blocks_concat by exact Hlo. by apply scan_corrupt.
  - apply elem_of_hoods. apply (encountered_stem _ filename (Raise e)); [|done].
    apply elem_of_app. right. apply elem_of_cons. by left.
Qed.

Lemma corrupt_file_adds_no_pages_witness :
  exists out,
    flatten_data.flatten_geocities_data Examples.corrupt_dir Examples.now 10000
      = Ok out /\
    concat ((flatten_data.chunk_files out).*2)
      = flatten_data.valid_items [(Py.lit "Area51.json", Ok Examples.hood_json)] /\
    Py.drop_last 5 (Py.lit "Broken.json")
      ∈ flatten_data.hoods (flatten_data.metadata_file out).
Proof.
  apply (corrupt_file_adds_no_pages
           [(Py.lit "Area51.json", Ok Examples.hood_json)] []
           (Py.lit "Broken.json")
           (JSONDecodeError (Py.lit "Expecting value"))
           Examples.now 10000).
  - lia.
  - vm_compute. reflexivity.
  - vm_compute. reflexivity.
Defined.

(** C2 as stated fails: the stem of the corrupt file is in [hoods]. *)
Lemma corrupt_file_name_in_hoods :
  exists out,
    flatten_data.flatten_geocities_data Examples.corrupt_dir Examples.now 10000
      = Ok out /\
    flatten_data.hoods (flatten_data.metadata_file out)
      = [Py.lit "Area51"; Py.lit "Broken"] /\
    ~ (Py.lit "Broken" ∉ flatten_data.hoods (flatten_data.metadata_file out)).
Proof.
  eexists. split; [vm_compute; reflexivity|]. split; [reflexivity|].
  intros Hnot. apply Hnot. cbn [flatten_data.hoods flatten_data.metadata_file].
  apply list_elem_of_In. right. left. reflexivity.
Qed.

(** C6. The [try] block over a group document appends, in order, one item
    per card of the group, tagged ['h'] with the group name, then one item
    per card of each burb, burb after burb, tagged ['b'] with the group name
    and the name of that burb.  A group with one card of its own and two
    burbs of three and five cards gives nine items: one tagged ['h'] and
    eight tagged ['b'], three with the name of the first burb and five with
    the name of the second. *)
Theorem cards_projected_in_order (hood_name : Py.str) (hood_data : json)
    (all_pages : list flatten_data.page) :
  flatten_data.is_hood hood_data = true ->
  let hood_src := flatten_data.SourceH hood_name in
  let burb_src burb :=
    flatten_data.SourceB hood_name (flatten_data.field burb (Py.lit "name")) in
  let new :=
    (flatten_data.item hood_src <$> flatten_data.cards_of hood_data)
    ++ flat_map
         (fun burb =>
            flatten_data.item (burb_src burb) <$> flatten_data.cards_of burb)
         (flatten_data.burbs_of hood_data) in
  flatten_data.process_file hood_name (Ok hood_data) all_pages
    = (Ok tt, all_pages ++ new) /\
  (forall card burb1 burb2,
     flatten_data.cards_of hood_data = [card] ->
     flatten_data.burbs_of hood_data = [burb1; burb2] ->
     length (flatten_data.cards_of burb1) = 3%nat ->
     length (flatten_data.cards_of burb2) = 5%nat ->
     length new = 9%nat /\
     flatten_data.t <$> new = Py.lit "h" :: replicate 8 (Py.lit "b") /\
     flatten_data.source <$> new
       = hood_src :: replicate 3 (burb_src burb1)
                  ++ replicate 5 (burb_src burb2)).
Proof.
  intros Hh hood_src burb_src new. split.
  - exact (process_file_items hood_name hood_data all_pages Hh).
  - intros card burb1 burb2 Hcards Hburbs H1 H2. subst new.
    rewrite Hcards, Hburbs. simpl. rewrite app_nil_r.
    rewrite !length_app, !length_fmap, H1, H2.
    rewrite !fmap_app, !sources_of_items, !tags_of_items, H1, H2.
    repeat split; reflexivity.
Qed.

Lemma cards_projected_in_order_witness :
  flatten_data.process_file (Py.lit "Area51") (Ok Examples.hood_json) []
    = (Ok tt, flatten_data.items (Py.lit "Area51") Examples.hood_json) /\
  length (flatten_data.items (Py.lit "Area51") Examples.hood_json) = 9%nat.
Proof.
  split; [|reflexivity].
  exact (proj1 (cards_projected_in_order (Py.lit "Area51") Examples.hood_json
                  [] ltac:(vm_compute; reflexivity))).
Defined.

(** ** The scraper: pages, burbs and hoods *)

Section scraper.
Import geocities_scraper.

Variable network : nat -> Py.str -> response.
Variable clock : nat -> Py.str.
Variable self : config.
Variable resolve : resolver.

Lemma add_events_nil w : add_events w [] = w.
Proof. destruct w. unfold add_events. simpl. by rewrite app_nil_r. Qed.

Lemma add_events_app w evs1 evs2 :
  add_events (add_events w evs1) evs2 = add_events w (evs1 ++ evs2).
Proof. unfold add_events. simpl. by rewrite app_assoc. Qed.

Lemma gets_app evs1 evs2 : gets (evs1 ++ evs2) = gets evs1 ++ gets evs2.
Proof. apply omap_app. Qed.

Lemma dumps_app evs1 evs2 : dumps (evs1 ++ evs2) = dumps evs1 ++ dumps evs2.
Proof. apply omap_app. Qed.

(** The body of the inner [try] never raises. *)
Lemma process_card_returns card : process_card card = Ok (card_of card).
Proof. unfold card_of, process_card. by destruct (subtitle card). Qed.

(** The loop over the card elements leaves the world as it is. *)
Lemma cards_loop_pure card_elements cards w :
  cards_loop card_elements cards w
  = (Ok (cards ++ omap card_of card_elements), w).
Proof.
  revert cards. induction card_elements as [|card rest IH]; intros cards.
  - simpl. unfold ret. by rewrite app_nil_r.
  - cbn [cards_loop]. unfold bind at 1. unfold try_except, bind, lift, ret.
    rewrite process_card_returns. rewrite IH. cbn [omap list_omap].
    destruct (card_of card) as [c|]; [|reflexivity].
    by rewrite <- app_assoc.
Qed.

(** What [get_burb_cards] returns and does, by what the network answers. *)
Lemma get_burb_cards_spec url w :
  get_burb_cards network url w =
  match network (length (events w)) url with
  | Failed e => (Ok [], add_events w [Get url; Log (ErrorScrapingPage url e)])
  | Response status_code card_elements =>
      match raise_for_status status_code with
      | Raise e =>
          (Ok [], add_events w [Get url; Log (ErrorScrapingPage url e)])
      | Ok _ => (Ok (omap card_of card_elements), add_events w [Get url])
      end
  end.
Proof.
  unfold get_burb_cards, try_except, bind, requests_get.
  destruct (network (length (events w)) url) as [e|status_code card_elements].
  - unfold log, emit, modify, ret, add_events. simpl. by rewrite <- app_assoc.
  - unfold lift. simpl. destruct (raise_for_status status_code) as [[]|e].
    + by rewrite cards_loop_pure.
    + unfold log, emit, modify, ret, add_events. simpl.
      by rewrite <- app_assoc.
Qed.

(** [get_burb_cards] always returns: it requests the page once, writes no
    file, and raises nothing. *)
Lemma get_burb_cards_total url w :
  exists cards evs,
    get_burb_cards network url w = (Ok cards, add_events w evs) /\
    gets evs = [url] /\ dumps evs = [].
Proof.
  rewrite get_burb_cards_spec.
  destruct (network (length (events w)) url) as [e|status_code card_elements];
    [|destruct (raise_for_status status_code) as [[]|e]];
    eexists _, _; (split; [reflexivity|]); split; reflexivity.
Qed.

Lemma scrape_burb_total hood_name burb_name w :
  exists cards evs,
    scrape_burb network self hood_name burb_name w
    = (Ok {| bd_name := burb_name;
             bd_url := burb_url self hood_name burb_name;
             bd_cards := cards;
             bd_total_pages := Py.len cards |},
       add_events w evs) /\
    gets evs = [burb_url self hood_name burb_name] /\ dumps evs = [].
Proof.
  unfold scrape_burb. fold (burb_url self hood_name burb_name).
  unfold bind at 1. unfold log, emit, modify.
  fold (add_events w [Log (ScrapingBurb (burb_url self hood_name burb_name))]).
  unfold bind.
  destruct (get_burb_cards_total (burb_url self hood_name burb_name)
              (add_events w [Log (ScrapingBurb
                                    (burb_url self hood_name burb_name))]))
    as (cards & evs & -> & Hgets & Hdumps).
  exists cards, (Log (ScrapingBurb (burb_url self hood_name burb_name)) :: evs).
  unfold ret. rewrite add_events_app. simpl.
  split; [reflexivity|]. split; assumption.
Qed.

(** The loop over the burbs always returns; what it appends obeys the
    count, and it requests the page of each burb that the configuration
    lists for the hood, in order. *)
Lemma burbs_loop_total hood_name hood_info burbs_to_scrape scraped_burbs w :
  exists new evs,
    burbs_loop network self hood_name hood_info burbs_to_scrape scraped_burbs w
    = (Ok (scraped_burbs ++ new), add_events w evs) /\
    Forall burb_counts new /\
    gets evs = burb_url self hood_name
                 <$> filter (fun b => b ∈ info_burbs hood_info) burbs_to_scrape /\
    dumps evs = [].
Proof.
  revert scraped_burbs w.
  induction burbs_to_scrape as [|burb_name rest IH]; intros scraped_burbs w.
  - exists [], []. simpl. unfold ret. rewrite app_nil_r, add_events_nil.
    repeat split. constructor.
  - cbn [burbs_loop]. unfold bind at 1.
    destruct (decide (burb_name ∈ info_burbs hood_info)) as [Hin|Hnot].
    + rewrite bool_decide_eq_true_2 by done. unfold bind at 1.
      destruct (scrape_burb_total hood_name burb_name w)
        as (cards & evs & -> & Hgets & Hdumps).
      unfold bind at 1. unfold sleep, emit, modify, ret.
      fold (add_events (add_events w evs) [Sleep 1]).
      rewrite add_events_app.
      destruct (IH (scraped_burbs ++
                      [{| bd_name := burb_name;
                          bd_url := burb_url self hood_name burb_name;
                          bd_cards := cards;
                          bd_total_pages := Py.len cards |}])
                   (add_events w (evs ++ [Sleep 1])))
        as (new & evs' & -> & Hnew & Hgets' & Hdumps').
      eexists (_ :: new), ((evs ++ [Sleep 1]) ++ evs').
      rewrite add_events_app, <- app_assoc. simpl.
      split; [reflexivity|]. split; [|split].
      * constructor; [reflexivity|exact Hnew].
      * rewrite filter_cons_True by done.
        rewrite !gets_app, Hgets, Hgets'. reflexivity.
      * rewrite !dumps_app, Hdumps, Hdumps'. reflexivity.
    + rewrite bool_decide_eq_false_2 by done. unfold bind at 1.
      unfold log, emit, modify, ret.
      fold (add_events w [Log (BurbNotFound burb_name hood_name)]).
      destruct (IH scraped_burbs
                   (add_events w [Log (BurbNotFound burb_name hood_name)]))
        as (new & evs' & -> & Hnew & Hgets' & Hdumps').
      exists new, (Log (BurbNotFound burb_name hood_name) :: evs').
      rewrite add_events_app. simpl.
      split; [reflexivity|]. split; [exact Hnew|]. split; [|exact Hdumps'].
      rewrite filter_cons_False by done. exact Hgets'.
Qed.

End scraper.

Section scrape_hood.
Import geocities_scraper.

Variable network : nat -> Py.str -> response.
Variable clock : nat -> Py.str.
Variable self : config.
Variable resolve : resolver.

(** The burbs that [scrape_hood] goes through. *)
Let burbs_to_scrape (burbs : option (list Py.str)) (hood_info : hood_info) :=
  match burbs with
  | Some (b :: l) => b :: l
  | _ => info_burbs hood_info
  end.

(** A hood that is not in the configuration: [ValueError], and nothing is
    done. *)
Lemma scrape_hood_missing hood_name burbs w :
  assoc hood_name (neighborhoods self) = None ->
  scrape_hood network clock self resolve hood_name burbs w
  = (Raise (ValueError
              (Py.lit "Hood " ++ hood_name ++ Py.lit " not found in config")),
     w).
Proof. intros Hnone. unfold scrape_hood. by rewrite Hnone. Qed.

(** A hood of the configuration: [scrape_hood] returns the document, after
    requesting the page of the hood and of each burb to scrape that the
    configuration lists; its last two actions are to write the document
    under the name of the hood, and to log that. *)
Lemma scrape_hood_found hood_name burbs hood_info w :
  assoc hood_name (neighborhoods self) = Some hood_info ->
  let output_file := path_join output_dir (hood_file hood_name) in
  exists d evs,
    scrape_hood network clock self resolve hood_name burbs w
    = (Ok d,
       {| files := <[written_file resolve (hood_file hood_name) := HoodJson d]>
                     (files w);
          events := events w ++ evs
                    ++ [Dump output_file; Log (SavedHoodData output_file)] |})
    /\ hd_name d = hood_name
    /\ hood_counts d
    /\ gets evs
       = hood_url self hood_name
           :: (burb_url self hood_name
                 <$> filter (fun b => b ∈ info_burbs hood_info)
                       (burbs_to_scrape burbs hood_info))
    /\ dumps evs = [].
Proof.
  intros Hsome output_file. unfold scrape_hood. rewrite Hsome.
  fold (hood_url self hood_name). fold (burbs_to_scrape burbs hood_info).
  unfold bind at 1. unfold log, emit, modify.
  set (ev0 := Log (ScrapingNeighborhoodPage (hood_url self hood_name))).
  fold (add_events w [ev0]).
  unfold bind at 1.
  destruct (get_burb_cards_total network (hood_url self hood_name)
              (add_events w [ev0]))
    as (hood_cards & evs1 & -> & Hgets1 & Hdumps1).
  rewrite add_events_app. unfold bind at 1.
  destruct (burbs_loop_total network self hood_name hood_info
              (burbs_to_scrape burbs hood_info) []
              (add_events w ([ev0] ++ evs1)))
    as (scraped_burbs & evs2 & -> & Hcounts & Hgets2 & Hdumps2).
  rewrite add_events_app. simpl app at 1.
  unfold save_hood_data, bind, strftime, log, emit, modify, ret. simpl.
  fold (hood_file hood_name). fold output_file.
  eexists _, ((ev0 :: evs1) ++ evs2).
  split; [|split; [|split; [|split]]].
  - apply f_equal2; [reflexivity|]. f_equal.
    simpl. rewrite <- ?app_assoc. simpl. rewrite <- ?app_assoc. reflexivity.
  - reflexivity.
  - repeat split; simpl; exact Hcounts.
  - rewrite gets_app. simpl. rewrite Hgets1, Hgets2. reflexivity.
  - rewrite dumps_app. simpl. rewrite Hdumps1, Hdumps2. reflexivity.
Qed.

End scrape_hood.

(** ** The scraper: the batch over all hoods *)

Section batch.
Import geocities_scraper.

Variable network : nat -> Py.str -> response.
Variable clock : nat -> Py.str.
Variable self : config.
Variable resolve : resolver.

Lemma assoc_None {V} (k : Py.str) (items : list (Py.str * V)) :
  assoc k items = None <-> k ∉ items.*1.
Proof.
  induction items as [|[k' v] items IH]; simpl.
  - split; [intros _; apply not_elem_of_nil|done].
  - rewrite not_elem_of_cons. destruct (decide (k = k')) as [->|Hne].
    + split; [done|]. by intros [? _].
    + rewrite IH. tauto.
Qed.

Lemma assoc_Some {V} (k : Py.str) (items : list (Py.str * V)) :
  k ∈ items.*1 <-> exists v, assoc k items = Some v.
Proof.
  destruct (assoc k items) as [v|] eqn:Hk.
  - split; [eauto|]. intros _.
    destruct (decide (k ∈ items.*1)) as [|Hnot]; [done|].
    apply assoc_None in Hnot. congruence.
  - split; [|by intros [? ?]]. intros Hin. by apply assoc_None in Hk.
Qed.














End batch.

(** ** The scraper: the properties of the specification *)




(** C5. For a hood of the configuration, whatever burbs are asked for and
    whatever the network answers, [scrape_hood] returns a document and
    writes it to the file of the hood; in that document [total_pages] is the
    number of cards and [total_burbs] the number of burbs, and in each of
    its burbs [total_pages] is the number of cards.  [scrape_burb] always
    returns, a document with that count. *)
Theorem persisted_documents_count (network : nat -> Py.str -> geocities_scraper.response)
    (clock : nat -> Py.str) (self : geocities_scraper.config)
    (resolve : geocities_scraper.resolver)
    (hood_name : Py.str) (burbs : option (list Py.str))
    (w : geocities_scraper.world) :
  hood_name ∈ (geocities_scraper.neighborhoods self).*1 ->
  (exists d w',
     geocities_scraper.scrape_hood network clock self resolve hood_name burbs w
       = (Ok d, w') /\
     geocities_scraper.files w'
       !! geocities_scraper.written_file resolve
            (geocities_scraper.hood_file hood_name)
       = Some (geocities_scraper.HoodJson d) /\
     geocities_scraper.hd_total_pages d
       = Py.len (geocities_scraper.hd_cards d) /\
     geocities_scraper.hd_total_burbs d
       = Py.len (geocities_scraper.hd_burbs d) /\
     Forall (fun b => geocities_scraper.bd_total_pages b
                      = Py.len (geocities_scraper.bd_cards b))
       (geocities_scraper.hd_burbs d)) /\
  (forall burb_name w0,
     exists b w1,
       geocities_scraper.scrape_burb network self hood_name burb_name w0
         = (Ok b, w1) /\
       geocities_scraper.bd_total_pages b
         = Py.len (geocities_scraper.bd_cards b)).
Proof.
  intros [hood_info Hassoc]%assoc_Some. split.
  - destruct (scrape_hood_found network clock self resolve hood_name burbs hood_info
                w Hassoc) as (d & evs & Hrun & _ & (Hp & Hb & Hbs) & _).
    eexists d, _. split; [exact Hrun|]. simpl.
    split; [apply lookup_insert_eq|]. auto.
  - intros burb_name w0.
    destruct (scrape_burb_total network self hood_name burb_name w0)
      as (cards & evs & Hrun & _).
    eexists _, _. split; [exact Hrun|]. reflexivity.
Qed.

Lemma persisted_documents_count_witness :
  exists d w',
    geocities_scraper.scrape_hood Examples.network Examples.clock Examples.self Examples.resolve
      (Py.lit "Area51") (Some [Py.lit "Nebula"; Py.lit "Nowhere"])
      Examples.world0 = (Ok d, w') /\
    geocities_scraper.files w' !! Py.lit "Area51.json"
      = Some (geocities_scraper.HoodJson d) /\
    geocities_scraper.hd_total_pages d = 1 /\
    geocities_scraper.hd_total_burbs d = 1.
Proof.
  destruct (persisted_documents_count Examples.network Examples.clock
              Examples.self Examples.resolve (Py.lit "Area51")
              (Some [Py.lit "Nebula"; Py.lit "Nowhere"]) Examples.world0)
    as [(d & w' & Hrun & Hfile & _) _].
  - apply list_elem_of_In. vm_compute. auto.
  - exists d, w'. split; [exact Hrun|]. split; [exact Hfile|].
    vm_compute in Hrun. inversion Hrun. split; reflexivity.
Defined.



(** C9. [scrape_hood] raises [ValueError], "Hood ... not found in config",
    exactly when the hood is not a key of the configuration, and then it has
    done nothing; it returns a document exactly when the hood is a key. *)
Theorem scrape_hood_raises_iff_missing (network : nat -> Py.str -> geocities_scraper.response)
    (clock : nat -> Py.str) (self : geocities_scraper.config)
    (resolve : geocities_scraper.resolver)
    (hood_name : Py.str) (burbs : option (list Py.str))
    (w : geocities_scraper.world) :
  let run := geocities_scraper.scrape_hood network clock self resolve hood_name burbs w in
  let not_found :=
    ValueError (Py.lit "Hood " ++ hood_name ++ Py.lit " not found in config") in
  (hood_name ∉ (geocities_scraper.neighborhoods self).*1
   <-> run = (Raise not_found, w)) /\
  (hood_name ∉ (geocities_scraper.neighborhoods self).*1
   <-> exists e, run.1 = Raise e) /\
  (hood_name ∈ (geocities_scraper.neighborhoods self).*1
   <-> exists d, run.1 = Ok d).
Proof.
  intros run not_found. subst run not_found.
  destruct (assoc hood_name (geocities_scraper.neighborhoods self))
    as [hood_info|] eqn:Hassoc.
  - assert (Hin : hood_name ∈ (geocities_scraper.neighborhoods self).*1)
      by (apply assoc_Some; eauto).
    destruct (scrape_hood_found network clock self resolve hood_name burbs hood_info
                w Hassoc) as (d & evs & -> & _).
    simpl. split; [|split].
    + split; [done|discriminate].
    + split; [done|]. by intros [e ?].
    + split; [eauto|done].
  - assert (Hnot : hood_name ∉ (geocities_scraper.neighborhoods self).*1)
      by (by apply assoc_None).
    rewrite (scrape_hood_missing network clock self resolve hood_name burbs w Hassoc).
    simpl. split; [|split].
    + done.
    + split; [eauto|done].
    + split; [done|]. by intros [d ?].
Qed.

Lemma scrape_hood_raises_iff_missing_witness :
  geocities_scraper.scrape_hood Examples.network Examples.clock Examples.self Examples.resolve
    (Py.lit "Vienna") None Examples.world0
  = (Raise (ValueError (Py.lit "Hood Vienna not found in config")),
     Examples.world0).
Proof.
  apply (scrape_hood_raises_iff_missing Examples.network Examples.clock
           Examples.self Examples.resolve (Py.lit "Vienna") None Examples.world0).
  intros Hin. apply list_elem_of_In in Hin. vm_compute in Hin.
  destruct Hin as [Heq|[Heq|[]]]; discriminate.
Defined.

(** C10. A card element with no subtitle gives no record, whatever its
    title: the loop goes on with the cards and the world it had, so nothing
    is logged; and a page that answers with such an element among others
    gives the records of the others, after the request alone. *)
Theorem card_without_subtitle_is_dropped
    (title_link : option (option Py.str))
    (rest : list geocities_scraper.card_element)
    (cards : list geocities_scraper.card_dict) (w : geocities_scraper.world) :
  let card :=
    {| geocities_scraper.title_link := title_link;
       geocities_scraper.subtitle := None |} in
  geocities_scraper.process_card card = Ok None /\
  geocities_scraper.cards_loop (card :: rest) cards w
    = geocities_scraper.cards_loop rest cards w /\
  (forall network url status_code before,
     network (length (geocities_scraper.events w)) url
       = geocities_scraper.Response status_code (before ++ card :: rest) ->
     geocities_scraper.raise_for_status status_code = Ok tt ->
     geocities_scraper.get_burb_cards network url w
     = (Ok (omap geocities_scraper.card_of (before ++ rest)),
        geocities_scraper.add_events w [geocities_scraper.Get url])).
Proof.
  intros card. split; [reflexivity|]. split.
  - rewrite !cards_loop_pure. reflexivity.
  - intros network url status_code before Hnet Hstatus.
    rewrite get_burb_cards_spec, Hnet, Hstatus.
    rewrite !omap_app. reflexivity.
Qed.

Lemma card_without_subtitle_is_dropped_witness :
  geocities_scraper.process_card Examples.bare_card = Ok None /\
  geocities_scraper.get_burb_cards Examples.network
    (Py.lit "https://example.org/Area51") Examples.world0
  = (Ok (omap geocities_scraper.card_of [Examples.page_card]),
     geocities_scraper.add_events Examples.world0
       [geocities_scraper.Get (Py.lit "https://example.org/Area51")]).
Proof.
  destruct (card_without_subtitle_is_dropped
              (Some (Some (Py.lit "No subtitle"))) [] [] Examples.world0)
    as (Hcard & _ & Hpage).
  split; [exact Hcard|].
  apply (Hpage Examples.network (Py.lit "https://example.org/Area51") 200
           [Examples.page_card]); vm_compute; reflexivity.
Defined.

(** ** The URL of a card *)

Section card_url.
Import geocities_scraper.

Lemma split_no_marker s sep : Py.find s sep = None -> Py.split s sep = [s].
Proof.
  intros Hnone. unfold Py.split.
  destruct (length s); simpl; by rewrite Hnone.
Qed.

Lemma replace_no_occurrence s old new :
  Py.find s old = None -> Py.replace s old new = s.
Proof.
  intros Hnone. unfold Py.replace.
  destruct (length s); simpl; by rewrite Hnone.
Qed.

Lemma find_prefix s old : Py.find (old ++ s) old = Some 0%nat.
Proof.
  assert (Hstart : Py.startswith (old ++ s) old = true).
  { unfold Py.startswith. apply bool_decide_eq_true. by exists s. }
  destruct old, s; simpl in *; by rewrite ?Hstart.
Qed.

(** Where [replace] and the removal of a prefix agree: when the text of the
    prefix is not in the string, and when it is there at the start only. *)
Lemma replace_is_removeprefix_without (s old : Py.str) :
  Py.find s old = None ->
  Py.replace s old [] = removeprefix s old.
Proof.
  intros Hnone. rewrite replace_no_occurrence by done.
  unfold removeprefix. destruct (Py.startswith s old) eqn:Hstart; [|done].
  destruct s; simpl in Hnone; by rewrite Hstart in Hnone.
Qed.

Lemma replace_is_removeprefix_once (s old : Py.str) :
  old <> [] ->
  Py.find s old = None ->
  Py.replace (old ++ s) old [] = removeprefix (old ++ s) old.
Proof.
  intros Hold Hnone. unfold removeprefix, Py.replace.
  assert (Hstart : Py.startswith (old ++ s) old = true).
  { unfold Py.startswith. apply bool_decide_eq_true. by exists s. }
  rewrite Hstart, drop_app_length.
  destruct (length (old ++ s)) as [|fuel] eqn:Hlen.
  - destruct old; [done|]. simpl in Hlen. lia.
  - cbn [Py.replace_aux]. rewrite find_prefix. simpl.
    rewrite drop_app_length.
    destruct fuel; simpl; by rewrite Hnone.
Qed.

(** What the code computes for a card with a subtitle: it never raises; the
    URL is the part before the first marker, stripped, with every occurrence
    of the text of the prefix removed. *)
Lemma process_card_subtitle title_link subtitle_text :
  exists c,
    process_card {| title_link := title_link; subtitle := Some subtitle_text |}
      = Ok (Some c) /\
    c_url c
      = Py.replace
          (Py.strip (default [] (Py.split subtitle_text
                                   (Py.lit "Last modified:") !! 0%nat)))
          (Py.lit "www.geocities.com/") [].
Proof.
  eexists. split; [reflexivity|]. simpl.
  by destruct (Py.split subtitle_text (Py.lit "Last modified:") !! 0%nat).
Qed.

(** Without a marker: no date, and the URL comes from the whole subtitle. *)
Lemma process_card_no_marker title_link subtitle_text :
  Py.find subtitle_text (Py.lit "Last modified:") = None ->
  exists c,
    process_card {| title_link := title_link; subtitle := Some subtitle_text |}
      = Ok (Some c) /\
    c_last_modified c = [] /\
    c_url c
      = Py.replace (Py.strip subtitle_text) (Py.lit "www.geocities.com/") [].
Proof.
  intros Hnone. eexists. split; [reflexivity|]. simpl.
  rewrite (split_no_marker _ _ Hnone). by split.
Qed.

(** [find] gives the first occurrence: the string is what is before it, the
    separator, and what is after it. *)
Lemma find_Some s sub i :
  Py.find s sub = Some i ->
  s = take i s ++ sub ++ drop (i + length sub) s.
Proof.
  revert i. induction s as [|c s IH]; intros i; simpl.
  - destruct (Py.startswith [] sub) eqn:Hstart; [|discriminate].
    intros [= <-]. apply bool_decide_eq_true in Hstart as [k Hk].
    symmetry in Hk. apply app_eq_nil in Hk as [-> ->]. reflexivity.
  - destruct (Py.startswith (c :: s) sub) eqn:Hstart.
    + intros [= <-]. apply bool_decide_eq_true in Hstart as [k Hk].
      simpl. rewrite Hk at 1. by rewrite Hk, drop_app_length.
    + destruct (Py.find s sub) as [j|] eqn:Hj; [|discriminate].
      intros [= <-]. simpl. f_equal. by apply IH.
Qed.

Lemma find_Some_le s sub i :
  Py.find s sub = Some i -> (i + length sub <= length s)%nat.
Proof.
  revert i. induction s as [|c s IH]; intros i; simpl.
  - destruct (Py.startswith [] sub) eqn:Hstart; [|discriminate].
    intros [= <-]. apply bool_decide_eq_true in Hstart as [k Hk].
    symmetry in Hk. apply app_eq_nil in Hk as [-> ->]. simpl. lia.
  - destruct (Py.startswith (c :: s) sub) eqn:Hstart.
    + intros [= <-]. apply bool_decide_eq_true in Hstart as [k Hk].
      apply (f_equal length) in Hk. rewrite length_app in Hk.
      simpl in *. lia.
    + destruct (Py.find s sub) as [j|] eqn:Hj; [|discriminate].
      intros [= <-]. specialize (IH j eq_refl). lia.
Qed.

(** The rounds given to [split] and to [replace] are enough: more would
    give the same. *)
Lemma split_aux_enough sep fuel1 fuel2 s :
  sep <> [] -> (length s <= fuel1)%nat -> (length s <= fuel2)%nat ->
  Py.split_aux fuel1 s sep = Py.split_aux fuel2 s sep.
Proof.
  intros Hsep. revert fuel2 s.
  induction fuel1 as [|fuel1 IH]; intros fuel2 s H1 H2.
  - destruct (Py.find s sep) as [i|] eqn:Hfind.
    + apply find_Some_le in Hfind. destruct sep; [done|]. simpl in *. lia.
    + destruct fuel2; simpl; by rewrite Hfind.
  - destruct (Py.find s sep) as [i|] eqn:Hfind.
    + pose proof (find_Some_le _ _ _ Hfind) as Hle.
      assert (0 < length sep)%nat by (destruct sep; [done|simpl; lia]).
      destruct fuel2 as [|fuel2]; [lia|].
      simpl. rewrite Hfind. f_equal.
      apply IH; rewrite length_drop; lia.
    + destruct fuel2; simpl; by rewrite Hfind.
Qed.

Lemma replace_aux_enough old new fuel1 fuel2 s :
  old <> [] -> (length s <= fuel1)%nat -> (length s <= fuel2)%nat ->
  Py.replace_aux fuel1 s old new = Py.replace_aux fuel2 s old new.
Proof.
  intros Hold. revert fuel2 s.
  induction fuel1 as [|fuel1 IH]; intros fuel2 s H1 H2.
  - destruct (Py.find s old) as [i|] eqn:Hfind.
    + apply find_Some_le in Hfind. destruct old; [done|]. simpl in *. lia.
    + destruct fuel2; simpl; by rewrite Hfind.
  - destruct (Py.find s old) as [i|] eqn:Hfind.
    + pose proof (find_Some_le _ _ _ Hfind) as Hle.
      assert (0 < length old)%nat by (destruct old; [done|simpl; lia]).
      destruct fuel2 as [|fuel2]; [lia|].
      simpl. rewrite Hfind. do 2 f_equal.
      apply IH; rewrite length_drop; lia.
    + destruct fuel2; simpl; by rewrite Hfind.
Qed.

(** The first part of a split is what is before the first marker. *)
Lemma split_first s sep i :
  sep <> [] -> Py.find s sep = Some i ->
  Py.split s sep !! 0%nat = Some (take i s).
Proof.
  intros Hsep Hfind. unfold Py.split.
  pose proof (find_Some_le _ _ _ Hfind) as Hle.
  assert (0 < length sep)%nat by (destruct sep; [done|simpl; lia]).
  destruct (length s) as [|fuel]; [lia|]. simpl. by rewrite Hfind.
Qed.

End card_url.

(** C7, where the code leaves it.  The card below has the text of the prefix
    at the start of its URL and once more inside: the code returns
    ["Area51/index.html"], where the removal of the prefix gives
    ["Area51/www.geocities.com/index.html"]. *)
Theorem url_loses_every_occurrence_of_prefix :
  let before_marker :=
    Py.lit "www.geocities.com/Area51/www.geocities.com/index.html " in
  exists c,
    geocities_scraper.process_card Examples.nested_card = Ok (Some c) /\
    Py.split (Py.lit "www.geocities.com/Area51/www.geocities.com/index.html Last modified: 2009-10-26")
      (Py.lit "Last modified:") !! 0%nat = Some before_marker /\
    geocities_scraper.c_url c = Py.lit "Area51/index.html" /\
    geocities_scraper.removeprefix (Py.strip before_marker)
      (Py.lit "www.geocities.com/")
      = Py.lit "Area51/www.geocities.com/index.html" /\
    geocities_scraper.c_url c
      <> geocities_scraper.removeprefix (Py.strip before_marker)
           (Py.lit "www.geocities.com/").
Proof.
  eexists. split; [vm_compute; reflexivity|].
  repeat split; vm_compute; congruence.
Qed.

(** The second part of C7 at a card without marker and without a second
    occurrence: no date, the URL stripped and without its prefix. *)
Lemma unmarked_card_url :
  geocities_scraper.process_card Examples.unmarked_card
  = Ok (Some {| geocities_scraper.c_title := Py.lit "Untitled";
                geocities_scraper.c_url := Py.lit "Area51/1234/";
                geocities_scraper.c_last_modified := [];
                geocities_scraper.c_has_sound := false |}).
Proof. vm_compute. reflexivity. Qed.

(** * Further properties *)

(** ** The flattener only appends *)

Section grows.
Import flatten_data flatten_props.
Context (P : page -> Prop).

Lemma grows_ret {A} (a : A) : grows P (ret a).
Proof. split; [intros ps; unfold ret; simpl; by rewrite app_nil_r|constructor]. Qed.

Lemma grows_lift {A} (r : except A) : grows P (lift r).
Proof. split; [intros ps; unfold lift; simpl; by rewrite app_nil_r|constructor]. Qed.

Lemma grows_append p : P p -> grows P (append p).
Proof. intros Hp. split; [done|]. simpl. by constructor. Qed.

Lemma grows_bind {A B} (m : SE (list page) A) (k : A -> SE (list page) B) :
  grows P m -> (forall a, (m []).1 = Ok a -> grows P (k a)) ->
  grows P (bind m k).
Proof.
  intros [Hm HPm] Hk. split.
  - intros ps. unfold bind. rewrite (Hm ps).
    destruct (m []) as [[a|e] new]; simpl in *.
    + destruct (Hk a eq_refl) as [Hka _].
      rewrite (Hka (ps ++ new)), (Hka new). simpl. by rewrite app_assoc.
    + reflexivity.
  - unfold bind. destruct (m []) as [[a|e] new]; simpl in *; [|done].
    destruct (Hk a eq_refl) as [Hka HPk]. rewrite (Hka new). simpl.
    apply Forall_app. by split.
Qed.

Lemma grows_try {A} (m : SE (list page) A) (handler : exn -> SE (list page) A) :
  grows P m -> (forall e, grows P (handler e)) -> grows P (try_except m handler).
Proof.
  intros [Hm HPm] Hh. split.
  - intros ps. unfold try_except. rewrite (Hm ps).
    destruct (m []) as [[a|e] new]; simpl in *; [reflexivity|].
    destruct (Hh e) as [Hhe _]. rewrite (Hhe (ps ++ new)), (Hhe new).
    simpl. by rewrite app_assoc.
  - unfold try_except. destruct (m []) as [[a|e] new]; simpl in *; [done|].
    destruct (Hh e) as [Hhe HPh]. rewrite (Hhe new). simpl.
    apply Forall_app. by split.
Qed.

Lemma grows_for_each {A} (l : list A) (body : A -> SE (list page) unit) :
  (forall x, grows P (body x)) -> grows P (for_each l body).
Proof.
  intros Hbody. induction l as [|x l IH]; simpl.
  - apply grows_ret.
  - apply grows_bind; [apply Hbody|]. intros _ _. exact IH.
Qed.

End grows.

Section flattener_grows.
Import flatten_data flatten_props.

Lemma hood_page_hood_of hood_name card p :
  hood_page hood_name card = Ok p -> hood_of p = hood_name.
Proof.
  unfold hood_page, ebind.
  destruct (getitem card (Py.lit "title")); [|discriminate].
  destruct (getitem card (Py.lit "url")); [|discriminate].
  destruct (get card (Py.lit "has_sound") (JBool false)); [|discriminate].
  by intros [= <-].
Qed.

Lemma burb_page_hood_of hood_name burb card p :
  burb_page hood_name burb card = Ok p -> hood_of p = hood_name.
Proof.
  unfold burb_page, ebind.
  destruct (getitem card (Py.lit "title")); [|discriminate].
  destruct (getitem card (Py.lit "url")); [|discriminate].
  destruct (get card (Py.lit "has_sound") (JBool false)); [|discriminate].
  destruct (getitem burb (Py.lit "name")); [|discriminate].
  by intros [= <-].
Qed.

Lemma grows_page hood_name (r : except page) :
  (forall p, r = Ok p -> hood_of p = hood_name) ->
  grows (fun p => hood_of p = hood_name) (let* p := lift r in append p).
Proof.
  intros Hr. apply grows_bind; [apply grows_lift|].
  intros p Hp. apply grows_append. by apply Hr.
Qed.

(** The two loops over a document, whatever the document is, only append
    pages, and pages of that hood. *)
Lemma add_pages_grows hood_name hood_data :
  grows (fun p => hood_of p = hood_name) (add_pages hood_name hood_data).
Proof.
  unfold add_pages.
  apply grows_bind; [apply grows_lift|]. intros cards _.
  apply grows_bind.
  { apply grows_for_each. intros card. apply grows_page.
    intros p. apply hood_page_hood_of. }
  intros _ _. apply grows_bind; [apply grows_lift|]. intros burbs _.
  apply grows_for_each. intros burb.
  apply grows_bind; [apply grows_lift|]. intros cards' _.
  apply grows_for_each. intros card. apply grows_page.
  intros p. apply burb_page_hood_of.
Qed.

Lemma process_file_grows hood_name content :
  grows (fun p => hood_of p = hood_name) (process_file hood_name content).
Proof.
  unfold process_file. apply grows_try.
  - apply grows_bind; [apply grows_lift|]. intros hood_data _.
    apply add_pages_grows.
  - intros e. apply grows_ret.
Qed.

(** The handler makes the [try] block return. *)
Lemma process_file_returns hood_name content all_pages :
  (process_file hood_name content all_pages).1 = Ok tt.
Proof.
  unfold process_file, try_except.
  destruct ((let* hood_data := lift content in add_pages hood_name hood_data)
              all_pages) as [[[]|e] ps]; reflexivity.
Qed.

(** The pages of a scan are what the entries add, one after the other. *)
Lemma scan_contributions (input_dir : directory) (all_pages : list page)
    (hood_names : gset Py.str) :
  (fold_left scan_file input_dir (all_pages, hood_names)).1
  = all_pages ++ flat_map contribution input_dir.
Proof.
  revert all_pages hood_names.
  induction input_dir as [|[filename content] input_dir IH];
    intros all_pages hood_names; simpl.
  - by rewrite app_nil_r.
  - destruct (Py.endswith filename (Py.lit ".json")) eqn:Hend; simpl.
    + rewrite IH.
      destruct (process_file_grows (Py.drop_last 5 filename) content)
        as [Hgrow _].
      rewrite (Hgrow all_pages). simpl. by rewrite <- app_assoc.
    + by rewrite IH.
Qed.

End flattener_grows.

(** ** The flattener: the listing *)

Section listing.
Import flatten_data flatten_props.

Lemma scan_eq (input_dir : directory) :
  scan input_dir
  = (flat_map contribution input_dir,
     list_to_set (C:=gset Py.str) (encountered input_dir)).
Proof.
  pose proof (scan_contributions input_dir [] ∅) as Hpages.
  pose proof (scan_names input_dir [] ∅) as Hnames.
  fold (scan input_dir) in Hpages, Hnames.
  destruct (scan input_dir) as [pages names]. simpl in *.
  rewrite Hpages, Hnames. f_equal. apply (left_id_L ∅ (∪)).
Qed.

Lemma encountered_app (d1 d2 : directory) :
  encountered (d1 ++ d2) = encountered d1 ++ encountered d2.
Proof. unfold encountered. by rewrite fmap_app, filter_app, fmap_app. Qed.

Lemma contribution_hood_of filename content :
  Forall (fun p => hood_of p = Py.drop_last 5 filename)
    (contribution (filename, content)).
Proof.
  unfold contribution.
  destruct (Py.endswith filename (Py.lit ".json")); [|constructor].
  apply process_file_grows.
Qed.

Lemma elem_of_slice {A} (l : list A) (a b : Z) (x : A) :
  x ∈ Py.slice l a b -> x ∈ l.
Proof.
  unfold Py.slice. intros Hx.
  eapply elem_of_sublist; [exact Hx|].
  etransitivity; [apply sublist_take|apply sublist_drop].
Qed.

Lemma for_each_append_raise {A} (good rest : list A) (bad : A) (e : exn)
    (f : A -> except page) (g : A -> page) (all_pages : list page) :
  Forall (fun x => f x = Ok (g x)) good ->
  f bad = Raise e ->
  for_each (good ++ bad :: rest) (fun x => let* p := lift (f x) in append p)
    all_pages
  = (Raise e, all_pages ++ (g <$> good)).
Proof.
  intros Hgood Hbad. revert all_pages.
  induction Hgood as [|x good Hx _ IH]; intros all_pages; simpl.
  - unfold bind, lift. rewrite Hbad. by rewrite app_nil_r.
  - unfold bind at 1. unfold bind at 1. unfold lift. rewrite Hx.
    unfold append, modify. rewrite IH. by rewrite <- app_assoc.
Qed.

Lemma not_card_raises hood_name card :
  is_card card = false -> exists e, hood_page hood_name card = Raise e.
Proof.
  unfold is_card, hood_page, ebind.
  destruct (getitem card (Py.lit "title")); [|eauto].
  destruct (getitem card (Py.lit "url")); [discriminate|eauto].
Qed.

End listing.

(** X1. A file whose name does not end in [.json] is ignored: the run is the
    run on the directory without it. *)
Theorem other_files_are_ignored (pre post : flatten_data.directory)
    (filename : Py.str) (content : except json) (now : Py.str)
    (chunk_size : Z) :
  Py.endswith filename (Py.lit ".json") = false ->
  flatten_data.flatten_geocities_data
    (pre ++ (filename, content) :: post) now chunk_size
  = flatten_data.flatten_geocities_data (pre ++ post) now chunk_size.
Proof.
  intros Hend. unfold flatten_data.flatten_geocities_data.
  rewrite !scan_eq. rewrite !flat_map_app, !encountered_app. simpl.
  unfold flatten_props.contribution at 2. rewrite Hend. simpl.
  replace (flatten_data.encountered ((filename, content) :: post))
    with (flatten_data.encountered post); [reflexivity|].
  unfold flatten_data.encountered. rewrite fmap_cons. cbn [fst].
  rewrite filter_cons_False; [reflexivity|]. by rewrite Hend.
Qed.

Lemma other_files_are_ignored_witness :
  flatten_data.flatten_geocities_data Examples.input_dir Examples.now 4
  = flatten_data.flatten_geocities_data Examples.corrupt_dir Examples.now 4.
Proof.
  apply (other_files_are_ignored
           [(Py.lit "Area51.json", Ok Examples.hood_json);
            (Py.lit "Broken.json",
             Raise (JSONDecodeError (Py.lit "Expecting value")))] []
           (Py.lit "README.txt")).
  vm_compute. reflexivity.
Defined.

(** X2. What a file adds does not depend on the files before it: the scan
    of two listings one after the other gives the pages of the first
    followed by the pages of the second, and the names of both. *)
Theorem scan_of_listings_in_a_row (d1 d2 : flatten_data.directory) :
  flatten_data.scan (d1 ++ d2)
  = ((flatten_data.scan d1).1 ++ (flatten_data.scan d2).1,
     (flatten_data.scan d1).2 ∪ (flatten_data.scan d2).2).
Proof.
  rewrite !scan_eq. simpl.
  by rewrite flat_map_app, encountered_app, list_to_set_app_L.
Qed.

(** X3. A card without ['title'] or ['url'] ends the work on its file: the
    pages of the cards before it stay, and nothing more is added for that
    file, neither for the cards after it nor for the burbs. *)
Theorem bad_card_ends_the_file (hood_name : Py.str) (hood_data : json)
    (good rest : list json) (bad : json)
    (all_pages : list flatten_data.page) :
  getitem hood_data (Py.lit "cards") = Ok (JList (good ++ bad :: rest)) ->
  forallb flatten_data.is_card good = true ->
  flatten_data.is_card bad = false ->
  flatten_data.process_file hood_name (Ok hood_data) all_pages
  = (Ok tt,
     all_pages
     ++ (flatten_data.item (flatten_data.SourceH hood_name) <$> good)).
Proof.
  intros Hcards Hgood Hbad.
  destruct (not_card_raises hood_name bad Hbad) as [e He].
  unfold flatten_data.process_file, try_except, flatten_data.add_pages.
  unfold bind at 1. unfold lift at 1.
  unfold bind at 1. unfold lift at 1. rewrite Hcards. simpl.
  unfold bind at 1.
  rewrite (for_each_append_raise good rest bad e _
             (flatten_data.item (flatten_data.SourceH hood_name))).
  - reflexivity.
  - eapply Forall_impl; [apply forallb_Forall, Hgood|].
    intros card Hcard. by apply hood_page_item.
  - exact He.
Qed.

Lemma bad_card_ends_the_file_witness :
  flatten_data.process_file (Py.lit "Area51")
    (Ok (JDict [(Py.lit "cards",
                 JList [Examples.card_json "a"; JStr (Py.lit "b");
                        Examples.card_json "c"]);
                (Py.lit "burbs", JList [])])) []
  = (Ok tt,
     [flatten_data.item (flatten_data.SourceH (Py.lit "Area51"))
        (Examples.card_json "a")]).
Proof.
  apply (bad_card_ends_the_file (Py.lit "Area51") _
           [Examples.card_json "a"] [Examples.card_json "c"]
           (JStr (Py.lit "b")) []); vm_compute; reflexivity.
Defined.

(** X4. Every page of every chunk written carries, under ['h'], a name that
    is in [hoods] of the metadata, for any chunk size. *)
Theorem written_pages_name_listed_hoods (input_dir : flatten_data.directory)
    (now : Py.str) (chunk_size : Z) (out : flatten_data.output) :
  flatten_data.flatten_geocities_data input_dir now chunk_size = Ok out ->
  forall i chunk p,
    (i, chunk) ∈ flatten_data.chunk_files out -> p ∈ chunk ->
    flatten_props.hood_of p
      ∈ flatten_data.hoods (flatten_data.metadata_file out).
Proof.
  unfold flatten_data.flatten_geocities_data. rewrite scan_eq.
  unfold flatten_data.write_chunks.
  destruct (chunk_size =? 0); [discriminate|].
  intros [= <-] i chunk p Hfile Hp. simpl in *.
  apply list_elem_of_fmap in Hfile as (j & [= -> ->] & _).
  apply elem_of_slice in Hp. apply list_elem_of_In, in_flat_map in Hp
    as ([filename content] & Hentry%list_elem_of_In & Hp%list_elem_of_In).
  apply elem_of_hoods.
  pose proof (contribution_hood_of filename content) as Hhood.
  rewrite Forall_forall in Hhood. rewrite (Hhood p Hp).
  apply (encountered_stem _ filename content Hentry).
  unfold flatten_props.contribution in Hp.
  destruct (Py.endswith filename (Py.lit ".json")); [done|].
  by apply not_elem_of_nil in Hp.
Qed.

Lemma written_pages_name_listed_hoods_witness :
  exists out,
    flatten_data.flatten_geocities_data Examples.input_dir Examples.now 4
      = Ok out /\
    forall i chunk p,
      (i, chunk) ∈ flatten_data.chunk_files out -> p ∈ chunk ->
      flatten_props.hood_of p
        ∈ flatten_data.hoods (flatten_data.metadata_file out).
Proof.
  eexists. split; [vm_compute; reflexivity|].
  apply (written_pages_name_listed_hoods Examples.input_dir Examples.now 4).
  vm_compute. reflexivity.
Defined.

Section listing_order.
Import flatten_data flatten_props.

Lemma scan_pages_Permutation (d d' : directory) :
  d ≡ₚ d' -> (scan d).1 ≡ₚ (scan d').1.
Proof.
  intros Hperm. rewrite !scan_eq. simpl.
  by apply Permutation_flat_map.
Qed.

Lemma encountered_Permutation (d d' : directory) :
  d ≡ₚ d' -> encountered d ≡ₚ encountered d'.
Proof. intros Hperm. unfold encountered. by rewrite Hperm. Qed.

End listing_order.

(** X5. The order in which the system lists the directory does not change
    the metadata, and changes the pages written only by their order (for a
    chunk size of at least 1). *)
Theorem listing_order_does_not_change_metadata
    (d d' : flatten_data.directory) (now : Py.str) (chunk_size : Z) :
  d ≡ₚ d' -> 1 <= chunk_size ->
  exists out out',
    flatten_data.flatten_geocities_data d now chunk_size = Ok out /\
    flatten_data.flatten_geocities_data d' now chunk_size = Ok out' /\
    flatten_data.metadata_file out = flatten_data.metadata_file out' /\
    concat ((flatten_data.chunk_files out).*2)
      ≡ₚ concat ((flatten_data.chunk_files out').*2).
Proof.
  intros Hperm Hc.
  destruct (flatten_run d now chunk_size Hc) as (k & [Hlo Hhi] & Hrun).
  destruct (flatten_run d' now chunk_size Hc) as (k' & [Hlo' Hhi'] & Hrun').
  pose proof (scan_pages_Permutation d d' Hperm) as Hpages.
  pose proof (Permutation_length Hpages) as Hlen.
  assert (Hnames :
    list_to_set (C:=gset Py.str) (flatten_data.encountered d)
    = list_to_set (flatten_data.encountered d')).
  { apply list_to_set_perm_L. by apply encountered_Permutation. }
  assert (Hk : k = k') by (rewrite Hlen in Hlo, Hhi; nia).
  eexists _, _. split; [exact Hrun|]. split; [exact Hrun'|]. simpl. split.
  - unfold Py.len. rewrite Hlen, Hnames, Hk. reflexivity.
  - rewrite !blocks_concat by assumption. exact Hpages.
Qed.

Lemma listing_order_does_not_change_metadata_witness :
  exists out out',
    flatten_data.flatten_geocities_data Examples.input_dir Examples.now 4
      = Ok out /\
    flatten_data.flatten_geocities_data (reverse Examples.input_dir)
      Examples.now 4 = Ok out' /\
    flatten_data.metadata_file out = flatten_data.metadata_file out' /\
    concat ((flatten_data.chunk_files out).*2)
      ≡ₚ concat ((flatten_data.chunk_files out').*2).
Proof.
  apply listing_order_does_not_change_metadata; [|lia].
  symmetry. apply reverse_Permutation.
Defined.

(** X6. When no file name of the directory ends in [.json], and so for an
    empty directory, a run with a chunk size of at least 1 writes metadata
    with no page, no hood and no chunk, and writes no chunk file. *)
Theorem nothing_to_flatten (input_dir : flatten_data.directory)
    (now : Py.str) (chunk_size : Z) :
  1 <= chunk_size ->
  Forall (fun entry => Py.endswith entry.1 (Py.lit ".json") = false)
    input_dir ->
  flatten_data.flatten_geocities_data input_dir now chunk_size
  = Ok {| flatten_data.metadata_file :=
            {| flatten_data.total_pages := 0;
               flatten_data.total_hoods := 0;
               flatten_data.hoods := [];
               flatten_data.generated_at := now;
               flatten_data.chunks := 0 |};
          flatten_data.chunk_files := [] |}.
Proof.
  intros Hc Hdir. unfold flatten_data.flatten_geocities_data.
  rewrite scan_eq.
  assert (Hpages : flat_map flatten_props.contribution input_dir = []).
  { induction Hdir as [|[filename content] input_dir Hend _ IH]; [done|].
    simpl in *. by rewrite Hend, IH. }
  assert (Hnames : flatten_data.encountered input_dir = []).
  { unfold flatten_data.encountered. clear Hpages.
    induction Hdir as [|[filename content] input_dir Hend _ IH]; [done|].
    rewrite fmap_cons. cbn [fst] in *.
    rewrite filter_cons_False by (by rewrite Hend). exact IH. }
  rewrite Hpages, Hnames. unfold flatten_data.write_chunks.
  destruct (Z.eqb_spec chunk_size 0) as [?|_]; [lia|].
  unfold Py.len. cbn [length]. change (Z.of_nat 0) with 0.
  replace ((0 + chunk_size - 1) / chunk_size) with 0
    by (symmetry; apply Z.div_small; lia).
  rewrite list_to_set_nil, size_empty, elements_empty. reflexivity.
Qed.

Lemma nothing_to_flatten_witness :
  flatten_data.flatten_geocities_data
    [(Py.lit "README.txt", Ok JNone)] Examples.now 10000
  = Ok {| flatten_data.metadata_file :=
            {| flatten_data.total_pages := 0;
               flatten_data.total_hoods := 0;
               flatten_data.hoods := [];
               flatten_data.generated_at := Examples.now;
               flatten_data.chunks := 0 |};
          flatten_data.chunk_files := [] |}.
Proof.
  apply nothing_to_flatten; [lia|].
  constructor; [vm_compute; reflexivity|constructor].
Defined.

(** ** The flattener: the names of the chunk files *)

Section chunk_names.
Import flatten_data flatten_files.

Lemma lit_inj (s1 s2 : string) : Py.lit s1 = Py.lit s2 -> s1 = s2.
Proof.
  unfold Py.lit. intros Heq.
  rewrite <- (string_of_list_ascii_of_string s1),
          <- (string_of_list_ascii_of_string s2).
  f_equal. revert Heq.
  generalize (list_ascii_of_string s1) (list_ascii_of_string s2).
  intros l1. induction l1 as [|a1 l1 IH]; intros [|a2 l2]; simpl;
    try discriminate; [done|].
  intros [= Ha Hl]. f_equal; [|by apply IH].
  rewrite <- (ascii_N_embedding a1), <- (ascii_N_embedding a2).
  by rewrite Ha.
Qed.

Lemma str_of_int_inj (i j : Z) : str_of_int i = str_of_int j -> i = j.
Proof. intros Heq%lit_inj. by apply (inj pretty). Qed.

Lemma chunk_file_name_inj output_file (i j : Z) :
  chunk_file_name output_file i = chunk_file_name output_file j -> i = j.
Proof.
  unfold chunk_file_name. intros Heq.
  apply app_inv_head, app_inv_head, app_inv_tail in Heq.
  by apply str_of_int_inj.
Qed.

Lemma range_NoDup (n : Z) : NoDup (Py.range n).
Proof.
  unfold Py.range. apply NoDup_fmap_2; [|apply NoDup_seq].
  intros i j. lia.
Qed.

Lemma indices_of_chunk_files {A} (f : Z -> A) (l : list Z) :
  ((fun i => (i, f i)) <$> l).*1 = l.
Proof. induction l as [|i l IH]; [done|]. rewrite !fmap_cons, IH. done. Qed.

End chunk_names.

(** X7. The chunk files of a run have names that differ from one another,
    whatever the output path and the chunk size: no chunk is written over
    another. *)
Theorem chunk_files_have_distinct_names (input_dir : flatten_data.directory)
    (now : Py.str) (chunk_size : Z) (output_file : Py.str)
    (out : flatten_data.output) :
  flatten_data.flatten_geocities_data input_dir now chunk_size = Ok out ->
  NoDup (flatten_files.chunk_file_name output_file
           <$> (flatten_data.chunk_files out).*1).
Proof.
  unfold flatten_data.flatten_geocities_data.
  destruct (flatten_data.scan input_dir) as [all_pages hood_names].
  unfold flatten_data.write_chunks.
  destruct (chunk_size =? 0); [discriminate|]. intros [= <-]. simpl.
  apply NoDup_fmap_2; [intros i j; apply chunk_file_name_inj|].
  rewrite indices_of_chunk_files. apply range_NoDup.
Qed.

Lemma chunk_files_have_distinct_names_witness :
  exists out,
    flatten_data.flatten_geocities_data Examples.input_dir Examples.now 4
      = Ok out /\
    flatten_files.chunk_file_name (Py.lit "geocities_flattened.json")
      <$> (flatten_data.chunk_files out).*1
    = [Py.lit "geocities_flattened_chunk_0.json.gz";
       Py.lit "geocities_flattened_chunk_1.json.gz";
       Py.lit "geocities_flattened_chunk_2.json.gz"] /\
    NoDup (flatten_files.chunk_file_name (Py.lit "geocities_flattened.json")
             <$> (flatten_data.chunk_files out).*1).
Proof.
  eexists. split; [vm_compute; reflexivity|]. split; [vm_compute; reflexivity|].
  apply (chunk_files_have_distinct_names Examples.input_dir Examples.now 4).
  vm_compute. reflexivity.
Defined.

(** ** Strings: [strip], [find] and [split] *)

Section strip.
Import Py props.
Implicit Types s : str.

Lemma lstrip_starts_clean s : starts_clean (lstrip s).
Proof.
  induction s as [|c s IH]; simpl; [done|].
  destruct (isspace c) eqn:Hc; [exact IH|]. simpl. exact Hc.
Qed.

Lemma lstrip_fixed s : starts_clean s -> lstrip s = s.
Proof. destruct s as [|c s]; simpl; [done|]. by intros ->. Qed.

(** [lstrip] removes a run of whitespace at the start. *)
Lemma lstrip_split s :
  exists ws, s = ws ++ lstrip s /\ forallb isspace ws = true.
Proof.
  induction s as [|c s (ws & Hs & Hws)]; simpl.
  - by exists [].
  - destruct (isspace c) eqn:Hc.
    + exists (c :: ws). simpl. rewrite Hc, Hws. split; [by f_equal|done].
    + by exists [].
Qed.

Lemma rstrip_split s :
  exists ws, s = rstrip s ++ ws /\ forallb isspace ws = true.
Proof.
  unfold rstrip. destruct (lstrip_split (rev s)) as (ws & Hs & Hws).
  exists (rev ws). split.
  - rewrite <- rev_app_distr, <- Hs. by rewrite rev_involutive.
  - rewrite forallb_forall in *. intros c Hc. apply Hws. by apply in_rev.
Qed.

Lemma rstrip_ends_clean s : starts_clean (rev (rstrip s)).
Proof. unfold rstrip. rewrite rev_involutive. apply lstrip_starts_clean. Qed.

Lemma rstrip_fixed s : starts_clean (rev s) -> rstrip s = s.
Proof.
  intros Hs. unfold rstrip. rewrite lstrip_fixed by done.
  apply rev_involutive.
Qed.

Lemma rstrip_starts_clean s : starts_clean s -> starts_clean (rstrip s).
Proof.
  intros Hs. destruct (rstrip_split s) as (ws & Heq & _).
  destruct (rstrip s) as [|c r]; [done|].
  rewrite Heq in Hs. exact Hs.
Qed.

(** What [strip] returns has no whitespace at either end, and [strip]
    leaves such a string as it is. *)
Lemma strip_stripped s : stripped (strip s).
Proof.
  split.
  - apply rstrip_starts_clean, lstrip_starts_clean.
  - apply rstrip_ends_clean.
Qed.

Lemma strip_fixed s : stripped s -> strip s = s.
Proof.
  intros [Hstart Hend]. unfold strip.
  rewrite lstrip_fixed by done. by apply rstrip_fixed.
Qed.

(** [find] finds every occurrence. *)
Lemma find_occurs s sub : occurs sub s -> is_Some (find s sub).
Proof.
  intros (pre & post & ->). induction pre as [|c pre IH].
  - rewrite app_nil_l, find_prefix. by eexists.
  - cbn [app find].
    destruct (startswith (c :: pre ++ sub ++ post) sub); [by eexists|].
    destruct IH as [i ->]. by eexists.
Qed.

End strip.

(** ** The scraper: the fields of a card *)

Section card_fields.
Import geocities_scraper props.

Lemma contains_occurs (sub s : Py.str) :
  Py.contains sub s = true <-> occurs sub s.
Proof.
  unfold Py.contains. split.
  - destruct (Py.find s sub) as [i|] eqn:Hfind; [|discriminate].
    intros _. apply find_Some in Hfind. by eexists _, _.
  - intros [i ->]%find_occurs. reflexivity.
Qed.

Lemma split_aux_first (fuel : nat) (s sep : Py.str) :
  sep <> [] -> (length s <= fuel)%nat ->
  Py.split_aux fuel s sep !! 0%nat = Some (before s sep).
Proof.
  intros Hsep Hfuel. unfold before.
  destruct (Py.find s sep) as [i|] eqn:Hfind.
  - pose proof (find_Some_le _ _ _ Hfind) as Hle.
    assert (0 < length sep)%nat by (destruct sep; [done|simpl; lia]).
    destruct fuel as [|fuel]; [lia|]. simpl. by rewrite Hfind.
  - destruct fuel; simpl; by rewrite Hfind.
Qed.

(** The second part of a split is what is between the first separator and
    the next. *)
Lemma split_second (s sep : Py.str) (i : nat) :
  sep <> [] -> Py.find s sep = Some i ->
  Py.split s sep !! 1%nat = Some (before (drop (i + length sep) s) sep).
Proof.
  intros Hsep Hfind. unfold Py.split.
  pose proof (find_Some_le _ _ _ Hfind) as Hle.
  assert (0 < length sep)%nat by (destruct sep; [done|simpl; lia]).
  destruct (length s) as [|fuel] eqn:Hlen; [lia|].
  simpl. rewrite Hfind. simpl.
  apply split_aux_first; [done|]. rewrite length_drop. lia.
Qed.

Lemma titles_of_cards (card_elements : list card_element) :
  c_title <$> omap card_of card_elements
  = title_of <$> filter (fun card => is_Some (subtitle card)) card_elements.
Proof.
  induction card_elements as [|card rest IH]; [done|].
  cbn [omap list_omap]. unfold card_of at 1, process_card, title_of at 1.
  destruct (subtitle card) as [subtitle_text|] eqn:Hsub.
  - rewrite filter_cons_True by (rewrite Hsub; eauto).
    rewrite !fmap_cons. simpl. f_equal. exact IH.
  - rewrite filter_cons_False by (rewrite Hsub; by intros [? ?]).
    exact IH.
Qed.

End card_fields.

(** X8. A card with a subtitle gets as title the text of its title link, or
    ["Untitled"] when it has no title or no link, and [has_sound] is true
    exactly when the sound glyph occurs in that title. *)
Theorem sound_flag_iff_glyph_in_title
    (title_link : option (option Py.str)) (subtitle_text : Py.str) :
  let card :=
    {| geocities_scraper.title_link := title_link;
       geocities_scraper.subtitle := Some subtitle_text |} in
  exists c,
    geocities_scraper.process_card card = Ok (Some c) /\
    geocities_scraper.c_title c
      = match title_link with
        | Some (Some text) => text
        | _ => Py.lit "Untitled"
        end /\
    (geocities_scraper.c_has_sound c = true
     <-> props.occurs [128266%N] (geocities_scraper.c_title c)).
Proof.
  intros card. eexists. split; [reflexivity|]. simpl.
  split; [reflexivity|]. apply contains_occurs.
Qed.

(** X9. The [last_modified] of a card is the text between the first marker
    and the next one (or the end), stripped, and is empty when the subtitle
    has no marker; it has no whitespace at either end. *)
Theorem last_modified_between_markers
    (title_link : option (option Py.str)) (subtitle_text : Py.str) :
  let card :=
    {| geocities_scraper.title_link := title_link;
       geocities_scraper.subtitle := Some subtitle_text |} in
  let marker := Py.lit "Last modified:" in
  exists c,
    geocities_scraper.process_card card = Ok (Some c) /\
    geocities_scraper.c_last_modified c
      = match Py.find subtitle_text marker with
        | Some i =>
            Py.strip
              (props.before (drop (i + length marker) subtitle_text) marker)
        | None => []
        end /\
    props.stripped (geocities_scraper.c_last_modified c).
Proof.
  intros card marker. eexists. split; [reflexivity|]. simpl.
  fold marker.
  destruct (Py.find subtitle_text marker) as [i|] eqn:Hfind.
  - rewrite (split_second subtitle_text marker i) by done.
    split; [reflexivity|]. apply strip_stripped.
  - rewrite (split_no_marker _ _ Hfind). by split.
Qed.

(** X10. A page that is fetched gives its cards in the order of the page:
    one for each card element that has a subtitle, none for the others, and
    nothing is logged. *)
Theorem cards_follow_the_page
    (network : nat -> Py.str -> geocities_scraper.response)
    (url : Py.str) (w : geocities_scraper.world) (status_code : Z)
    (card_elements : list geocities_scraper.card_element) :
  network (length (geocities_scraper.events w)) url
    = geocities_scraper.Response status_code card_elements ->
  geocities_scraper.raise_for_status status_code = Ok tt ->
  exists cards,
    geocities_scraper.get_burb_cards network url w
      = (Ok cards, geocities_scraper.add_events w [geocities_scraper.Get url])
    /\ geocities_scraper.c_title <$> cards
       = props.title_of
           <$> filter (fun card =>
                         is_Some (geocities_scraper.subtitle card))
                 card_elements.
Proof.
  intros Hnet Hstatus. rewrite get_burb_cards_spec, Hnet, Hstatus.
  eexists. split; [reflexivity|]. apply titles_of_cards.
Qed.

Lemma cards_follow_the_page_witness :
  exists cards,
    geocities_scraper.get_burb_cards Examples.network
      (Py.lit "https://example.org/Area51") Examples.world0
      = (Ok cards,
         geocities_scraper.add_events Examples.world0
           [geocities_scraper.Get (Py.lit "https://example.org/Area51")])
    /\ geocities_scraper.c_title <$> cards = [Py.lit "My home page"].
Proof.
  destruct (cards_follow_the_page Examples.network
              (Py.lit "https://example.org/Area51") Examples.world0 200
              [Examples.page_card; Examples.bare_card])
    as (cards & Hrun & Htitles); [vm_compute; reflexivity..|].
  exists cards. split; [exact Hrun|]. rewrite Htitles.
  vm_compute. reflexivity.
Defined.

Lemma sound_flag_iff_glyph_in_title_witness :
  exists c,
    geocities_scraper.process_card Examples.sound_card = Ok (Some c) /\
    geocities_scraper.c_has_sound c = true /\
    geocities_scraper.c_last_modified c = Py.lit "2009".
Proof.
  destruct (sound_flag_iff_glyph_in_title
              (Some (Some (Py.lit "Midi page " ++ [128266%N])))
              (Py.lit "www.geocities.com/Area51/9/ Last modified: 2009 Last modified: 1999"))
    as (c & Hrun & Htitle & Hsound).
  exists c. split; [exact Hrun|]. split.
  - apply Hsound. rewrite Htitle. by exists (Py.lit "Midi page "), [].
  - vm_compute in Hrun. inversion Hrun. reflexivity.
Defined.

(** ** The scraper: the trace of a hood *)

Section hood_trace.
Import geocities_scraper props.

Variable network : nat -> Py.str -> response.
Variable clock : nat -> Py.str.
Variable self : config.
Variable resolve : resolver.

Lemma sleeps_app evs1 evs2 :
  sleeps (evs1 ++ evs2) = sleeps evs1 ++ sleeps evs2.
Proof. apply omap_app. Qed.

Lemma logged_app l evs1 evs2 :
  logged l (evs1 ++ evs2) = logged l evs1 ++ logged l evs2.
Proof. apply omap_app. Qed.

(** Fetching a page makes no pause and logs no warning. *)
Lemma get_burb_cards_quiet url w :
  exists cards evs,
    get_burb_cards network url w = (Ok cards, add_events w evs) /\
    gets evs = [url] /\ dumps evs = [] /\
    sleeps evs = [] /\ logged WARNING evs = [].
Proof.
  rewrite get_burb_cards_spec.
  destruct (network (length (events w)) url) as [e|status_code card_elements];
    [|destruct (raise_for_status status_code) as [[]|e]];
    eexists _, _; (split; [reflexivity|]); repeat split; reflexivity.
Qed.

(** The loop over the burbs to scrape: it scrapes those of the hood, in the
    order given, pauses one second after each, and logs a warning for each
    of the others. *)
Lemma burbs_loop_trace hood_name hood_info burbs_to_scrape scraped_burbs w :
  exists new evs,
    burbs_loop network self hood_name hood_info burbs_to_scrape scraped_burbs w
    = (Ok (scraped_burbs ++ new), add_events w evs) /\
    bd_name <$> new
      = filter (fun b => b ∈ info_burbs hood_info) burbs_to_scrape /\
    gets evs = burb_url self hood_name <$> (bd_name <$> new) /\
    dumps evs = [] /\
    sleeps evs = replicate (length new) 1 /\
    logged WARNING evs
      = (fun b => BurbNotFound b hood_name)
          <$> filter (fun b => b ∉ info_burbs hood_info) burbs_to_scrape.
Proof.
  revert scraped_burbs w.
  induction burbs_to_scrape as [|burb_name rest IH]; intros scraped_burbs w.
  - exists [], []. simpl. unfold ret. rewrite app_nil_r, add_events_nil.
    repeat split.
  - cbn [burbs_loop]. unfold bind at 1.
    destruct (decide (burb_name ∈ info_burbs hood_info)) as [Hin|Hnot].
    + rewrite bool_decide_eq_true_2 by done. unfold bind at 1.
      unfold scrape_burb. fold (burb_url self hood_name burb_name).
      unfold bind at 1. unfold log, emit, modify.
      set (ev0 := Log (ScrapingBurb (burb_url self hood_name burb_name))).
      fold (add_events w [ev0]). unfold bind at 1.
      destruct (get_burb_cards_quiet (burb_url self hood_name burb_name)
                  (add_events w [ev0]))
        as (cards & evs & -> & Hgets & Hdumps & Hsleeps & Hwarn).
      unfold ret at 1. unfold bind at 1. unfold sleep, emit, modify, ret.
      rewrite add_events_app.
      fold (add_events (add_events w ([ev0] ++ evs)) [Sleep 1]).
      rewrite add_events_app.
      set (burb_data := {| bd_name := burb_name;
                           bd_url := burb_url self hood_name burb_name;
                           bd_cards := cards;
                           bd_total_pages := Py.len cards |}).
      destruct (IH (scraped_burbs ++ [burb_data])
                   (add_events w (([ev0] ++ evs) ++ [Sleep 1])))
        as (new & evs' & -> & Hnames & Hgets' & Hdumps' & Hsleeps' & Hwarn').
      exists (burb_data :: new), ((([ev0] ++ evs) ++ [Sleep 1]) ++ evs').
      rewrite add_events_app, <- app_assoc.
      split; [reflexivity|].
      rewrite filter_cons_True by done.
      rewrite (filter_cons_False (fun b => b ∉ info_burbs hood_info))
        by (by intros ?).
      rewrite !gets_app, !dumps_app, !sleeps_app, !logged_app.
      rewrite Hgets, Hdumps, Hsleeps, Hwarn.
      rewrite Hgets', Hdumps', Hsleeps', Hwarn'.
      rewrite !fmap_cons, Hnames. repeat split.
    + rewrite bool_decide_eq_false_2 by done. unfold bind at 1.
      unfold log, emit, modify, ret.
      fold (add_events w [Log (BurbNotFound burb_name hood_name)]).
      destruct (IH scraped_burbs
                   (add_events w [Log (BurbNotFound burb_name hood_name)]))
        as (new & evs' & -> & Hnames & Hgets' & Hdumps' & Hsleeps' & Hwarn').
      exists new, (Log (BurbNotFound burb_name hood_name) :: evs').
      rewrite add_events_app. split; [reflexivity|].
      rewrite filter_cons_False by done.
      rewrite (filter_cons_True (fun b => b ∉ info_burbs hood_info))
        by done.
      change (Log (BurbNotFound burb_name hood_name) :: evs')
        with ([Log (BurbNotFound burb_name hood_name)] ++ evs').
      rewrite !gets_app, !dumps_app, !sleeps_app, !logged_app.
      rewrite Hgets', Hdumps', Hsleeps', Hwarn'.
      rewrite !fmap_cons. repeat split; assumption.
Qed.

(** A hood of the configuration, with all that [scrape_hood] does. *)
Lemma scrape_hood_trace hood_name burbs hood_info w :
  assoc hood_name (neighborhoods self) = Some hood_info ->
  let chosen :=
    match burbs with
    | Some (b :: l) => b :: l
    | _ => info_burbs hood_info
    end in
  let output_file := path_join output_dir (hood_file hood_name) in
  exists d evs,
    scrape_hood network clock self resolve hood_name burbs w
    = (Ok d,
       {| files := <[written_file resolve (hood_file hood_name) := HoodJson d]>
                     (files w);
          events := events w ++ evs |}) /\
    hd_name d = hood_name /\
    hd_description d = info_description hood_info /\
    hd_url d = hood_url self hood_name /\
    bd_name <$> hd_burbs d
      = filter (fun b => b ∈ info_burbs hood_info) chosen /\
    gets evs
      = hood_url self hood_name
          :: (burb_url self hood_name <$> (bd_name <$> hd_burbs d)) /\
    dumps evs = [output_file] /\
    sleeps evs = replicate (length (hd_burbs d)) 1 /\
    logged WARNING evs
      = (fun b => BurbNotFound b hood_name)
          <$> filter (fun b => b ∉ info_burbs hood_info) chosen.
Proof.
  intros Hsome chosen output_file. unfold scrape_hood. rewrite Hsome.
  fold (hood_url self hood_name). fold chosen.
  unfold bind at 1. unfold log, emit, modify.
  set (ev0 := Log (ScrapingNeighborhoodPage (hood_url self hood_name))).
  fold (add_events w [ev0]). unfold bind at 1.
  destruct (get_burb_cards_quiet (hood_url self hood_name)
              (add_events w [ev0]))
    as (hood_cards & evs1 & -> & Hgets1 & Hdumps1 & Hsleeps1 & Hwarn1).
  rewrite add_events_app. unfold bind at 1.
  destruct (burbs_loop_trace hood_name hood_info chosen []
              (add_events w ([ev0] ++ evs1)))
    as (scraped_burbs & evs2 & -> & Hnames & Hgets2 & Hdumps2 & Hsleeps2
        & Hwarn2).
  rewrite add_events_app. simpl app at 1.
  unfold save_hood_data, bind, strftime, log, emit, modify, ret. simpl.
  fold (hood_file hood_name). fold output_file.
  eexists _, ((([ev0] ++ evs1) ++ evs2)
              ++ [Dump output_file; Log (SavedHoodData output_file)]).
  split.
  { apply f_equal2; [reflexivity|]. f_equal.
    simpl. rewrite <- ?app_assoc. simpl. rewrite <- ?app_assoc. reflexivity. }
  simpl.
  rewrite !gets_app, !dumps_app, !sleeps_app, !logged_app.
  rewrite Hgets1, Hdumps1, Hsleeps1, Hwarn1.
  rewrite Hgets2, Hdumps2, Hsleeps2, Hwarn2. simpl.
  rewrite !app_nil_r. repeat split; assumption.
Qed.

End hood_trace.

(** X11. For a hood of the configuration, [scrape_hood] scrapes, of the
    burbs asked for (all those of the configuration when none or an empty
    list is given), those that the configuration lists for the hood, in the
    order asked and as often as asked; it requests the page of the hood and
    then theirs, and logs one warning for each burb asked for that the
    configuration does not list. *)
Theorem only_listed_burbs_are_scraped
    (network : nat -> Py.str -> geocities_scraper.response)
    (clock : nat -> Py.str) (self : geocities_scraper.config)
    (resolve : geocities_scraper.resolver)
    (hood_name : Py.str) (burbs : option (list Py.str))
    (hood_info : geocities_scraper.hood_info) (w : geocities_scraper.world) :
  assoc hood_name (geocities_scraper.neighborhoods self) = Some hood_info ->
  let listed := geocities_scraper.info_burbs hood_info in
  let asked :=
    match burbs with
    | Some (b :: l) => b :: l
    | _ => listed
    end in
  exists d w' evs,
    geocities_scraper.scrape_hood network clock self resolve hood_name burbs w
      = (Ok d, w') /\
    geocities_scraper.events w' = geocities_scraper.events w ++ evs /\
    geocities_scraper.bd_name <$> geocities_scraper.hd_burbs d
      = filter (fun b => b ∈ listed) asked /\
    geocities_scraper.gets evs
      = geocities_scraper.hood_url self hood_name
          :: (geocities_scraper.burb_url self hood_name
                <$> filter (fun b => b ∈ listed) asked) /\
    geocities_scraper.logged geocities_scraper.WARNING evs
      = (fun b => geocities_scraper.BurbNotFound b hood_name)
          <$> filter (fun b => b ∉ listed) asked.
Proof.
  intros Hassoc listed asked.
  destruct (scrape_hood_trace network clock self resolve hood_name burbs hood_info w
              Hassoc)
    as (d & evs & Hrun & _ & _ & _ & Hnames & Hgets & _ & _ & Hwarn).
  eexists d, _, evs. split; [exact Hrun|]. simpl.
  split; [reflexivity|]. split; [exact Hnames|]. split; [|exact Hwarn].
  rewrite Hgets, Hnames. reflexivity.
Qed.

Lemma only_listed_burbs_are_scraped_witness :
  exists d w' evs,
    geocities_scraper.scrape_hood Examples.network Examples.clock Examples.self Examples.resolve
      (Py.lit "Area51") (Some [Py.lit "Nebula"; Py.lit "Nowhere"])
      Examples.world0 = (Ok d, w') /\
    geocities_scraper.events w'
      = geocities_scraper.events Examples.world0 ++ evs /\
    geocities_scraper.bd_name <$> geocities_scraper.hd_burbs d
      = [Py.lit "Nebula"] /\
    geocities_scraper.logged geocities_scraper.WARNING evs
      = [geocities_scraper.BurbNotFound (Py.lit "Nowhere") (Py.lit "Area51")].
Proof.
  destruct (only_listed_burbs_are_scraped Examples.network Examples.clock
              Examples.self Examples.resolve (Py.lit "Area51")
              (Some [Py.lit "Nebula"; Py.lit "Nowhere"])
              {| geocities_scraper.info_description := Py.lit "Science fiction";
                 geocities_scraper.info_burbs :=
                   [Py.lit "Vault"; Py.lit "Nebula"] |}
              Examples.world0 ltac:(vm_compute; reflexivity))
    as (d & w' & evs & Hrun & Hev & Hnames & _ & Hwarn).
  exists d, w', evs. split; [exact Hrun|]. split; [exact Hev|].
  split; [rewrite Hnames|rewrite Hwarn]; vm_compute; reflexivity.
Defined.

(** X12. [scrape_hood] pauses one second once for each burb it scrapes,
    and not otherwise; it makes one request more than it scrapes burbs, and
    writes one file. *)
Theorem one_pause_per_burb
    (network : nat -> Py.str -> geocities_scraper.response)
    (clock : nat -> Py.str) (self : geocities_scraper.config)
    (resolve : geocities_scraper.resolver)
    (hood_name : Py.str) (burbs : option (list Py.str))
    (w : geocities_scraper.world) :
  hood_name ∈ (geocities_scraper.neighborhoods self).*1 ->
  exists d w' evs,
    geocities_scraper.scrape_hood network clock self resolve hood_name burbs w
      = (Ok d, w') /\
    geocities_scraper.events w' = geocities_scraper.events w ++ evs /\
    props.sleeps evs = replicate (length (geocities_scraper.hd_burbs d)) 1 /\
    length (geocities_scraper.gets evs)
      = S (length (geocities_scraper.hd_burbs d)) /\
    geocities_scraper.dumps evs
      = [geocities_scraper.path_join geocities_scraper.output_dir
           (geocities_scraper.hood_file hood_name)].
Proof.
  intros [hood_info Hassoc]%assoc_Some.
  destruct (scrape_hood_trace network clock self resolve hood_name burbs hood_info w
              Hassoc)
    as (d & evs & Hrun & _ & _ & _ & _ & Hgets & Hdumps & Hsleeps & _).
  eexists d, _, evs. split; [exact Hrun|]. simpl.
  split; [reflexivity|]. split; [exact Hsleeps|]. split; [|exact Hdumps].
  rewrite Hgets. simpl. by rewrite !length_fmap.
Qed.

Lemma one_pause_per_burb_witness :
  exists d w' evs,
    geocities_scraper.scrape_hood Examples.network Examples.clock Examples.self Examples.resolve
      (Py.lit "Area51") None Examples.world0 = (Ok d, w') /\
    geocities_scraper.events w'
      = geocities_scraper.events Examples.world0 ++ evs /\
    props.sleeps evs = [1; 1].
Proof.
  destruct (one_pause_per_burb Examples.network Examples.clock Examples.self Examples.resolve
              (Py.lit "Area51") None Examples.world0)
    as (d & w' & evs & Hrun & Hev & Hsleeps & _).
  - apply list_elem_of_In. vm_compute. auto.
  - exists d, w', evs. split; [exact Hrun|]. split; [exact Hev|].
    rewrite Hsleeps. vm_compute in Hrun. inversion Hrun. reflexivity.
Defined.



(** ** The scraper: more on the batch *)

Section batch_more.
Import geocities_scraper props.

Variable network : nat -> Py.str -> response.
Variable clock : nat -> Py.str.
Variable self : config.
Variable resolve : resolver.




End batch_more.





(** X16. A run for one hood that the configuration does not have requests
    no page and writes no file: it logs that the scraping failed and raises
    the [ValueError] of [scrape_hood]. *)
Theorem unknown_hood_fails_the_run
    (network : nat -> Py.str -> geocities_scraper.response)
    (clock : nat -> Py.str) (self : geocities_scraper.config)
    (resolve : geocities_scraper.resolver)
    (hood_name : Py.str) (burbs : option (list Py.str)) (resume : bool)
    (w : geocities_scraper.world) :
  hood_name <> [] ->
  hood_name ∉ (geocities_scraper.neighborhoods self).*1 ->
  let e :=
    ValueError (Py.lit "Hood " ++ hood_name ++ Py.lit " not found in config") in
  geocities_scraper.main network clock self resolve
    {| geocities_scraper.args_hood := Some hood_name;
       geocities_scraper.args_burbs := burbs;
       geocities_scraper.args_resume := resume |} w
  = (Raise e,
     geocities_scraper.add_events w
       [geocities_scraper.Log (geocities_scraper.ScrapingFailed e)]).
Proof.
  intros Hne Hnot%assoc_None e.
  destruct hood_name as [|c hood]; [done|].
  unfold geocities_scraper.main, try_except. simpl. unfold bind at 1.
  by rewrite (scrape_hood_missing network clock self resolve (c :: hood) burbs w Hnot).
Qed.

Lemma unknown_hood_fails_the_run_witness :
  geocities_scraper.main Examples.network Examples.clock Examples.self Examples.resolve
    {| geocities_scraper.args_hood := Some (Py.lit "Atlantis");
       geocities_scraper.args_burbs := None;
       geocities_scraper.args_resume := true |} Examples.world0
  = (Raise (ValueError (Py.lit "Hood Atlantis not found in config")),
     geocities_scraper.add_events Examples.world0
       [geocities_scraper.Log
          (geocities_scraper.ScrapingFailed
             (ValueError (Py.lit "Hood Atlantis not found in config")))]).
Proof.
  apply (unknown_hood_fails_the_run Examples.network Examples.clock
           Examples.self Examples.resolve (Py.lit "Atlantis") None true Examples.world0).
  - discriminate.
  - rewrite list_elem_of_In. vm_compute. intros [H|[H|[]]]; discriminate.
Defined.



(** ** The scraper of the configuration: [clean_text] *)

Section clean_text.
Import Py props scrape_config.

(** The second substitution leaves whitespace as single spaces only. *)
Lemma sub_runs_spaced b text :
  spaced_from b (sub_runs_from b isspace (lit " ") text).
Proof.
  revert b. induction text as [|c text IH]; intros b; [done|].
  cbn [sub_runs_from]. destruct (isspace c) eqn:Hc.
  - destruct b.
    + apply IH.
    + change (lit " ") with [32%N]. cbn [app spaced_from].
      change (isspace 32%N) with true. cbv iota.
      split; [done|]. split; [done|]. apply IH.
  - cbn [spaced_from]. rewrite Hc. apply IH.
Qed.

Lemma spaced_single b s : spaced_from b s -> single_spaced s.
Proof.
  revert b. induction s as [|c s IH]; intros b H.
  - split.
    + intros c Hc. by apply elem_of_nil in Hc.
    + intros (pre & post & Heq). by destruct pre.
  - cbn [spaced_from] in H. destruct (isspace c) eqn:Hc.
    + destruct H as (-> & -> & H). destruct (IH _ H) as [Hall Hno]. split.
      * intros d [->|Hd]%elem_of_cons Hws; [done|by apply Hall].
      * intros (pre & post & Heq). destruct pre as [|p pre].
        -- change (lit "  ") with [32%N; 32%N] in Heq. simpl in Heq.
           injection Heq as Hs. subst s. cbn [spaced_from] in H.
           change (isspace 32%N) with true in H. cbv iota in H.
           by destruct H as (_ & ? & _).
        -- simpl in Heq. injection Heq as _ Hs. apply Hno.
           by exists pre, post.
    + destruct (IH _ H) as [Hall Hno]. split.
      * intros d [->|Hd]%elem_of_cons Hws; [congruence|by apply Hall].
      * intros (pre & post & Heq). destruct pre as [|p pre].
        -- change (lit "  ") with [32%N; 32%N] in Heq. simpl in Heq.
           injection Heq as -> _. discriminate.
        -- simpl in Heq. injection Heq as _ Hs. apply Hno.
           by exists pre, post.
Qed.

Lemma single_spaced_tail c s : single_spaced (c :: s) -> single_spaced s.
Proof.
  intros [Hall Hno]. split.
  - intros d Hd. apply Hall. by right.
  - intros (pre & post & ->). apply Hno. by exists (c :: pre), post.
Qed.

(** After a space of a single-spaced text comes no whitespace. *)
Lemma single_spaced_after_space s :
  single_spaced (32%N :: s) -> starts_clean s.
Proof.
  intros [Hall Hno]. destruct s as [|d s]; [done|]. simpl.
  destruct (isspace d) eqn:Hd; [|done]. exfalso.
  assert (d = 32%N) as -> by (apply Hall; [right; left|done]).
  apply Hno. by exists [], s.
Qed.

Lemma single_spaced_from b s :
  single_spaced s -> (b = true -> starts_clean s) -> spaced_from b s.
Proof.
  revert b. induction s as [|c s IH]; intros b Hs Hb; [done|].
  cbn [spaced_from]. pose proof (single_spaced_tail _ _ Hs) as Htail.
  destruct (isspace c) eqn:Hc.
  - assert (c = 32%N) as -> by (apply Hs; [by left|done]).
    split; [done|]. split.
    + destruct b; [|done]. specialize (Hb eq_refl). simpl in Hb. congruence.
    + apply IH; [done|]. intros _. by apply single_spaced_after_space.
  - apply IH; [done|]. discriminate.
Qed.

Lemma sub_runs_fixed b s :
  spaced_from b s -> sub_runs_from b isspace (lit " ") s = s.
Proof.
  revert b. induction s as [|c s IH]; intros b H; [done|].
  cbn [sub_runs_from]. cbn [spaced_from] in H. destruct (isspace c) eqn:Hc.
  - destruct H as (-> & -> & H). by rewrite (IH _ H).
  - by rewrite (IH _ H).
Qed.

Lemma sub_runs_none b cls repl s :
  Forall (fun c => cls c = false) s -> sub_runs_from b cls repl s = s.
Proof.
  intros H. revert b. induction H as [|c s Hc _ IH]; intros b; [done|].
  cbn [sub_runs_from]. by rewrite Hc, IH.
Qed.

Lemma newline_or_tab_isspace c : newline_or_tab c = true -> isspace c = true.
Proof.
  unfold newline_or_tab.
  by intros [->%N.eqb_eq| ->%N.eqb_eq]%orb_true_iff.
Qed.

Lemma single_spaced_no_newline s :
  single_spaced s -> Forall (fun c => newline_or_tab c = false) s.
Proof.
  intros [Hall _]. apply Forall_forall. intros c Hc.
  destruct (newline_or_tab c) eqn:Hn; [|done]. exfalso.
  pose proof (Hall c Hc (newline_or_tab_isspace c Hn)) as ->. discriminate.
Qed.

Lemma single_spaced_infix pre s post :
  single_spaced (pre ++ s ++ post) -> single_spaced s.
Proof.
  intros [Hall Hno]. split.
  - intros c Hc. apply Hall. rewrite !elem_of_app. auto.
  - intros (p & q & ->). apply Hno. exists (pre ++ p), (q ++ post).
    by rewrite <- !app_assoc.
Qed.

(** [strip] removes whitespace at both ends. *)
Lemma strip_infix s :
  exists pre post,
    s = pre ++ strip s ++ post /\
    forallb isspace pre = true /\ forallb isspace post = true.
Proof.
  unfold strip. destruct (lstrip_split s) as (ws1 & H1 & Hws1).
  destruct (rstrip_split (lstrip s)) as (ws2 & H2 & Hws2).
  exists ws1, ws2. split; [|done]. by rewrite <- H2.
Qed.

Lemma clean_text_normal text : normal (clean_text text).
Proof.
  unfold clean_text. split; [apply strip_stripped|].
  set (t := re_sub_runs isspace _ _).
  destruct (strip_infix t) as (pre & post & Heq & _).
  apply (single_spaced_infix pre _ post). rewrite <- Heq.
  apply (spaced_single false), sub_runs_spaced.
Qed.

Lemma clean_text_fixed s : normal s -> clean_text s = s.
Proof.
  intros [Hstrip Hsp]. unfold clean_text, re_sub_runs.
  rewrite (sub_runs_none false newline_or_tab)
    by (by apply single_spaced_no_newline).
  rewrite sub_runs_fixed by (by apply single_spaced_from).
  by apply strip_fixed.
Qed.

(** *** The characters that are kept *)

Lemma visible_app s1 s2 : visible (s1 ++ s2) = visible s1 ++ visible s2.
Proof. apply filter_app. Qed.

Lemma visible_whitespace ws : forallb isspace ws = true -> visible ws = [].
Proof.
  induction ws as [|c ws IH]; [done|]. cbn [forallb].
  intros [Hc Hws]%andb_true_iff. unfold visible.
  rewrite filter_cons_False by congruence. by apply IH.
Qed.

Lemma visible_sub_runs b cls repl s :
  (forall c, cls c = true -> isspace c = true) ->
  visible repl = [] ->
  visible (sub_runs_from b cls repl s) = visible s.
Proof.
  intros Hcls Hrepl. revert b.
  induction s as [|c s IH]; intros b; [done|].
  cbn [sub_runs_from]. destruct (cls c) eqn:Hc.
  - rewrite visible_app, IH.
    assert (visible (if b then [] else repl) = []) as ->
      by (by destruct b).
    unfold visible at 2. rewrite filter_cons_False; [done|].
    rewrite (Hcls c Hc). discriminate.
  - unfold visible. destruct (isspace c) eqn:Hs.
    + rewrite !filter_cons_False by congruence. apply IH.
    + rewrite !filter_cons_True by done. f_equal. apply IH.
Qed.

Lemma visible_strip s : visible (strip s) = visible s.
Proof.
  destruct (strip_infix s) as (pre & post & Heq & Hpre & Hpost).
  rewrite Heq at 2. rewrite !visible_app.
  by rewrite (visible_whitespace pre), (visible_whitespace post), app_nil_r.
Qed.

Lemma clean_text_visible text : visible (clean_text text) = visible text.
Proof.
  unfold clean_text, re_sub_runs. rewrite visible_strip.
  rewrite visible_sub_runs by done.
  apply visible_sub_runs; [apply newline_or_tab_isspace|done].
Qed.

(** *** The words of a text *)

Lemma words_sub_runs b cls word s :
  (forall c, cls c = true -> isspace c = true) ->
  (b = true -> word = []) ->
  words_from word (sub_runs_from b cls (lit " ") s) = words_from word s.
Proof.
  intros Hcls. revert b word.
  induction s as [|c s IH]; intros b word Hb; [done|].
  cbn [sub_runs_from]. destruct (cls c) eqn:Hc.
  - pose proof (Hcls c Hc) as Hs. cbn [words_from]. rewrite Hs.
    destruct b.
    + rewrite (Hb eq_refl). simpl app. by apply IH.
    + change (lit " ") with [32%N]. cbn [app words_from].
      change (isspace 32%N) with true. cbv iota.
      destruct word; rewrite IH; done.
  - cbn [words_from]. destruct (isspace c).
    + destruct word; rewrite IH; done.
    + by apply IH.
Qed.

Lemma words_from_whitespace word ws :
  forallb isspace ws = true -> words_from word ws = words_from word [].
Proof.
  revert word. induction ws as [|c ws IH]; intros word; [done|]. simpl.
  intros [Hc Hws]%andb_true_iff. rewrite Hc.
  destruct word; rewrite IH; done.
Qed.

Lemma words_from_app_whitespace word s ws :
  forallb isspace ws = true -> words_from word (s ++ ws) = words_from word s.
Proof.
  intros Hws. revert word. induction s as [|c s IH]; intros word.
  - by apply words_from_whitespace.
  - cbn [app words_from]. destruct (isspace c).
    + destruct word; by rewrite IH.
    + apply IH.
Qed.

Lemma words_whitespace_app ws s :
  forallb isspace ws = true -> words (ws ++ s) = words s.
Proof.
  unfold words. induction ws as [|c ws IH]; [done|]. simpl.
  intros [Hc Hws]%andb_true_iff. rewrite Hc. by apply IH.
Qed.

Lemma words_strip s : words (strip s) = words s.
Proof.
  destruct (strip_infix s) as (pre & post & Heq & Hpre & Hpost).
  rewrite Heq at 2. rewrite words_whitespace_app by done.
  unfold words. by rewrite words_from_app_whitespace.
Qed.

Lemma clean_text_words text : words (clean_text text) = words text.
Proof.
  unfold clean_text, re_sub_runs. rewrite words_strip. unfold words.
  rewrite words_sub_runs by done.
  apply words_sub_runs; [apply newline_or_tab_isspace|done].
Qed.

Lemma words_from_cons word c s :
  isspace c = false -> words_from word (c :: s) <> [].
Proof.
  intros Hc. cbn [words_from]. rewrite Hc.
  assert (Hgen : forall w, w <> [] -> words_from w s <> []).
  { induction s as [|d s IH]; intros w Hw.
    - by destruct w.
    - cbn [words_from]. destruct (isspace d).
      + by destruct w.
      + apply IH. by destruct w. }
  apply Hgen. by destruct word.
Qed.

Lemma join_cons sep x l :
  l <> [] -> join sep (x :: l) = x ++ sep ++ join sep l.
Proof. by destruct l. Qed.

Lemma ends_clean_tail c s : starts_clean (rev (c :: s)) -> starts_clean (rev s).
Proof.
  simpl. destruct (rev s) as [|d r]; [done|]. by simpl.
Qed.

(** The words of a normal text, put together with single spaces, are the
    text. *)
Lemma join_words_from word s :
  single_spaced s -> starts_clean (rev s) ->
  (word = [] -> starts_clean s) ->
  join (lit " ") (words_from word s) = word ++ s.
Proof.
  revert word. induction s as [|c s IH]; intros word Hs Hend Hword.
  - rewrite app_nil_r. by destruct word.
  - pose proof (single_spaced_tail _ _ Hs) as Htail.
    pose proof (ends_clean_tail _ _ Hend) as Hend'.
    cbn [words_from]. destruct (isspace c) eqn:Hc.
    + assert (c = 32%N) as -> by (apply Hs; [by left|done]).
      pose proof (single_spaced_after_space _ Hs) as Hclean.
      destruct word as [|a word]; [specialize (Hword eq_refl); done|].
      destruct s as [|d s].
      { simpl in Hend. congruence. }
      simpl in Hclean. rewrite join_cons by (by apply words_from_cons).
      rewrite IH by done. reflexivity.
    + rewrite IH; [by rewrite <- app_assoc|done|done|].
      by destruct word.
Qed.

Lemma join_words s : normal s -> join (lit " ") (words s) = s.
Proof.
  intros [[Hstart Hend] Hs]. unfold words.
  by rewrite join_words_from.
Qed.

End clean_text.

(** X18. What [clean_text] returns is normal: it has no whitespace at
    either end, and no whitespace inside but single spaces.  The texts that
    [clean_text] returns as they are, are the normal ones; so cleaning a
    text twice is cleaning it once. *)
Theorem clean_text_normalises (text : Py.str) :
  scrape_config.normal (scrape_config.clean_text text) /\
  (scrape_config.clean_text text = text <-> scrape_config.normal text) /\
  scrape_config.clean_text (scrape_config.clean_text text)
  = scrape_config.clean_text text.
Proof.
  split; [apply clean_text_normal|]. split.
  - split; [|apply clean_text_fixed].
    intros <-. apply clean_text_normal.
  - apply clean_text_fixed, clean_text_normal.
Qed.

(** X19. [clean_text] changes whitespace only: the characters of the text
    that are not whitespace are those of the result, in the same order.
    The result is empty exactly when the text is whitespace throughout. *)
Theorem clean_text_keeps_visible_characters (text : Py.str) :
  scrape_config.visible (scrape_config.clean_text text)
  = scrape_config.visible text /\
  (scrape_config.clean_text text = []
   <-> Forall (fun c => Py.isspace c = true) text).
Proof.
  split; [apply clean_text_visible|].
  assert (Hall : scrape_config.visible text = []
                 <-> Forall (fun c => Py.isspace c = true) text).
  { unfold scrape_config.visible. induction text as [|c text IH].
    - split; [constructor|done].
    - destruct (Py.isspace c) eqn:Hc.
      + rewrite filter_cons_False by congruence. rewrite IH.
        split; [by constructor|by inversion 1].
      + rewrite filter_cons_True by done.
        split; [done|]. inversion 1; congruence. }
  rewrite <- Hall, <- clean_text_visible. split; [by intros ->|].
  destruct (clean_text_normal text) as [[Hstart _] _].
  destruct (scrape_config.clean_text text) as [|c s]; [done|].
  simpl in Hstart. unfold scrape_config.visible.
  by rewrite filter_cons_True.
Qed.

(** X20. [clean_text(text)] is [' '.join(text.split())]: the words of the
    text, each separated from the next by one space. *)
Theorem clean_text_joins_the_words (text : Py.str) :
  scrape_config.clean_text text
  = scrape_config.join (Py.lit " ") (scrape_config.words text).
Proof.
  rewrite <- clean_text_words. symmetry.
  apply join_words, clean_text_normal.
Qed.

(** ** The scraper of the configuration: the main page *)

Section main_page.
Import scrape_config.

Variable network : Py.str -> response.

(** The dict after the assignments of a list of entries, in order. *)
Let stored (entries : list (Py.str * geocities_scraper.hood_info))
    (d : list (Py.str * geocities_scraper.hood_info)) :=
  fold_left (fun d e => dict_set e.1 e.2 d) entries d.

Lemma config_events_nil w : add_events w [] = w.
Proof. destruct w. unfold add_events. simpl. by rewrite app_nil_r. Qed.

Lemma config_events_app w evs1 evs2 :
  add_events (add_events w evs1) evs2 = add_events w (evs1 ++ evs2).
Proof. unfold add_events. simpl. by rewrite app_assoc. Qed.

(** Lookup after an assignment. *)
Lemma assoc_dict_set {V} k (v : V) d h :
  assoc h (dict_set k v d) = if decide (h = k) then Some v else assoc h d.
Proof.
  induction d as [|[k' v'] d IH]; simpl.
  - done.
  - destruct (decide (k = k')) as [->|Hne]; simpl.
    + by destruct (decide (h = k')).
    + destruct (decide (h = k')) as [->|Hne'].
      * by rewrite decide_False by done.
      * exact IH.
Qed.

(** An assignment keeps the keys in place, and puts a new key last. *)
Lemma dict_set_keys {V} k (v : V) d :
  (dict_set k v d).*1 = if decide (k ∈ d.*1) then d.*1 else d.*1 ++ [k].
Proof.
  induction d as [|[k' v'] d IH]; cbn [dict_set].
  - rewrite decide_False; [done|]. apply not_elem_of_nil.
  - destruct (decide (k = k')) as [->|Hne]; rewrite !fmap_cons; cbn [fst].
    + rewrite decide_True; [done|]. by left.
    + rewrite IH. destruct (decide (k ∈ d.*1)) as [Hin|Hnot].
      * rewrite decide_True; [done|]. by right.
      * rewrite decide_False; [done|].
        by intros [?|?]%elem_of_cons.
Qed.

Lemma dict_set_NoDup {V} k (v : V) d :
  NoDup d.*1 -> NoDup (dict_set k v d).*1.
Proof.
  intros Hd. rewrite dict_set_keys.
  destruct (decide (k ∈ d.*1)) as [Hin|Hnot]; [done|].
  apply NoDup_app. split; [done|]. split; [|apply NoDup_singleton].
  by intros x Hx ->%list_elem_of_singleton.
Qed.

Lemma assoc_app {V} h (d1 d2 : list (Py.str * V)) :
  assoc h (d1 ++ d2)
  = match assoc h d1 with Some v => Some v | None => assoc h d2 end.
Proof.
  induction d1 as [|[k v] d1 IH]; simpl; [done|].
  by destruct (decide (h = k)).
Qed.

(** After the assignments, a key has the value of the last entry with
    it. *)
Lemma assoc_stored h entries d :
  assoc h (stored entries d)
  = match assoc h (rev entries) with Some v => Some v | None => assoc h d end.
Proof.
  revert d. induction entries as [|[k v] entries IH]; intros d; [done|].
  unfold stored. cbn [fold_left]. fold (stored entries (dict_set k v d)).
  rewrite IH. cbn [rev]. rewrite assoc_app, assoc_dict_set. cbn [assoc fst snd].
  destruct (assoc h (rev entries)); [done|]. by destruct (decide (h = k)).
Qed.

Lemma stored_NoDup entries d : NoDup d.*1 -> NoDup (stored entries d).*1.
Proof.
  revert d. induction entries as [|[k v] entries IH]; intros d Hd; [done|].
  apply IH. by apply dict_set_NoDup.
Qed.

Lemma stored_keys h entries :
  h ∈ (stored entries []).*1 <-> h ∈ entries.*1.
Proof.
  rewrite !assoc_Some. setoid_rewrite assoc_stored. simpl.
  rewrite <- !assoc_Some.
  assert (Hrev : h ∈ (rev entries).*1 <-> h ∈ entries.*1).
  { rewrite !list_elem_of_fmap.
    split; intros (e & -> & He); exists e; (split; [done|]);
      apply list_elem_of_In; apply list_elem_of_In in He.
    - exact (proj2 (in_rev entries e) He).
    - exact (proj1 (in_rev entries e) He). }
  rewrite <- Hrev, assoc_Some.
  split; intros [v Hv]; exists v.
  - by destruct (assoc h (rev entries)).
  - by rewrite Hv.
Qed.

Lemma hood_entry_returns hood_element :
  hood_entry hood_element = Ok (entry_of hood_element).
Proof.
  unfold entry_of, hood_entry. by destruct (hood_link hood_element).
Qed.

(** The loop over the headings: every heading with a link is stored and
    logged, in order; the others are passed over. *)
Lemma hoods_loop_spec hood_elements neighborhoods w :
  hoods_loop hood_elements neighborhoods w
  = (Ok (stored (omap entry_of hood_elements) neighborhoods),
     add_events w ((fun e => Log (ScrapedNeighborhood e.1))
                     <$> omap entry_of hood_elements)).
Proof.
  revert neighborhoods w.
  induction hood_elements as [|el rest IH]; intros neighborhoods w.
  - simpl. unfold ret. by rewrite config_events_nil.
  - cbn [hoods_loop]. unfold bind at 1. unfold try_except.
    unfold bind at 1. unfold lift. rewrite hood_entry_returns.
    change (omap entry_of (el :: rest))
      with (match entry_of el with
            | Some e => e :: omap entry_of rest
            | None => omap entry_of rest
            end).
    destruct (entry_of el) as [[hood_name info]|].
    + unfold bind at 1. unfold log, modify, ret. rewrite IH.
      fold (add_events w [Log (ScrapedNeighborhood hood_name)]).
      by rewrite config_events_app.
    + unfold ret at 1. by rewrite IH.
Qed.

(** When the page is fetched, [scrape_main_page] returns. *)
Lemma scrape_main_page_fetched status_code hood_elements w :
  network base_url = Response status_code hood_elements ->
  geocities_scraper.raise_for_status status_code = Ok tt ->
  scrape_main_page network w
  = (Ok (stored (omap entry_of hood_elements) []),
     add_events w (Get base_url
                   :: ((fun e => Log (ScrapedNeighborhood e.1))
                         <$> omap entry_of hood_elements))).
Proof.
  intros Hnet Hstatus. unfold scrape_main_page, try_except.
  unfold bind at 1. unfold requests_get. rewrite Hnet.
  unfold bind at 1. unfold lift. simpl fst. rewrite Hstatus. simpl snd.
  rewrite hoods_loop_spec.
  fold (add_events w [Get base_url]). by rewrite config_events_app.
Qed.

(** When it is not, [scrape_main_page] logs and raises. *)
Lemma scrape_main_page_failed e w :
  fetch_failure (network base_url) = Some e ->
  scrape_main_page network w
  = (Raise e, add_events w [Get base_url; Log (ErrorScrapingMainPage e)]).
Proof.
  intros Hfail. unfold scrape_main_page, try_except.
  unfold bind at 1. unfold requests_get. unfold fetch_failure in Hfail.
  destruct (network base_url) as [e'|status_code hood_elements].
  - injection Hfail as ->. unfold bind, log, modify, raise, add_events. simpl.
    by rewrite <- app_assoc.
  - unfold bind at 1. unfold lift. simpl fst.
    destruct (geocities_scraper.raise_for_status status_code) as [[]|e'];
      [discriminate|].
    injection Hfail as ->. unfold bind, log, modify, raise, add_events. simpl.
    by rewrite <- app_assoc.
Qed.

Lemma entry_of_Some hood_element hood_name info :
  entry_of hood_element = Some (hood_name, info) ->
  exists text,
    hood_link hood_element = Some text /\
    hood_name = clean_text text /\
    geocities_scraper.info_burbs info
    = match table hood_element with
      | Some burb_links => clean_text <$> burb_links
      | None => []
      end.
Proof.
  unfold entry_of, hood_entry.
  destruct (hood_link hood_element) as [text|]; [|discriminate].
  intros [= <- <-]. by exists text.
Qed.

Lemma entry_of_link hood_element text :
  hood_link hood_element = Some text ->
  exists info, entry_of hood_element = Some (clean_text text, info).
Proof.
  intros Hlink. unfold entry_of, hood_entry. rewrite Hlink. by eexists.
Qed.

(** The names of the entries are the cleaned texts of the links. *)
Lemma entry_names hood_elements h :
  h ∈ (omap entry_of hood_elements).*1
  <-> exists hood_element text,
        hood_element ∈ hood_elements /\
        hood_link hood_element = Some text /\ h = clean_text text.
Proof.
  rewrite list_elem_of_fmap. split.
  - intros ([hood_name info] & -> & Hin).
    apply list_elem_of_omap in Hin as (el & Hel & Hentry).
    destruct (entry_of_Some _ _ _ Hentry) as (text & Hlink & -> & _).
    by exists el, text.
  - intros (el & text & Hel & Hlink & ->).
    destruct (entry_of_link el text Hlink) as [info Hentry].
    exists (clean_text text, info). split; [done|].
    apply list_elem_of_omap. by exists el.
Qed.

(** An assignment adds its pair and no other. *)
Lemma dict_set_elem {V} k (v : V) d e :
  e ∈ dict_set k v d -> e = (k, v) \/ e ∈ d.
Proof.
  induction d as [|[k' v'] d IH]; cbn [dict_set].
  - intros ->%list_elem_of_singleton. by left.
  - destruct (decide (k = k')) as [->|Hne].
    + intros [->|He]%elem_of_cons; [by left|]. right. by right.
    + intros [->|He]%elem_of_cons; [right; by left|].
      destruct (IH He) as [->|Hd]; [by left|]. right. by right.
Qed.

Lemma stored_elem entries d e :
  e ∈ stored entries d -> e ∈ d \/ e ∈ entries.
Proof.
  revert d. induction entries as [|[k v] entries IH]; intros d; [by left|].
  unfold stored. cbn [fold_left]. fold (stored entries (dict_set k v d)).
  intros [[->|Hd]%dict_set_elem|He]%IH.
  - right. by left.
  - by left.
  - right. by right.
Qed.

(** Fetching the page fails, or gives the headings. *)
Lemma fetch_cases (r : response) :
  (exists e, fetch_failure r = Some e) \/
  (exists status_code hood_elements,
     r = Response status_code hood_elements /\
     geocities_scraper.raise_for_status status_code = Ok tt).
Proof.
  destruct r as [e|status_code hood_elements]; simpl.
  - left. by exists e.
  - destruct (geocities_scraper.raise_for_status status_code) as [[]|e] eqn:Hs.
    + right. by exists status_code, hood_elements.
    + left. by exists e.
Qed.

(** [main] after the page is fetched. *)
Lemma config_main_fetched status_code hood_elements w :
  network base_url = Response status_code hood_elements ->
  geocities_scraper.raise_for_status status_code = Ok tt ->
  let neighborhoods := stored (omap entry_of hood_elements) [] in
  let output_file := Py.lit "geocities_config.json" in
  main network w
  = (Ok tt,
     {| files :=
          <[output_file :=
              {| geocities_scraper.base_url := base_url;
                 geocities_scraper.neighborhoods := neighborhoods |}]>
            (files w);
        events :=
          events w
          ++ (Get base_url
              :: ((fun e => Log (ScrapedNeighborhood e.1))
                    <$> omap entry_of hood_elements))
          ++ [Dump output_file; Log (ConfigSaved output_file);
              Log (SuccessfullyScraped (Py.len neighborhoods))] |}).
Proof.
  intros Hnet Hstatus neighborhoods output_file.
  unfold main, try_except. unfold bind at 1.
  rewrite (scrape_main_page_fetched _ _ _ Hnet Hstatus).
  fold neighborhoods.
  unfold save_config, bind, log, modify, add_events. simpl.
  by rewrite <- !app_assoc.
Qed.

End main_page.

(** X21. When the main page is fetched, [scrape_main_page] returns a dict
    with one key for each name that a heading with a link has, the name
    being the cleaned text of the link; headings without a link add
    nothing.  When several headings have the same name, the value is that
    of the last one.  It logs each heading with a link, in order. *)
Theorem later_heading_replaces_earlier
    (network : Py.str -> scrape_config.response) (status_code : Z)
    (hood_elements : list scrape_config.hood_element)
    (w : scrape_config.world) :
  network scrape_config.base_url
    = scrape_config.Response status_code hood_elements ->
  geocities_scraper.raise_for_status status_code = Ok tt ->
  let entries := omap scrape_config.entry_of hood_elements in
  exists neighborhoods,
    scrape_config.scrape_main_page network w
    = (Ok neighborhoods,
       scrape_config.add_events w
         (scrape_config.Get scrape_config.base_url
          :: ((fun e => scrape_config.Log
                          (scrape_config.ScrapedNeighborhood e.1))
                <$> entries))) /\
    NoDup neighborhoods.*1 /\
    (forall h,
       h ∈ neighborhoods.*1 <->
       exists hood_element text,
         hood_element ∈ hood_elements /\
         scrape_config.hood_link hood_element = Some text /\
         h = scrape_config.clean_text text) /\
    (forall h, assoc h neighborhoods = assoc h (rev entries)).
Proof.
  intros Hnet Hstatus entries. eexists. split; [|split; [|split]].
  - exact (scrape_main_page_fetched network status_code hood_elements w
             Hnet Hstatus).
  - apply stored_NoDup. constructor.
  - intros h. rewrite stored_keys. apply entry_names.
  - intros h. rewrite assoc_stored. fold entries.
    by destruct (assoc h (rev entries)).
Qed.

Lemma later_heading_replaces_earlier_witness :
  exists neighborhoods,
    (scrape_config.scrape_main_page Examples.config_network
       Examples.config_world0).1 = Ok neighborhoods /\
    assoc (Py.lit "Area51") neighborhoods
    = Some {| geocities_scraper.info_description :=
                Py.lit "Science fiction and fantasy";
              geocities_scraper.info_burbs := [Py.lit "Vault"] |}.
Proof.
  destruct (later_heading_replaces_earlier Examples.config_network 200
              Examples.main_page Examples.config_world0 eq_refl eq_refl)
    as (neighborhoods & Hrun & _ & _ & Hlast).
  exists neighborhoods. split.
  - rewrite Hrun. reflexivity.
  - rewrite Hlast. vm_compute. reflexivity.
Defined.

(** X22. Every name and every burb of the dict that [scrape_main_page]
    returns is a normal text: no whitespace at either end, and no
    whitespace inside but single spaces. *)
Theorem config_names_are_clean
    (network : Py.str -> scrape_config.response) (w w' : scrape_config.world)
    (neighborhoods : list (Py.str * geocities_scraper.hood_info)) :
  scrape_config.scrape_main_page network w = (Ok neighborhoods, w') ->
  Forall (fun e => scrape_config.normal e.1 /\
                   Forall scrape_config.normal
                     (geocities_scraper.info_burbs e.2))
    neighborhoods.
Proof.
  intros Hrun.
  destruct (fetch_cases (network scrape_config.base_url))
    as [[e Hfail]|(status_code & hood_elements & Hnet & Hstatus)].
  - rewrite (scrape_main_page_failed network e w Hfail) in Hrun.
    discriminate.
  - rewrite (scrape_main_page_fetched network status_code hood_elements w
               Hnet Hstatus) in Hrun.
    injection Hrun as <- _. apply Forall_forall. intros [h info] He.
    apply stored_elem in He as [He|He]; [by apply elem_of_nil in He|].
    apply list_elem_of_omap in He as (el & _ & Hentry).
    destruct (entry_of_Some el h info Hentry) as (text & _ & -> & Hburbs).
    simpl. split; [apply clean_text_normal|]. rewrite Hburbs.
    destruct (scrape_config.table el) as [burb_links|]; [|constructor].
    apply Forall_fmap, Forall_forall. intros link _.
    apply clean_text_normal.
Qed.

Lemma config_names_are_clean_witness :
  exists neighborhoods w',
    scrape_config.scrape_main_page Examples.config_network
      Examples.config_world0 = (Ok neighborhoods, w') /\
    neighborhoods.*1 = [Py.lit "Area51"; Py.lit "Athens"] /\
    Forall (fun e => scrape_config.normal e.1 /\
                     Forall scrape_config.normal
                       (geocities_scraper.info_burbs e.2))
      neighborhoods.
Proof.
  pose proof (scrape_main_page_fetched Examples.config_network 200
                Examples.main_page Examples.config_world0 eq_refl eq_refl)
    as Hrun.
  eexists _, _. split; [exact Hrun|]. split; [vm_compute; reflexivity|].
  exact (config_names_are_clean _ _ _ _ Hrun).
Defined.

(** X23. When the main page cannot be fetched (an exception of
    [requests.get], or a status from 400 to 599), [scrape_main_page] logs
    the error and raises it, and so does [main]: no configuration file is
    written, and the files there are stay as they are. *)
Theorem main_page_failure_writes_no_config
    (network : Py.str -> scrape_config.response) (e : exn)
    (w : scrape_config.world) :
  scrape_config.fetch_failure (network scrape_config.base_url) = Some e ->
  scrape_config.scrape_main_page network w
  = (Raise e,
     scrape_config.add_events w
       [scrape_config.Get scrape_config.base_url;
        scrape_config.Log (scrape_config.ErrorScrapingMainPage e)]) /\
  scrape_config.main network w
  = (Raise e,
     scrape_config.add_events w
       [scrape_config.Get scrape_config.base_url;
        scrape_config.Log (scrape_config.ErrorScrapingMainPage e);
        scrape_config.Log (scrape_config.ScrapingFailed e)]).
Proof.
  intros Hfail. split; [by apply scrape_main_page_failed|].
  unfold scrape_config.main, try_except. unfold bind at 1.
  rewrite (scrape_main_page_failed network e w Hfail).
  unfold bind, scrape_config.log, modify, raise, scrape_config.add_events.
  simpl. by rewrite <- app_assoc.
Qed.

Lemma main_page_failure_writes_no_config_witness :
  scrape_config.main Examples.down_network Examples.config_world0
  = (Raise (HTTPError 503),
     scrape_config.add_events Examples.config_world0
       [scrape_config.Get scrape_config.base_url;
        scrape_config.Log
          (scrape_config.ErrorScrapingMainPage (HTTPError 503));
        scrape_config.Log (scrape_config.ScrapingFailed (HTTPError 503))]).
Proof.
  exact (proj2 (main_page_failure_writes_no_config Examples.down_network
                  (HTTPError 503) Examples.config_world0 eq_refl)).
Defined.

(** X24. When the main page is fetched, [main] writes to
    [geocities_config.json] the base URL of the archive and the dict that
    [scrape_main_page] returns, and the content scraper can use this
    configuration: for every heading of the page with a link,
    [scrape_hood], asked for the cleaned text of the link, returns and
    saves the document of that hood (writing a file is taken to succeed,
    and the configuration to be read back as it was written). *)
Theorem written_config_serves_the_scraper
    (network : Py.str -> scrape_config.response) (status_code : Z)
    (hood_elements : list scrape_config.hood_element)
    (w : scrape_config.world)
    (hood_element : scrape_config.hood_element) (text : Py.str)
    (network' : nat -> Py.str -> geocities_scraper.response)
    (clock' : nat -> Py.str) (resolve : geocities_scraper.resolver)
    (burbs : option (list Py.str)) (w2 : geocities_scraper.world) :
  network scrape_config.base_url
    = scrape_config.Response status_code hood_elements ->
  geocities_scraper.raise_for_status status_code = Ok tt ->
  hood_element ∈ hood_elements ->
  scrape_config.hood_link hood_element = Some text ->
  exists neighborhoods w' d w2',
    let self :=
      {| geocities_scraper.base_url := scrape_config.base_url;
         geocities_scraper.neighborhoods := neighborhoods |} in
    (scrape_config.scrape_main_page network w).1 = Ok neighborhoods /\
    scrape_config.main network w = (Ok tt, w') /\
    scrape_config.files w' !! Py.lit "geocities_config.json" = Some self /\
    (forall f, f <> Py.lit "geocities_config.json" ->
               scrape_config.files w' !! f = scrape_config.files w !! f) /\
    geocities_scraper.scrape_hood network' clock' self resolve
      (scrape_config.clean_text text) burbs w2 = (Ok d, w2') /\
    props.saved resolve (scrape_config.clean_text text) w2'.
Proof.
  intros Hnet Hstatus Hel Hlink.
  pose proof (config_main_fetched network status_code hood_elements w
                Hnet Hstatus) as Hmain. simpl in Hmain.
  pose proof (scrape_main_page_fetched network status_code hood_elements w
                Hnet Hstatus) as Hpage.
  match type of Hpage with
  | _ = (Ok ?nb, _) => set (neighborhoods := nb) in *
  end.
  set (self := {| geocities_scraper.base_url := scrape_config.base_url;
                  geocities_scraper.neighborhoods := neighborhoods |}) in *.
  assert (Hkey : scrape_config.clean_text text
                 ∈ (geocities_scraper.neighborhoods self).*1).
  { subst self neighborhoods. cbn [geocities_scraper.neighborhoods].
    apply stored_keys, entry_names. by exists hood_element, text. }
  apply assoc_Some in Hkey as [hood_info Hassoc].
  destruct (scrape_hood_found network' clock' self resolve
              (scrape_config.clean_text text) burbs hood_info w2 Hassoc)
    as (d & evs & Hrun & Hname & _).
  eexists neighborhoods, _, d, _. cbv zeta. fold self.
  split; [by rewrite Hpage|]. split; [exact Hmain|].
  split; [apply lookup_insert_eq|].
  split; [intros f Hf; by apply lookup_insert_ne|].
  split; [exact Hrun|].
  exists d. split; [apply lookup_insert_eq|exact Hname].
Qed.

Lemma written_config_serves_the_scraper_witness :
  exists neighborhoods w' d w2',
    scrape_config.main Examples.config_network Examples.config_world0
      = (Ok tt, w') /\
    scrape_config.files w' !! Py.lit "geocities_config.json"
      = Some {| geocities_scraper.base_url := scrape_config.base_url;
                geocities_scraper.neighborhoods := neighborhoods |} /\
    geocities_scraper.scrape_hood Examples.network Examples.clock
      {| geocities_scraper.base_url := scrape_config.base_url;
         geocities_scraper.neighborhoods := neighborhoods |}
      Examples.resolve (Py.lit "Area51") None Examples.world0 = (Ok d, w2').
Proof.
  destruct (written_config_serves_the_scraper Examples.config_network 200
              Examples.main_page Examples.config_world0
              (Examples.heading (Some " Area51 ")
                 ["Geocities Icon Area51"; "Science  fiction"]
                 ["Vault"; "Nebula"])
              (Py.lit " Area51 ")
              Examples.network Examples.clock Examples.resolve None
              Examples.world0 eq_refl eq_refl)
    as (neighborhoods & w' & d & w2' & _ & Hmain & Hfile & _ & Hrun & _).
  - apply list_elem_of_In. left. reflexivity.
  - reflexivity.
  - exists neighborhoods, w', d, w2'. split; [exact Hmain|].
    split; [exact Hfile|]. exact Hrun.
Defined.

(** ** The flattener: the names of its files *)

Section file_names.
Import Py props flatten_files.

Lemma rfind_char_app c s1 s2 :
  rfind_char c (s1 ++ s2)
  = match rfind_char c s2 with
    | Some i => Some (length s1 + i)%nat
    | None => rfind_char c s1
    end.
Proof.
  induction s1 as [|d s1 IH]; cbn [app rfind_char length].
  - by destruct (rfind_char c s2).
  - rewrite IH. by destruct (rfind_char c s2).
Qed.

Lemma rfind_char_lt c s i : rfind_char c s = Some i -> (i < length s)%nat.
Proof.
  revert i. induction s as [|d s IH]; intros i; cbn [rfind_char length].
  - discriminate.
  - destruct (rfind_char c s) as [j|].
    + intros [= <-]. specialize (IH j eq_refl). lia.
    + destruct (d =? c)%N; [|discriminate]. intros [= <-]. lia.
Qed.

(** A path that ends in [.json] after a file name that is not dots only:
    [splitext] cuts the extension off. *)
Lemma splitext_root_json stem :
  (exists c, c ∈ basename stem /\ c <> 46%N) ->
  splitext_root (stem ++ lit ".json") = stem.
Proof.
  intros (c & Hc & Hdot). unfold splitext_root, basename in *.
  rewrite !rfind_char_app.
  change (rfind_char 46%N (lit ".json")) with (Some 0%nat).
  change (rfind_char 47%N (lit ".json")) with (@None nat).
  cbv iota beta. rewrite Nat.add_0_r.
  set (filenameIndex := match rfind_char 47%N stem with
                        | Some sepIndex => S sepIndex
                        | None => 0%nat
                        end) in *.
  assert (Hle : (filenameIndex <= length stem)%nat).
  { subst filenameIndex.
    destruct (rfind_char 47%N stem) as [i|] eqn:Hi; [|lia].
    apply rfind_char_lt in Hi. lia. }
  rewrite drop_app_le by done.
  rewrite take_app_le by (rewrite length_drop; lia).
  rewrite take_ge by (rewrite length_drop; lia).
  rewrite take_app_length.
  assert (Hex : existsb (fun c => negb (c =? 46)%N) (drop filenameIndex stem)
                = true).
  { apply existsb_exists. exists c. split; [by apply list_elem_of_In|].
    apply negb_true_iff, N.eqb_neq. exact Hdot. }
  by rewrite Hex.
Qed.

(** The extension is found where it was put. *)
Lemma find_json stem :
  ~ occurs (lit ".json") stem ->
  find (stem ++ lit ".json") (lit ".json") = Some (length stem).
Proof.
  induction stem as [|c stem IH]; intros Hno; [reflexivity|].
  cbn [app find length].
  destruct (startswith (c :: stem ++ lit ".json") (lit ".json")) eqn:Hstart.
  - exfalso. apply bool_decide_eq_true in Hstart as [k Hk].
    change (lit ".json") with [46%N; 106%N; 115%N; 111%N; 110%N] in *.
    destruct stem as [|c2 [|c3 [|c4 [|c5 rest]]]]; simplify_eq/=.
    apply Hno. by exists [], rest.
  - rewrite IH; [done|]. intros (pre & post & ->). apply Hno.
    by exists (c :: pre), post.
Qed.

Lemma metadata_file_name_json stem :
  ~ occurs (lit ".json") stem ->
  metadata_file_name (stem ++ lit ".json") = stem ++ lit "_metadata.json.gz".
Proof.
  intros Hno. unfold metadata_file_name, replace.
  rewrite length_app. change (length (lit ".json")) with 5%nat.
  rewrite Nat.add_succ_r. cbn [replace_aux].
  rewrite (find_json stem Hno).
  rewrite take_app_length.
  rewrite (drop_ge (stem ++ lit ".json")) by (rewrite length_app; lia).
  assert (Hnil : forall fuel,
            replace_aux fuel [] (lit ".json") (lit "_metadata.json.gz") = [])
    by (by intros []).
  by rewrite Hnil, app_nil_r.
Qed.

End file_names.

(** X25. For an output file [stem + ".json"], where [stem] has no [.json]
    in it and its file name is not made of dots only, the metadata go to
    [stem + "_metadata.json.gz"] and chunk [i] to
    [stem + "_chunk_" + str(i) + ".json.gz"]. *)
Theorem json_output_file_names (stem : Py.str) :
  ~ props.occurs (Py.lit ".json") stem ->
  (exists c, c ∈ flatten_files.basename stem /\ c <> 46%N) ->
  flatten_files.metadata_file_name (stem ++ Py.lit ".json")
  = stem ++ Py.lit "_metadata.json.gz" /\
  forall i,
    flatten_files.chunk_file_name (stem ++ Py.lit ".json") i
    = stem ++ Py.lit "_chunk_" ++ flatten_files.str_of_int i
      ++ Py.lit ".json.gz".
Proof.
  intros Hno Hname. split; [by apply metadata_file_name_json|].
  intros i. unfold flatten_files.chunk_file_name.
  by rewrite splitext_root_json.
Qed.

Lemma json_output_file_names_witness :
  flatten_files.metadata_file_name (Py.lit "geocities_flattened.json")
  = Py.lit "geocities_flattened_metadata.json.gz" /\
  flatten_files.chunk_file_name (Py.lit "geocities_flattened.json") 12
  = Py.lit "geocities_flattened_chunk_12.json.gz".
Proof.
  destruct (json_output_file_names (Py.lit "geocities_flattened"))
    as [Hmeta Hchunk].
  - intros H%contains_occurs. vm_compute in H. discriminate.
  - exists 103%N. split; [|discriminate].
    apply list_elem_of_In. vm_compute. auto.
  - split; [exact Hmeta|exact (Hchunk 12)].
Defined.
